(** * Statistical summaries behind [plots.py]

    A shallow embedding of the numerical parts of [src/plots.py]: the
    observable colour table, the overlay of experimental points on model
    curves, the credible-interval formatter, the regime curves of the bulk
    viscosity plot, the arrow canonicalisation of the PCA plot, the emulator
    validation statistics and the histogram smoothing.

    Number model.  A numpy [float64] is read as a real number: rounding,
    overflow and the sign of zero are left out.  Where the program divides,
    the two special values that numpy returns instead of raising (an
    infinity or a NaN) are kept, see [Np.float].  Python [int]s are [Z],
    Python [str]s are [string]. *)

From Stdlib Require Import Reals Lra Lia ZArith List String Ascii Bool.
From Stdlib Require Import DecimalString Permutation Sorted.
Import ListNotations.

Set Implicit Arguments.
Local Open Scope string_scope.

(** ** Python values, exceptions and dictionaries *)

Module Py.

(** The exceptions the embedded code can raise. *)
Inductive exn : Type :=
| KeyError (key : string)
| ValueError (msg : string)
| TypeError (msg : string)
| IndexError
| UnboundLocalError (name : string)
| ArgumentTypeError (arg : string).

(** A Python call either returns or raises. *)
Inductive result (A : Type) : Type :=
| Return (a : A)
| Raise (e : exn).
Arguments Return {A} a.
Arguments Raise {A} e.

Definition bind {A B} (m : result A) (k : A -> result B) : result B :=
  match m with
  | Return a => k a
  | Raise e => Raise e
  end.

(** [try: m  except KeyError: h]. *)
Definition except_KeyError {A} (m : result A) (h : result A) : result A :=
  match m with
  | Raise (KeyError _) => h
  | other => other
  end.

(** [str(n)] for an [int]. *)
Definition str_int (n : Z) : string := NilZero.string_of_int (Z.to_int n).

(** A [dict] literal, as the ordered list of its items; [d[k]] takes the
    first item with an equal key and raises [KeyError] when there is
    none. *)
Section Dict.
Variables (K V : Type) (eqb : K -> K -> bool) (repr : K -> string).

Fixpoint getitem (d : list (K * V)) (k : K) : result V :=
  match d with
  | [] => Raise (KeyError (repr k))
  | (k', v) :: d' => if eqb k' k then Return v else getitem d' k
  end.

Fixpoint contains (d : list (K * V)) (k : K) : bool :=
  match d with
  | [] => false
  | (k', _) :: d' => eqb k' k || contains d' k
  end.

Definition values (d : list (K * V)) : list V := map snd d.

(** [d[k] = v]: the item of an equal key is replaced where it stands, a
    new key goes to the end. *)
Fixpoint setitem (d : list (K * V)) (k : K) (v : V) : list (K * V) :=
  match d with
  | [] => [(k, v)]
  | (k', v') :: d' =>
      if eqb k' k then (k', v) :: d' else (k', v') :: setitem d' k v
  end.

(** [dict(items)]: the items are set one after the other. *)
Definition dict_of (items : list (K * V)) : list (K * V) :=
  fold_left (fun d kv => setitem d (fst kv) (snd kv)) items [].
End Dict.

(** [x in {a, b, ...}] for strings. *)
Definition str_in (x : string) (s : list string) : bool :=
  existsb (String.eqb x) s.

(** [[f(a) for a in l]]: the calls are made in order and the first
    exception ends the comprehension. *)
Fixpoint traverse {A B} (f : A -> result B) (l : list A) : result (list B) :=
  match l with
  | [] => Return []
  | a :: rest =>
      match f a with
      | Raise e => Raise e
      | Return b =>
          match traverse f rest with
          | Raise e => Raise e
          | Return bs => Return (b :: bs)
          end
      end
  end.

End Py.

Notation "x <- m ;; k" := (Py.bind m (fun x => k))
  (at level 61, m at next level, right associativity).
Notation "m >>= k" := (Py.bind m k) (at level 58, left associativity).

(** ** Keys of the observable store *)

(** The third component of an observable key: [None], a species name such
    as ['pion'], or a cumulant index such as [(2, 2)]. *)
Inductive subobs : Type :=
| SubNone
| SubName (species : string)
| SubPair (n k : Z).

Definition subobs_eqb (a b : subobs) : bool :=
  match a, b with
  | SubNone, SubNone => true
  | SubName s, SubName t => String.eqb s t
  | SubPair n k, SubPair n' k' => (n =? n')%Z && (k =? k')%Z
  | _, _ => false
  end.

(** [str(subobs)], as ['{}'.format(subobs)] prints it. *)
Definition subobs_str (s : subobs) : string :=
  match s with
  | SubNone => "None"
  | SubName t => t
  | SubPair n k => "(" ++ Py.str_int n ++ ", " ++ Py.str_int k ++ ")"
  end.

(** ** Colours of the observables *)

Module Color.

Definition hsluv : Type := (Z * Z * Z)%type.

Definition species_colors : list (subobs * hsluv) :=
  [ (SubName "pion", (210, 85, 70)%Z);
    (SubName "kaon", (130, 88, 68)%Z);
    (SubName "proton", (30, 90, 62)%Z) ].

Definition flow_colors : list (subobs * hsluv) :=
  [ (SubPair 2 2, (230, 90, 65)%Z);
    (SubPair 2 4, (262, 80, 63)%Z);
    (SubPair 3 2, (150, 90, 67)%Z);
    (SubPair 4 2, (310, 70, 50)%Z) ].

(** [obs_color_hsluv(obs, subobs)]. *)
Definition obs_color_hsluv (obs : string) (sub : subobs) : Py.result hsluv :=
  if Py.str_in obs ["dNch_deta"; "pT_fluct"] then
    Py.Return (250, 90, 55)%Z
  else if String.eqb obs "dET_deta" then
    Py.Return (10, 65, 55)%Z
  else if Py.str_in obs ["dN_dy"; "mean_pT"] then
    Py.getitem subobs_eqb subobs_str species_colors sub
  else if String.eqb obs "vnk" then
    Py.getitem subobs_eqb subobs_str flow_colors sub
  else
    Py.Raise (Py.ValueError
      ("unknown observable: " ++ obs ++ " " ++ subobs_str sub)).

(** The observable names the table knows. *)
Definition known_observables : list string :=
  ["dNch_deta"; "pT_fluct"; "dET_deta"; "dN_dy"; "mean_pT"; "vnk"].

(** The sub-observables that go with a name: any for the charged
    multiplicity, the transverse energy and the fluctuations, a species
    for the identified yields and mean momenta, a cumulant index of the
    table for the flows. *)
Definition valid_subobs (obs : string) (sub : subobs) : bool :=
  if Py.str_in obs ["dNch_deta"; "pT_fluct"; "dET_deta"] then true
  else if Py.str_in obs ["dN_dy"; "mean_pT"] then
    Py.contains subobs_eqb species_colors sub
  else if String.eqb obs "vnk" then
    Py.contains subobs_eqb flow_colors sub
  else false.

(** The whole colour table, one row per key. *)
Definition color_table : list (string * subobs * hsluv) :=
  [ ("dN_dy", SubName "pion", (210, 85, 70)%Z);
    ("dN_dy", SubName "kaon", (130, 88, 68)%Z);
    ("dN_dy", SubName "proton", (30, 90, 62)%Z);
    ("mean_pT", SubName "pion", (210, 85, 70)%Z);
    ("mean_pT", SubName "kaon", (130, 88, 68)%Z);
    ("mean_pT", SubName "proton", (30, 90, 62)%Z);
    ("vnk", SubPair 2 2, (230, 90, 65)%Z);
    ("vnk", SubPair 2 4, (262, 80, 63)%Z);
    ("vnk", SubPair 3 2, (150, 90, 67)%Z);
    ("vnk", SubPair 4 2, (310, 70, 50)%Z) ].

End Color.

(** ** numpy numbers and arrays *)

Module Np.
Local Open Scope R_scope.

(** A [float64]: a real number, one of the two infinities, or NaN. *)
Inductive float : Type :=
| Fin (r : R)
| PInf
| NInf
| NaN.

Definition Rltb (x y : R) : bool := if Rlt_dec x y then true else false.
Definition Reqb (x y : R) : bool := if Req_dec_T x y then true else false.

Definition neg (x : float) : float :=
  match x with
  | Fin r => Fin (- r)
  | PInf => NInf
  | NInf => PInf
  | NaN => NaN
  end.

(** [x + y]: opposite infinities give NaN. *)
Definition add (x y : float) : float :=
  match x, y with
  | NaN, _ | _, NaN => NaN
  | Fin a, Fin b => Fin (a + b)
  | PInf, NInf | NInf, PInf => NaN
  | PInf, _ | _, PInf => PInf
  | NInf, _ | _, NInf => NInf
  end.

Definition sub (x y : float) : float := add x (neg y).

(** The infinity with the sign of [s * t], for [s] an infinity (positive
    when [pos] holds) and [t] a finite factor; NaN when [t] is zero. *)
Definition inf_times (pos : bool) (t : R) : float :=
  if Reqb t 0 then NaN
  else if Bool.eqb pos (Rltb 0 t) then PInf else NInf.

Definition mul (x y : float) : float :=
  match x, y with
  | NaN, _ | _, NaN => NaN
  | Fin a, Fin b => Fin (a * b)
  | PInf, Fin b | Fin b, PInf => inf_times true b
  | NInf, Fin b | Fin b, NInf => inf_times false b
  | PInf, PInf | NInf, NInf => PInf
  | PInf, NInf | NInf, PInf => NInf
  end.

(** [x / y] as numpy's [true_divide] computes it: no exception, a finite
    non-zero number over zero is an infinity and zero over zero is NaN. *)
Definition div (x y : float) : float :=
  match x, y with
  | NaN, _ | _, NaN => NaN
  | Fin a, Fin b =>
      if Reqb b 0 then
        if Reqb a 0 then NaN else if Rltb 0 a then PInf else NInf
      else Fin (a / b)
  | Fin _, (PInf | NInf) => Fin 0
  | PInf, Fin b => if Rltb b 0 then NInf else PInf
  | NInf, Fin b => if Rltb b 0 then PInf else NInf
  | (PInf | NInf), (PInf | NInf) => NaN
  end.

(** [np.sqrt]: NaN below zero. *)
Definition sqrt (x : float) : float :=
  match x with
  | Fin a => if Rltb a 0 then NaN else Fin (R_sqrt.sqrt a)
  | PInf => PInf
  | NInf | NaN => NaN
  end.

(** [np.square]. *)
Definition square (x : float) : float := mul x x.

(** [abs(x)]. *)
Definition abs (x : float) : float :=
  match x with
  | Fin a => Fin (Rabs a)
  | PInf | NInf => PInf
  | NaN => NaN
  end.

(** [x < y]: false as soon as one side is NaN. *)
Definition lt (x y : float) : bool :=
  match x, y with
  | NaN, _ | _, NaN => false
  | Fin a, Fin b => Rltb a b
  | _, NInf => false
  | NInf, _ => true
  | PInf, _ => false
  | Fin _, PInf => true
  end.

(** [np.add.reduce] over the values [f 0], ..., [f (n - 1)]. *)
Fixpoint sum_upto (n : nat) (f : nat -> float) : float :=
  match n with
  | O => Fin 0
  | S k => add (sum_upto k f) (f k)
  end.

(** Arrays, as a shape and the item at each index. *)
Record array1 : Type := Array1 { len : nat; item1 : nat -> float }.
Record array2 : Type :=
  Array2 { rows : nat; cols : nat; item2 : nat -> nat -> float }.
Record array3 : Type :=
  Array3 { dim0 : nat; dim1 : nat; dim2 : nat;
           item3 : nat -> nat -> nat -> float }.

(** [a.T] for three axes: the axes are reversed. *)
Definition T3 (a : array3) : array3 :=
  {| dim0 := dim2 a; dim1 := dim1 a; dim2 := dim0 a;
     item3 := fun i j k => item3 a k j i |}.

(** [a.diagonal()] for three axes: the diagonal of the first two axes,
    which becomes the last axis of the result. *)
Definition diagonal (a : array3) : array2 :=
  {| rows := dim2 a; cols := Nat.min (dim0 a) (dim1 a);
     item2 := fun i j => item3 a j j i |}.

(** The length of an axis after broadcasting two operands. *)
Definition broadcast_dim (a b : nat) : option nat :=
  if Nat.eqb a b then Some a
  else if Nat.eqb a 1 then Some b
  else if Nat.eqb b 1 then Some a
  else None.

(** The index into an operand whose axis has length [dim]. *)
Definition broadcast_index (dim i : nat) : nat :=
  if Nat.eqb dim 1 then O else i.

(** An elementwise binary operation on two-axis arrays; shapes that do
    not broadcast raise [ValueError]. *)
Definition map2 (f : float -> float -> float) (a b : array2)
  : Py.result array2 :=
  match broadcast_dim (rows a) (rows b), broadcast_dim (cols a) (cols b) with
  | Some r, Some c =>
      Py.Return
        {| rows := r; cols := c;
           item2 := fun i j =>
             f (item2 a (broadcast_index (rows a) i)
                        (broadcast_index (cols a) j))
               (item2 b (broadcast_index (rows b) i)
                        (broadcast_index (cols b) j)) |}
  | _, _ => Py.Raise (Py.ValueError "operands could not be broadcast together")
  end.

(** An elementwise unary operation. *)
Definition map_array2 (f : float -> float) (a : array2) : array2 :=
  {| rows := rows a; cols := cols a; item2 := fun i j => f (item2 a i j) |}.

Definition map_array1 (f : float -> float) (a : array1) : array1 :=
  {| len := len a; item1 := fun j => f (item1 a j) |}.

(** [a.mean(axis=0)]: the sum down each column over the number of rows. *)
Definition mean_axis0 (a : array2) : array1 :=
  {| len := cols a;
     item1 := fun j =>
       div (sum_upto (rows a) (fun i => item2 a i j)) (Fin (INR (rows a))) |}.

(** Row [i] and column [j] of an array. *)
Definition row (a : array2) (i : nat) : array1 :=
  {| len := cols a; item1 := fun j => item2 a i j |}.
Definition column (a : array2) (j : nat) : array1 :=
  {| len := rows a; item1 := fun i => item2 a i j |}.

(** [np.array(l)] for a list of numbers. *)
Definition of_list (l : list float) : array1 :=
  {| len := List.length l; item1 := fun i => nth i l NaN |}.

(** [np.full]: the arrays that hold [x] everywhere, of length [n], of
    [n] rows and [m] columns, and of [n] square matrices of side [m]. *)
Definition full1 (n : nat) (x : float) : array1 :=
  {| len := n; item1 := fun _ => x |}.
Definition full2 (n m : nat) (x : float) : array2 :=
  {| rows := n; cols := m; item2 := fun _ _ => x |}.
Definition full3 (n m : nat) (x : float) : array3 :=
  {| dim0 := n; dim1 := m; dim2 := m; item3 := fun _ _ _ => x |}.

End Np.

(** ** Emulator validation *)

Module Validation.
Import Np.
Local Open Scope R_scope.

(** The statistics of [validation_all] for one observable: [Y] is the
    model calculation, [Y_] the emulator mean and [cov] the emulator
    covariance, one matrix per validation point.

    [[
      S_ = np.sqrt(cov.T.diagonal())
      Z = (Y_ - Y)/S_
      rms = 100*np.sqrt(np.square(Y_/Y - 1).mean(axis=0))
    ]]

    The result is the pair [(Z, rms)]. *)
Definition validation_stats (Y Y_ : array2) (cov : array3)
  : Py.result (array2 * array1) :=
  let S_ := map_array2 sqrt (diagonal (T3 cov)) in
  d <- map2 sub Y_ Y ;;
  Z <- map2 div d S_ ;;
  ratio <- map2 div Y_ Y ;;
  let rms :=
    map_array1 (mul (Fin 100))
      (map_array1 sqrt
         (mean_axis0
            (map_array2 square
               (map_array2 (fun r => sub r (Fin 1)) ratio)))) in
  Py.Return (Z, rms).

(** The shapes [validation_all] works with: [n] validation points and
    [m] bins. *)
Definition well_shaped (n m : nat) (Y Y_ : array2) (cov : array3) : Prop :=
  rows Y = n /\ cols Y = m /\ rows Y_ = n /\ cols Y_ = m /\
  dim0 cov = n /\ dim1 cov = m /\ dim2 cov = m.

(** A number that is neither an infinity nor NaN. *)
Definition finite (x : float) : Prop :=
  match x with Fin _ => True | _ => False end.

(** A variance above zero. *)
Definition positive (x : float) : Prop :=
  match x with Fin r => 0 < r | PInf => True | _ => False end.

(** A value that is an infinity or NaN. *)
Definition blown (x : float) : Prop := x = PInf \/ x = NInf \/ x = NaN.

(** A value that is the positive infinity or NaN. *)
Definition blown_up (x : float) : Prop := x = PInf \/ x = NaN.

End Validation.

(** ** Model observables with experimental points *)

Module Observables.
Import Np.
Local Open Scope R_scope.

(** A datasets mapping [data[system][obs][subobs]]. *)
Definition dataset (A : Type) : Type :=
  list (string * list (string * list (subobs * A))).

Definition str_repr (s : string) : string := s.

(** [data[system][obs][subobs]]: a [KeyError] at the first level that
    lacks its key. *)
Definition lookup {A} (data : dataset A) (system obs : string) (sub : subobs)
  : Py.result A :=
  by_system <- Py.getitem String.eqb str_repr data system ;;
  by_obs <- Py.getitem String.eqb str_repr by_system obs ;;
  Py.getitem subobs_eqb subobs_str by_obs sub.

(** An entry of [model.data]: bin positions and one row of values per
    design point. *)
Record model_entry : Type := ModelEntry { model_x : array1; model_Y : array2 }.

(** An entry of [expt.data]: bin positions, values, and the errors by
    source when the entry has them. *)
Record expt_entry : Type :=
  ExptEntry { expt_x : array1; expt_y : array1;
              expt_yerr : option (list (string * array1)) }.

(** The options of a subplot: [opts.get('label')] and [opts.get('scale')]. *)
Record opts : Type := Opts { label : option string; scale : option float }.

Definition subplot : Type := (string * subobs * opts)%type.

(** What [sum] and [np.sqrt] work on: a number or an array. *)
Inductive value : Type :=
| Scalar (x : float)
| Arr (a : array1).

(** [a + b] with numpy broadcasting. *)
Definition value_add (a b : value) : Py.result value :=
  match a, b with
  | Scalar x, Scalar y => Py.Return (Scalar (add x y))
  | Scalar x, Arr v => Py.Return (Arr (map_array1 (add x) v))
  | Arr u, Scalar y => Py.Return (Arr (map_array1 (fun t => add t y) u))
  | Arr u, Arr v =>
      match broadcast_dim (len u) (len v) with
      | Some n =>
          Py.Return (Arr
            {| len := n;
               item1 := fun i =>
                 add (item1 u (broadcast_index (len u) i))
                     (item1 v (broadcast_index (len v) i)) |})
      | None =>
          Py.Raise (Py.ValueError "operands could not be broadcast together")
      end
  end.

Definition value_map (f : float -> float) (a : value) : value :=
  match a with
  | Scalar x => Scalar (f x)
  | Arr u => Arr (map_array1 f u)
  end.

(** The builtin [sum(items, start)]. *)
Fixpoint py_sum (items : list value) (start : value) : Py.result value :=
  match items with
  | [] => Py.Return start
  | e :: rest => s <- value_add start e ;; py_sum rest s
  end.

(** [np.sqrt(sum(e**2 for e in yerr.values()))]. *)
Definition total_yerr (yerr : list (string * array1)) : Py.result value :=
  s <- py_sum (map (fun e => Arr (map_array1 square e)) (Py.values yerr))
              (Scalar (Fin 0)) ;;
  Py.Return (value_map sqrt s).

(** The calls recorded on an axes.  A colour is the HSLuv triple of the
    observable; its conversion to RGB and the fixed styling arguments are
    left to the renderer.  The vertical position of a label is the median
    of the column recorded in [Text]. *)
Inductive draw : Type :=
| Plot (x y : array1) (color : Color.hsluv)
| Text (x : float) (median_of : array1) (s : string) (color : Color.hsluv)
| Errorbar (x y : array1) (yerr : value).

(** [x[-1]]. *)
Definition last_item (x : array1) : Py.result float :=
  match len x with
  | O => Py.Raise Py.IndexError
  | S k => Py.Return (item1 x k)
  end.

(** [Y[:, -1]]. *)
Definition last_column (Y : array2) : Py.result array1 :=
  match cols Y with
  | O => Py.Raise Py.IndexError
  | S k => Py.Return (column Y k)
  end.

(** [Y*scale] when [scale is not None]. *)
Definition scaled2 (sc : option float) (Y : array2) : array2 :=
  match sc with
  | Some s => map_array2 (fun y => mul y s) Y
  | None => Y
  end.
Definition scaled1 (sc : option float) (y : array1) : array1 :=
  match sc with
  | Some s => map_array1 (fun t => mul t s) y
  | None => y
  end.
Definition scaled_value (sc : option float) (v : value) : value :=
  match sc with
  | Some s => value_map (fun t => mul t s) v
  | None => v
  end.

(** The globals [_observables] reads: [model.data], [expt.data], and the
    posterior samples [mcmc.Chain().samples(100)]. *)
Record env : Type :=
  Env { model_data : dataset model_entry;
        expt_data : dataset expt_entry;
        samples : dataset array2 }.

(** [ax.plot(x, y, color=color, ...)]: matplotlib refuses an [x] and a
    [y] of different lengths with [ValueError]. *)
Definition plot_call (x y : array1) (c : Color.hsluv) : Py.result draw :=
  if Nat.eqb (len x) (len y) then Py.Return (Plot x y c)
  else Py.Raise (Py.ValueError "x and y must have same first dimension").

(** [ax.errorbar(x, y, yerr=yerr, ...)]: [ValueError] for an [x] and a
    [y] of different lengths, and for an array of errors whose length
    is not that of [y]; one number as the error serves every point. *)
Definition errorbar_call (x y : array1) (yerr : value) : Py.result draw :=
  if negb (Nat.eqb (len x) (len y)) then
    Py.Raise (Py.ValueError "x and y must have same first dimension")
  else
    match yerr with
    | Arr a =>
        if Nat.eqb (len a) (len y) then Py.Return (Errorbar x y yerr)
        else Py.Raise (Py.ValueError "yerr must be a scalar or of the shape of y")
    | Scalar _ => Py.Return (Errorbar x y yerr)
    end.

(** The curves of one subplot: [for y in Y: ax.plot(x, y, ...)], one
    call for each row of [Y], in order. *)
Definition model_curves (x : array1) (Y : array2) (c : Color.hsluv)
  : Py.result (list draw) :=
  Py.traverse (fun i => plot_call x (row Y i) c) (seq 0 (rows Y)).

(** The label of one subplot, when [opts] has one. *)
Definition model_label (x : array1) (Y : array2) (c : Color.hsluv)
  (o : opts) : Py.result (list draw) :=
  match label o with
  | Some s =>
      xl <- last_item x ;;
      col <- last_column Y ;;
      Py.Return [Text (add xl (Fin 3)) col s c]
  | None => Py.Return []
  end.

(** The experimental points of one subplot, after the [try]. *)
Definition expt_points (dset : expt_entry) (o : opts)
  : Py.result (list draw) :=
  match expt_yerr dset with
  | None => Py.Raise (Py.KeyError "yerr")
  | Some sources =>
      yerr <- total_yerr sources ;;
      bar <- errorbar_call (expt_x dset) (scaled1 (scale o) (expt_y dset))
                           (scaled_value (scale o) yerr) ;;
      Py.Return [bar]
  end.

(** One turn of the loop [for obs, subobs, opts in plot['subplots']] on
    the axes [ax], the list of the calls made so far. *)
Definition subplot_body (e : env) (posterior : bool) (system : string)
  (ax : list draw) (sp : subplot) : Py.result (list draw) :=
  let '(obs, sub, o) := sp in
  color <- Color.obs_color_hsluv obs sub ;;
  entry <- lookup (model_data e) system obs sub ;;
  let x := model_x entry in
  Y0 <- (if posterior then lookup (samples e) system obs sub
         else Py.Return (model_Y entry)) ;;
  let Y := scaled2 (scale o) Y0 in
  curves <- model_curves x Y color ;;
  let ax1 := (ax ++ curves)%list in
  lbl <- model_label x Y color o ;;
  let ax2 := (ax1 ++ lbl)%list in
  Py.except_KeyError
    (dset <- lookup (expt_data e) system obs sub ;;
     Py.Return (Some dset))
    (Py.Return None)
  >>= fun found =>
  match found with
  | None => Py.Return ax2
  | Some dset =>
      pts <- expt_points dset o ;;
      Py.Return (ax2 ++ pts)%list
  end.

(** The whole loop over the subplots of one axes. *)
Fixpoint subplots_loop (e : env) (posterior : bool) (system : string)
  (ax : list draw) (sps : list subplot) : Py.result (list draw) :=
  match sps with
  | [] => Py.Return ax
  | sp :: rest =>
      ax' <- subplot_body e posterior system ax sp ;;
      subplots_loop e posterior system ax' rest
  end.

(** [_observables_plots()]: the subplots of the four rows of axes. *)
Definition id_parts_plots (obs : string) : list subplot :=
  [ (obs, SubName "pion", Opts (Some "$\pi$") None);
    (obs, SubName "kaon", Opts (Some "$K$") None);
    (obs, SubName "proton", Opts (Some "$p$") None) ].

Definition observables_plots : list (list subplot) :=
  [ [ ("dNch_deta", SubNone, Opts (Some "$N_\mathrm{ch}$") (Some (Fin 25)));
      ("dET_deta", SubNone, Opts (Some "$E_T$") (Some (Fin 5))) ]
      ++ id_parts_plots "dN_dy";
    id_parts_plots "mean_pT";
    [ ("pT_fluct", SubNone, Opts None None) ];
    [ ("vnk", SubPair 2 2, Opts (Some "$v_2$") None);
      ("vnk", SubPair 3 2, Opts (Some "$v_3$") None);
      ("vnk", SubPair 4 2, Opts (Some "$v_4$") None) ] ]%list.

(** The value of a float that is finite, and zero otherwise. *)
Definition real_of (x : float) : R :=
  match x with Fin r => r | _ => 0 end.

(** A small store: the model has the mean-momentum fluctuations and the
    charged multiplicity of PbPb2760 at two bins for three design points,
    the experiment only has the charged multiplicity. *)
Definition example_env : env :=
  {| model_data :=
       [ ("PbPb2760",
          [ ("pT_fluct",
             [ (SubNone, ModelEntry (full1 2 (Fin 10)) (full2 3 2 (Fin 1))) ]);
            ("dNch_deta",
             [ (SubNone, ModelEntry (full1 2 (Fin 10)) (full2 3 2 (Fin 2))) ])
          ]) ];
     expt_data :=
       [ ("PbPb2760",
          [ ("dNch_deta",
             [ (SubNone,
                ExptEntry (full1 2 (Fin 10)) (full1 2 (Fin 1))
                  (Some [ ("stat", full1 2 (Fin 3));
                          ("sys", full1 2 (Fin 4)) ])) ]) ]) ];
     samples := [] |}.

(** The squares of the errors of all the sources at bin [i], summed. *)
Definition squares_at (i : nat) (es : list array1) : R :=
  fold_right Rplus 0 (map (fun e => Rsqr (real_of (item1 e i))) es).

(** A call that is not [ax.errorbar]. *)
Definition not_errorbar (d : draw) : Prop :=
  match d with Errorbar _ _ _ => False | _ => True end.

End Observables.

(** ** Summaries of the posterior samples *)

Module Posterior.
Import Np.
Local Open Scope R_scope.

(** Modelled from the spec: the default level of [mcmc.credible_interval],
    whose module is not among the sources; the spec gives
    [credible_interval(samples, level = 0.9)]. *)
Definition default_ci : float := Fin 0.9.

(** [Tc = .154]. *)
Definition Tc : float := Fin 0.154.

(** [zetas(T, zetas_max, zetas_width)], the bulk viscosity at each
    temperature of [T]:
    [zetas_max / (1 + ((T - Tc)/zetas_width)**2)]. *)
Definition zetas (T : array1) (zetas_max zetas_width : float) : array1 :=
  map_array1
    (fun t => div zetas_max
                (add (Fin 1) (square (div (sub t Tc) zetas_width))))
    T.

(** [zetas(T, **params)]: the keywords are bound by name, a name that
    [zetas] does not have raises [TypeError], a missing one takes its
    default, [zetas_max=0] or [zetas_width=1]. *)
Definition keyword (params : list (string * float)) (name : string)
  (default : float) : float :=
  match Py.getitem String.eqb (fun s => s) params name with
  | Py.Return v => v
  | Py.Raise _ => default
  end.

Definition call_zetas (T : array1) (params : list (string * float))
  : Py.result array1 :=
  if forallb (fun kv => Py.str_in (fst kv) ["zetas_max"; "zetas_width"])
             params
  then Py.Return (zetas T (keyword params "zetas_max" (Fin 0))
                          (keyword params "zetas_width" (Fin 1)))
  else Py.Raise (Py.TypeError "zetas() got an unexpected keyword argument").

(** [samples[labels == n]]: the rows whose label is [n], in their order. *)
Definition masked (samples : array2) (labels : nat -> nat) (n : nat)
  : array2 :=
  let idx := filter (fun i => Nat.eqb (labels i) n) (seq 0 (rows samples)) in
  {| rows := List.length idx; cols := cols samples;
     item2 := fun r j => item2 samples (nth r idx O) j |}.

(** [a.T] for two axes. *)
Definition T2 (a : array2) : array2 :=
  {| rows := cols a; cols := rows a; item2 := fun i j => item2 a j i |}.

(** [for s in a]: the rows of an array. *)
Definition iter_rows (a : array2) : list array1 :=
  map (row a) (seq 0 (rows a)).

Section Collaborators.

(** The three functions that the summaries call and that are not among
    the sources: [mcmc.credible_interval(samples, ci)], which returns the
    two ends of the interval, [np.median], and [fmt.format(x)] for a
    number. *)
Variable credible_interval : array1 -> float -> float * float.
Variable median : array1 -> float.
Variable str_format : string -> float -> string.


End Collaborators.

End Posterior.

(** ** Arrows of the principal components *)

Module Pca.
Import Np.
Local Open Scope R_scope.

(** [pc = 7 * xystd * pca.explained_variance_ratio_[:, np.newaxis] *
    pca.components_]: row [i] is component [i], scaled back to the units
    of the data and by its share of the variance. *)
Definition pc (xystd ratio : array1) (components : array2) : array2 :=
  {| rows := rows components; cols := cols components;
     item2 := fun i j =>
       mul (mul (mul (Fin 7) (item1 xystd j)) (item1 ratio i))
           (item2 components i j) |}.

(** [x < 0]: false for NaN. *)
Definition is_negative (x : float) : bool :=
  match x with
  | Fin r => Rltb r 0
  | NInf => true
  | PInf | NaN => false
  end.

Fixpoint all_upto (n : nat) (f : nat -> bool) : bool :=
  match n with
  | O => true
  | S k => all_upto k f && f k
  end.

(** [np.all(p < 0)]. *)
Definition all_negative (p : array1) : bool :=
  all_upto (len p) (fun i => is_negative (item1 p i)).

(** [if np.all(p < 0): p *= -1]: the vector the arrow is drawn for. *)
Definition flip (p : array1) : array1 :=
  if all_negative p then map_array1 (fun x => mul x (Fin (-1))) p else p.

(** The arrows of the loop [for w, p in zip(ratio, pc)]. *)
Definition arrows (xystd ratio : array1) (components : array2)
  : list array1 :=
  let pcs := pc xystd ratio components in
  map (fun i => flip (row pcs i)) (seq 0 (Nat.min (len ratio) (rows pcs))).

(** [x <= 0]: false for NaN. *)
Definition is_nonpositive (x : float) : Prop :=
  match x with
  | Fin r => r <= 0
  | NInf => True
  | PInf | NaN => False
  end.

(** [x > 0]. *)
Definition is_positive (x : float) : Prop :=
  match x with
  | Fin r => 0 < r
  | PInf => True
  | NInf | NaN => False
  end.

End Pca.

(** ** Normal quantiles beside the residuals *)

Module Guides.
Local Open Scope R_scope.

Section Special.

(** [scipy.special.erf] and [scipy.special.erfinv]. *)
Variables erf erfinv : R -> R.

(** [q, p = np.sqrt(2) * special.erfinv(2*np.array([.75, .90]) - 1)]. *)
Definition q_guide : R := sqrt 2 * erfinv (2 * 0.75 - 1).
Definition p_guide : R := sqrt 2 * erfinv (2 * 0.90 - 1).

(** The band [axhspan(-q, q)] and the lines [axhline(s*p)] for [s] in
    [-1, 0, 1]. *)
Definition band : R * R := (- q_guide, q_guide).
Definition lines : list R := map (fun s => s * p_guide) [-1; 0; 1].

(** [set_yticks([-p, -q, 0, q, p])] with
    [set_yticklabels([10, 25, 50, 75, 90])]: each position with the
    percentage written beside it. *)
Definition quantile_ticks : list (R * Z) :=
  combine [- p_guide; - q_guide; 0; q_guide; p_guide]
          [10; 25; 50; 75; 90]%Z.

(** The normal quantile reached at [s] standard deviations,
    [0.5*(1 + erf(s/sqrt2))]. *)
Definition quantile_at_sigma (s : R) : R := 0.5 * (1 + erf (s / sqrt 2)).

End Special.

(** A function with the three properties of the error function that the
    guides rest on, used to try the statements: two arctangents over pi,
    and its inverse. *)
Definition sigmoid (x : R) : R := 2 / PI * atan x.
Definition sigmoid_inv (y : R) : R := tan (PI / 2 * y).

End Guides.

(** ** Smoothing of the histograms *)

Module Pchip.
Local Open Scope R_scope.

(** [np.diff]. *)
Fixpoint diff (l : list R) : list R :=
  match l with
  | a :: ((b :: _) as rest) => (b - a) :: diff rest
  | _ => []
  end.

(** [np.sign]. *)
Definition sign (r : R) : Z :=
  if Rlt_dec r 0 then (-1)%Z else if Req_dec_T r 0 then 0%Z else 1%Z.

(** Modelled from the spec: the slope at an end knot of the
    shape-preserving cubic interpolant, [PchipInterpolator._edge_case] of
    scipy, which is not among the sources: the three-point estimate, set
    to zero when its sign differs from the sign of the first secant, and
    held to three times that secant when the secants change sign. *)
Definition edge_case (h0 h1 m0 m1 : R) : R :=
  let d := ((2 * h0 + h1) * m0 - h0 * m1) / (h0 + h1) in
  if negb (Z.eqb (sign d) (sign m0)) then 0
  else if negb (Z.eqb (sign m0) (sign m1))
          && (if Rlt_dec (3 * Rabs m0) (Rabs d) then true else false)
       then 3 * m0
       else d.

(** Modelled from the spec: the slope at an inner knot, between the
    secants [m0] over [h0] and [m1] over [h1]: zero where the secants
    change sign or one is flat, else their weighted harmonic mean. *)
Definition inner_slope (h0 h1 m0 m1 : R) : R :=
  if negb (Z.eqb (sign m1) (sign m0))
     || (if Req_dec_T m1 0 then true else false)
     || (if Req_dec_T m0 0 then true else false)
  then 0
  else
    let w1 := 2 * h1 + h0 in
    let w2 := h1 + 2 * h0 in
    1 / ((w1 / m0 + w2 / m1) / (w1 + w2)).

(** Modelled from the spec: the slopes at all the knots,
    [PchipInterpolator._find_derivatives]: with two knots the secant at
    both, else the end rule at the two ends and the inner rule between. *)
Definition find_derivatives (x y : list R) : list R :=
  let hk := diff x in
  let mk := map (fun hm => snd hm / fst hm) (combine hk (diff y)) in
  let h k := nth k hk 0 in
  let m k := nth k mk 0 in
  let n := List.length x in
  if Nat.eqb n 2 then [m O; m O]
  else
    map (fun k =>
           if Nat.eqb k 0 then edge_case (h 0%nat) (h 1%nat) (m 0%nat) (m 1%nat)
           else if Nat.eqb k (n - 1)
                then edge_case (h (n - 2)%nat) (h (n - 3)%nat)
                               (m (n - 2)%nat) (m (n - 3)%nat)
                else inner_slope (h (k - 1)%nat) (h k) (m (k - 1)%nat) (m k))
        (seq 0 n).

(** Modelled from the spec: the cubic on the interval from the knot
    [(x0, y0)] with slope [d0] to the knot [(x1, y1)] with slope [d1], in
    powers of [x - x0] as scipy's [CubicHermiteSpline] stores it. *)
Definition hermite (x0 y0 d0 x1 y1 d1 xq : R) : R :=
  let h := x1 - x0 in
  let slope := (y1 - y0) / h in
  let t := (d0 + d1 - 2 * slope) / h in
  let c0 := t / h in
  let c1 := (slope - d0) / h - t in
  let c2 := d0 in
  let c3 := y0 in
  let u := xq - x0 in
  c0 * (u * u * u) + c1 * (u * u) + c2 * u + c3.

(** A knot: position, height and slope. *)
Definition knot : Type := (R * R * R)%type.
Definition position (kn : knot) : R := fst (fst kn).
Definition height (kn : knot) : R := snd (fst kn).

(** Modelled from the spec: the value of the interpolant at [xq]: the
    cubic of the interval that holds [xq], each interval closed to the
    left, the last one also to the right; outside the knots the first or
    the last cubic is used. *)
Fixpoint eval (knots : list knot) (xq : R) : R :=
  match knots with
  | (x0, y0, d0) :: (((x1, y1, d1) :: rest) as tail) =>
      match rest with
      | [] => hermite x0 y0 d0 x1 y1 d1 xq
      | _ :: _ =>
          if Rlt_dec xq x1 then hermite x0 y0 d0 x1 y1 d1 xq
          else eval tail xq
      end
  | _ => 0
  end.

(** [x] strictly increasing. *)
Fixpoint increasing (x : list R) : bool :=
  match x with
  | a :: ((b :: _) as rest) =>
      (if Rlt_dec a b then true else false) && increasing rest
  | _ => true
  end.

(** Modelled from the spec: [PchipInterpolator(x, y)], which is not
    among the sources: it needs as many heights as positions, two knots
    at least and strictly increasing positions, and returns the
    interpolant. *)
Definition PchipInterpolator (x y : list R) : Py.result (R -> R) :=
  if negb (Nat.eqb (List.length x) (List.length y)) then
    Py.Raise (Py.ValueError "x and y arrays must be equal in length")
  else if Nat.ltb (List.length x) 2 then
    Py.Raise (Py.ValueError "at least 2 breakpoints are needed")
  else if negb (increasing x) then
    Py.Raise (Py.ValueError "x must be strictly increasing")
  else
    Py.Return
      (eval (combine (combine x y) (find_derivatives x y))).

(** [np.linspace(start, stop, num)]. *)
Definition linspace (start stop : R) (num : nat) : list R :=
  let step := (stop - start) / INR (num - 1) in
  map (fun i =>
         if Nat.ltb 1 num && Nat.eqb i (num - 1) then stop
         else INR i * step + start)
      (seq 0 num).

(** The smoothing of [_posterior] and [posterior_p] for a histogram with
    bin centers [x] and heights [y]:

    [[
      interp = PchipInterpolator(x, y)
      x = np.linspace(x[0], x[-1], 10*x.size)
      y = interp(x)
    ]]

    The result is the pair of the new [x] and [y]. *)
Definition smooth (x y : list R) : Py.result (list R * list R) :=
  interp <- PchipInterpolator x y ;;
  match x with
  | [] => Py.Raise Py.IndexError
  | first :: _ =>
      let dense := linspace first (last x 0) (10 * List.length x) in
      Py.Return (dense, map interp dense)
  end.

End Pchip.

(** ** Credible intervals *)

Module Mcmc.
Import Np.
Local Open Scope R_scope.

(** Modelled from the spec: a number put at its place in a list in
    ascending order. *)
Fixpoint insert (x : R) (l : list R) : list R :=
  match l with
  | [] => [x]
  | y :: rest => if Rle_dec x y then x :: y :: rest else y :: insert x rest
  end.

(** Modelled from the spec: the order statistics of a sample, the sample
    in ascending order. *)
Definition sort (l : list R) : list R := fold_right insert [] l.

(** Modelled from the spec: the empirical quantile at the fraction [p] of
    a sample of size n, interpolated linearly between the order
    statistics at the floor and at the ceiling of the position
    [p*(n - 1)].  At a whole position the weight of the upper rank is
    zero, so the rank after the floor, kept within the sample, serves
    as the ceiling. *)
Definition quantile (l : list R) (p : R) : R :=
  let s := sort l in
  let h := p * INR (List.length l - 1) in
  let lo := Z.to_nat (Int_part h) in
  let hi := Nat.min (S lo) (List.length l - 1) in
  nth lo s 0 + (h - INR lo) * (nth hi s 0 - nth lo s 0).

(** Modelled from the spec: the items of an array, in order. *)
Definition to_list (a : array1) : list float := map (item1 a) (seq 0 (len a)).

(** Modelled from the spec: the real numbers of a sample all of whose
    items are finite. *)
Fixpoint reals_of (l : list float) : option (list R) :=
  match l with
  | [] => Some []
  | Fin r :: rest => option_map (cons r) (reals_of rest)
  | _ :: _ => None
  end.

(** Modelled from the spec: [mcmc.credible_interval(samples, level)],
    whose module is not among the sources.  The spec gives the contract
    [credible_interval(samples, level = 0.9) -> (lower, upper)]: the two
    empirical quantiles at [(1 - level)/2] and [1 - (1 - level)/2], and
    an error for an empty sample or a level outside (0, 1).  The spec
    speaks of numeric samples only; for a sample with an item that is
    not finite the model gives NaN at both ends. *)
Definition credible_interval (samples : array1) (level : float)
  : Py.result (float * float) :=
  match level with
  | Fin ci =>
      if Rltb 0 ci && Rltb ci 1 then
        match reals_of (to_list samples) with
        | Some [] => Py.Raise (Py.ValueError "empty sample set")
        | Some l =>
            Py.Return (Fin (quantile l ((1 - ci) / 2)),
                       Fin (quantile l (1 - (1 - ci) / 2)))
        | None => Py.Return (NaN, NaN)
        end
      else Py.Raise (Py.ValueError "level outside (0, 1)")
  | _ => Py.Raise (Py.ValueError "level outside (0, 1)")
  end.

End Mcmc.

(** ** The bulk viscosity of [_region_bulk] *)

Module Bulk.
Import Np.
Import Posterior.
Local Open Scope R_scope.

(** [T = Tc*np.linspace(.5, 1.5, 1000)]. *)
Definition T : array1 :=
  map_array1 (fun t => mul Tc t)
             (of_list (map Fin (Pchip.linspace 0.5 1.5 1000))).

(** [i for i in zip(chain.keys, chain.range) if i[0].startswith('zetas')]. *)
Definition zetas_items (chain_keys : list string)
  (chain_range : list (float * float)) : list (string * (float * float)) :=
  filter (fun i => String.prefix "zetas" (fst i))
         (combine chain_keys chain_range).

(** [keys, ranges = map(list, zip] of the starred items [)]: the keys
    and the ranges apart; without an item there is nothing to unpack,
    which raises [ValueError]. *)
Definition unpack_items (items : list (string * (float * float)))
  : Py.result (list string * list (float * float)) :=
  match items with
  | [] =>
      Py.Raise (Py.ValueError "not enough values to unpack (expected 2, got 0)")
  | _ :: _ => Py.Return (map fst items, map snd items)
  end.

(** [maxdict = {k: r[1] for k, r in zip(keys, ranges)}]. *)
Definition maxdict (keys : list string) (ranges : list (float * float))
  : list (string * float) :=
  Py.dict_of String.eqb (combine keys (map snd ranges)).

(** What the function puts on the axes: the upper edge of the prior
    region, the limits of the vertical axis, and the curves with the
    colour map of each. *)
Record figure : Type :=
  Figure { prior : array1; ylim : float * float;
           curves : list (string * array1) }.

(** The curves of the mode ['examples']. *)
Definition examples : list (string * array1) :=
  map (fun args => ("Blues", zetas T (Fin (fst args)) (Fin (snd args))))
      [(0.025, 0.01); (0.050, 0.03); (0.075, 0.05)].

(** The parameters of the curve of regime [n]:
    [dict(zip(keys, (mcmc.credible_interval(s)[1]
                     for s in samples[labels == n].T)))].
    [zip] asks for a key before it asks for the next column, so the
    interval is computed for as many columns as there are keys, at
    most. *)
Definition regime_params (keys : list string) (samples : array2)
  (labels : nat -> nat) (n : nat) : Py.result (list (string * float)) :=
  uppers <- Py.traverse
              (fun s => ci <- Mcmc.credible_interval s default_ci ;;
                        Py.Return (snd ci))
              (firstn (List.length keys)
                      (iter_rows (T2 (masked samples labels n)))) ;;
  Py.Return (Py.dict_of String.eqb (combine keys uppers)).

(** One turn of the loop [for n in range(gmm.n_components)]: the colour
    map chosen for the regime and its curve. *)
Definition regime_curve (keys : list string) (samples : array2)
  (labels : nat -> nat) (n : nat) : Py.result (string * array1) :=
  params <- regime_params keys samples labels n ;;
  zmax <- Py.getitem String.eqb (fun s => s) params "zetas_max" ;;
  cmap <- (if lt (Fin 0.05) zmax then Py.Return "Blues"
           else
             zwidth <- Py.getitem String.eqb (fun s => s) params
                         "zetas_width" ;;
             Py.Return (if lt (Fin 0.03) zwidth then "Greens"
                        else "Oranges")) ;;
  curve <- call_zetas T params ;;
  Py.Return (cmap, curve).

(** The curves of the regimes [ns], in order. *)
Fixpoint regime_curves (keys : list string) (samples : array2)
  (labels : nat -> nat) (ns : list nat)
  : Py.result (list (string * array1)) :=
  match ns with
  | [] => Py.Return []
  | n :: rest =>
      c <- regime_curve keys samples labels n ;;
      cs <- regime_curves keys samples labels rest ;;
      Py.Return (c :: cs)
  end.

(** [_region_bulk(mode)] for the keys and the ranges of the chain.  The
    samples are what [chain.load] returns for the keys of the bulk
    viscosity, and [labels] is what the Gaussian mixture with three
    components predicts for them; both come from outside the file. *)
Definition region_bulk (chain_keys : list string)
  (chain_range : list (float * float)) (mode : string) (samples : array2)
  (labels : nat -> nat) : Py.result figure :=
  kr <- unpack_items (zetas_items chain_keys chain_range) ;;
  let keys := fst kr in
  let ranges := snd kr in
  let maxd := maxdict keys ranges in
  edge <- call_zetas T maxd ;;
  top <- Py.getitem String.eqb (fun s => s) maxd "zetas_max" ;;
  let lim := (Fin 0, mul (Fin 1.05) top) in
  if String.eqb mode "empty" then Py.Return (Figure edge lim [])
  else if String.eqb mode "examples" then Py.Return (Figure edge lim examples)
  else
    cs <- regime_curves keys samples labels (seq 0 3) ;;
    Py.Return (Figure edge lim cs).

(** Sixty-three draws to try the statements on: the labels go round the
    three regimes, and in each regime [zetas_max] takes the values 0,
    0.01, ..., 0.20 and [zetas_width] is 0.02 throughout. *)
Definition example_value (r c : nat) : R :=
  if Nat.eqb c 0 then INR (r / 3) / 100 else 0.02.

Definition example_samples : array2 :=
  {| rows := 63; cols := 2; item2 := fun r c => Fin (example_value r c) |}.

Definition example_labels (r : nat) : nat := r mod 3.



End Bulk.

(** ** Positions of the boxes in the validation figure *)

Module Layout.
Local Open Scope Z_scope.

(** What [validation_all] keeps while it goes through the observables:
    the next free position [index], the loop variable [i] once it is
    bound, the ticks, and the positions of the boxes and of the RMS
    points of each observable. *)
Record state : Type :=
  State { index : Z; last_i : option Z; ticks : list R;
          box_x : list (list Z); rms_x : list (list Z) }.

Definition initial : state :=
  {| index := 1; last_i := None; ticks := []; box_x := []; rms_x := [] |}.

(** The positions given by [enumerate(rows, start=index)] for [m] rows. *)
Definition enumerate_from (start : Z) (m : nat) : list Z :=
  map (fun k => start + Z.of_nat k) (seq 0 m).

(** [np.arange(a, b)] for integers. *)
Definition arange (a b : Z) : list Z :=
  map (fun k => a + Z.of_nat k) (seq 0 (Z.to_nat (b - a))).

(** The body of the loop for one observable with [m] bins: the boxes are
    drawn at the enumerated positions, which leaves [i] at the last of
    them, or as it was when there is no bin; the RMS points go to
    [np.arange(index, index + m)]; then

    [[
      ticks.append(.5*(index + i))
      index = i + 2
    ]] *)
Definition step (st : state) (m : nat) : Py.result state :=
  let boxes := enumerate_from (index st) m in
  let i := match boxes with
           | [] => last_i st
           | _ :: _ => Some (last boxes 0)
           end in
  match i with
  | None => Py.Raise (Py.UnboundLocalError "i")
  | Some i =>
      Py.Return
        {| index := i + 2; last_i := Some i;
           ticks := (ticks st ++ [(0.5 * IZR (index st + i))%R])%list;
           box_x := (box_x st ++ [boxes])%list;
           rms_x := (rms_x st ++ [arange (index st)
                                     (index st + Z.of_nat m)])%list |}
  end.

Fixpoint run (st : state) (ms : list nat) : Py.result state :=
  match ms with
  | [] => Py.Return st
  | m :: rest => st' <- step st m ;; run st' rest
  end.

(** The layout for observables with [ms] bins each; the axes then get
    [set_xlim(0, index - 1)]. *)
Definition layout (ms : list nat) : Py.result state := run initial ms.

Definition xlim (st : state) : Z * Z := (0, index st - 1).

(** The positions of the observables one after the other, each group
    followed by one free position, and the middles of the groups. *)
Fixpoint groups_from (start : Z) (ms : list nat) : list (list Z) :=
  match ms with
  | [] => []
  | m :: rest =>
      enumerate_from start m :: groups_from (start + Z.of_nat m + 1) rest
  end.

Fixpoint middles_from (start : Z) (ms : list nat) : list R :=
  match ms with
  | [] => []
  | m :: rest =>
      (0.5 * IZR (start + (start + Z.of_nat m - 1)))%R
      :: middles_from (start + Z.of_nat m + 1) rest
  end.

(** The first position of observable [k]: one, plus the bins of the
    observables before it, plus one free position after each of them. *)
Definition start_of (ms : list nat) (k : nat) : Z :=
  1 + Z.of_nat (list_sum (firstn k ms)) + Z.of_nat k.

End Layout.

(** ** Labels of the observables in the validation figure *)

Module Labels.

(** [s.endswith(suffix)]. *)
Definition endswith (suffix s : string) : bool :=
  Nat.leb (String.length suffix) (String.length s)
  && String.eqb
       (substring (String.length s - String.length suffix)
                  (String.length suffix) s)
       suffix.

(** [s[1:-5]]. *)
Definition slice_1_m5 (s : string) : string :=
  substring 1 (String.length s - 6) s.

Definition deta_labels : list (string * string) :=
  [ ("Nch", "N_\mathrm{ch}"); ("ET", "E_T") ].

Definition id_parts_labels : list (string * string) :=
  [ ("dN_dy", "dN/dy"); ("mean_pT", "\langle p_T \rangle") ].

Definition species_labels : list (subobs * string) :=
  [ (SubName "pion", "\pi"); (SubName "kaon", "K");
    (SubName "proton", "p") ].

(** The format ['$v_{}\{{{}\}}$'] filled with the items of [subobs]: a
    pair gives its two numbers, a string its first two characters, and
    [None] cannot be unpacked. *)
Definition flow_label (sub : subobs) : Py.result string :=
  match sub with
  | SubPair n k =>
      Py.Return ("$v_" ++ Py.str_int n ++ "\{" ++ Py.str_int k ++ "\}$")
  | SubName (String a (String b _)) =>
      Py.Return ("$v_" ++ String a "" ++ "\{" ++ String b "" ++ "\}$")
  | SubName _ => Py.Raise Py.IndexError
  | SubNone =>
      Py.Raise (Py.TypeError "format() argument after * must be an iterable")
  end.

(** The function [label(obs, subobs)] inside [validation_all]; it returns
    [None] when no test matches. *)
Definition label (obs : string) (sub : subobs) : Py.result (option string) :=
  if String.prefix "d" obs && endswith "_deta" obs then
    v <- Py.getitem String.eqb (fun s => s) deta_labels (slice_1_m5 obs) ;;
    Py.Return (Some ("$d" ++ v ++ "/d\eta$"))
  else if Py.contains String.eqb id_parts_labels obs then
    quantity <- Py.getitem String.eqb (fun s => s) id_parts_labels obs ;;
    species <- Py.getitem subobs_eqb subobs_str species_labels sub ;;
    Py.Return (Some ("$" ++ quantity ++ "\ " ++ species ++ "$"))
  else if String.eqb obs "pT_fluct" then
    Py.Return (Some "$\delta p_T/\langle p_T \rangle$")
  else if String.eqb obs "vnk" then
    s <- flow_label sub ;;
    Py.Return (Some s)
  else Py.Return None.

End Labels.

(** ** The command line *)

Module Cli.

(** The names under which the decorator [plot] registers the figures in
    [plot_functions], in the order of the file. *)
Definition plot_names : list string :=
  [ "observables_design"; "observables_posterior"; "observables_map";
    "find_map"; "posterior"; "posterior_shear"; "posterior_bulk";
    "posterior_p"; "region_shear"; "region_shear_empty";
    "region_shear_examples"; "region_bulk"; "region_bulk_empty";
    "region_bulk_examples"; "flow_corr"; "flow_extra"; "design"; "gp";
    "pca"; "trento_events"; "validation_all"; "validation_example";
    "diag_pca"; "diag_emu" ].

(** [s.split('/')]. *)
Fixpoint split_slash (s : string) : list string :=
  match s with
  | EmptyString => [""]
  | String c rest =>
      if Ascii.eqb c "/" then "" :: split_slash rest
      else match split_slash rest with
           | h :: t => String c h :: t
           | [] => [String c ""]
           end
  end.

(** A component that a path keeps: not empty and not a lone dot. *)
Definition is_part (p : string) : bool :=
  negb (String.eqb p "") && negb (String.eqb p ".").

(** [Path(arg).name]: the last component of the path. *)
Definition path_name (arg : string) : string :=
  last (filter is_part (split_slash arg)) "".

(** [name.rfind('.')]. *)
Fixpoint rfind_dot (s : string) : option nat :=
  match s with
  | EmptyString => None
  | String c rest =>
      match rfind_dot rest with
      | Some i => Some (S i)
      | None => if Ascii.eqb c "." then Some O else None
      end
  end.

(** [Path(arg).stem]: the name without its last suffix; a dot at the
    start or at the end of the name starts no suffix. *)
Definition stem (arg : string) : string :=
  let name := path_name arg in
  match rfind_dot name with
  | Some i =>
      if Nat.ltb 0 i && Nat.ltb i (String.length name - 1)
      then substring 0 i name
      else name
  | None => name
  end.

(** [arg_to_plot(arg)] for the registered names [choices]. *)
Definition arg_to_plot (choices : list string) (arg : string)
  : Py.result string :=
  let a := stem arg in
  if negb (Py.str_in a choices) then Py.Raise (Py.ArgumentTypeError a)
  else Py.Return a.

(** The file a figure is saved to,
    [plotdir / '{}.pdf'.format(f.__name__)], as a string. *)
Definition plotfile (plotdir name : string) : string :=
  plotdir ++ "/" ++ name ++ ".pdf".

(** The figures that the main program makes for the arguments [args]:
    those named, or all of them when none is named. *)
Definition to_run (choices args : list string) : Py.result (list string) :=
  plots <- Py.traverse (arg_to_plot choices) args ;;
  match plots with
  | [] => Py.Return choices
  | _ :: _ => Py.Return plots
  end.

(** A name without a slash. *)
Fixpoint no_slash (s : string) : bool :=
  match s with
  | EmptyString => true
  | String c rest => negb (Ascii.eqb c "/") && no_slash rest
  end.

End Cli.

(** ** The parameters of the search for the MAP point *)

Module FindMap.
Import Np.
Local Open Scope R_scope.

Definition fixed_params : list (string * float) :=
  [ ("trento_p", Fin 0); ("etas_min", Fin 0.08);
    ("etas_hrg", Fin 0.3); ("model_sys_err", Fin 0.1) ].

(** [[k for k in chain.keys if k not in fixed_params]]. *)
Definition opt_params (keys : list string) : list string :=
  filter (fun k => negb (Py.contains String.eqb fixed_params k)) keys.

(** [dict(zip(opt_params, x), **fixed_params)]. *)
Definition full_dict (keys : list string) (x : list float)
  : list (string * float) :=
  fold_left (fun d kv => Py.setitem String.eqb d (fst kv) (snd kv))
            fixed_params
            (Py.dict_of String.eqb (combine (opt_params keys) x)).

(** [full_x(x)]: [[x[k] for k in chain.keys]] on that dictionary. *)
Definition full_x (keys : list string) (x : list float)
  : Py.result (list float) :=
  Py.traverse (Py.getitem String.eqb (fun s => s) (full_dict keys x)) keys.

(** The values of [l] at the places of the keys that are searched. *)
Definition searched (keys : list string) (l : list float) : list float :=
  map snd
    (filter (fun kv => negb (Py.contains String.eqb fixed_params (fst kv)))
            (combine keys l)).

End FindMap.

(** ** The shear viscosity of [_region_shear] *)

Module Shear.
Local Open Scope R_scope.

(** [Tc = .154], as a real. *)
Definition Tc : R := 0.154.

(** [etas(T, m, s, c)] at one temperature,
    [m + s*(T - Tc)*(T/Tc)**c].  The temperatures of the figure are
    positive, and there the power of two floats is the real power
    [exp (c * ln (T/Tc))]. *)
Definition etas (T m s c : R) : R :=
  m + s * (T - Tc) * Rpower (T / Tc) c.

(** [T = np.linspace(Tc, .3, 100)]. *)
Definition T : list R := Pchip.linspace Tc 0.3 100.

(** The upper edge of the prior region,
    [etas(T, *(rangedict[k][1] for k in ekeys))], for the ranges of
    [etas_min], [etas_slope] and [etas_curv]. *)
Definition prior (rmin rslope rcurv : R * R) : list R :=
  map (fun t => etas t (snd rmin) (snd rslope) (snd rcurv)) T.

End Shear.

(** ** The minimal boxplot *)

Module Boxplot.
Local Open Scope R_scope.

(** [patches.Rectangle(xy, width, height)]. *)
Record rectangle : Type :=
  Rectangle { xy : R * R; width : R; height : R }.

(** What [boxplot] puts on the axes: a patch, or a line through the
    points of [xs] and [ys]. *)
Inductive artist : Type :=
| Patch (r : rectangle)
| Line (xs ys : list R).

Definition left (r : rectangle) : R := fst (xy r).
Definition right (r : rectangle) : R := fst (xy r) + width r.
Definition top (r : rectangle) : R := snd (xy r) + height r.

(** [boxplot(ax, percentiles, x, y, box_width)]: the percentiles are
    shifted by [y] and unpacked into five names, which raises
    [ValueError] for any other number of them; then the box, the median
    line and the two whiskers are drawn. *)
Definition boxplot (percentiles : list R) (x y box_width : R)
  : Py.result (list artist) :=
  match map (fun p => p + y) percentiles with
  | [pl; q1; q2; q3; ph] =>
      Py.Return
        [ Patch {| xy := (x - 0.5 * box_width, q1);
                   width := box_width; height := q3 - q1 |};
          Line [x - 0.5 * box_width; x + 0.5 * box_width] [q2; q2];
          Line [x; x] [q1; pl];
          Line [x; x] [q3; ph] ]
  | shifted =>
      if Nat.ltb (List.length shifted) 5
      then Py.Raise (Py.ValueError "not enough values to unpack")
      else Py.Raise (Py.ValueError "too many values to unpack")
  end.

(** The call of [validation_all] for the bin at position [i]:
    [boxplot(ax_box, percentiles, x=i, box_width=.75, color=color)]. *)
Definition validation_box (percentiles : list R) (i : Z)
  : Py.result (list artist) :=
  boxplot percentiles (IZR i) 0 0.75.

End Boxplot.

(** * Properties *)

(** ** Dictionaries and keys *)

Section DictFacts.
Variables (K V : Type) (eqb : K -> K -> bool) (repr : K -> string).

Lemma getitem_contains (d : list (K * V)) k :
  Py.contains eqb d k = true -> exists v, Py.getitem eqb repr d k = Py.Return v.
Proof.
  induction d as [|[k' v] d IH]; simpl; [discriminate|].
  destruct (eqb k' k); simpl; eauto.
Qed.

Lemma getitem_missing (d : list (K * V)) k :
  Py.contains eqb d k = false ->
  Py.getitem eqb repr d k = Py.Raise (Py.KeyError (repr k)).
Proof.
  induction d as [|[k' v] d IH]; simpl; [reflexivity|].
  destruct (eqb k' k); simpl; [discriminate|assumption].
Qed.
End DictFacts.

Lemma str_in_In x s : Py.str_in x s = true <-> In x s.
Proof.
  unfold Py.str_in. rewrite existsb_exists. split.
  - intros (y & Hy & E). apply String.eqb_eq in E. now subst.
  - intros H. exists x. split; [assumption|apply String.eqb_refl].
Qed.

Lemma str_in_not_In x s : Py.str_in x s = false <-> ~ In x s.
Proof.
  rewrite <- str_in_In. destruct (Py.str_in x s); split; intros H;
    try discriminate; try reflexivity; try (intros E; discriminate).
  exfalso. now apply H.
Qed.

Lemma subobs_eqb_eq a b : subobs_eqb a b = true <-> a = b.
Proof.
  destruct a, b; simpl; split; intros H;
    try discriminate; try reflexivity.
  - apply String.eqb_eq in H. now subst.
  - injection H as ->. apply String.eqb_refl.
  - apply andb_true_iff in H as [H1 H2].
    apply Z.eqb_eq in H1, H2. now subst.
  - injection H as -> ->. now rewrite !Z.eqb_refl.
Qed.

(** ** The colour table *)

Lemma getitem_not_ValueError (V : Type) (d : list (subobs * V)) k msg :
  Py.getitem subobs_eqb subobs_str d k <> Py.Raise (Py.ValueError msg).
Proof.
  induction d as [|[k' v] d IH]; simpl; [discriminate|].
  destruct (subobs_eqb k' k); [discriminate|assumption].
Qed.

Lemma known_observables_tests obs :
  In obs Color.known_observables <->
  Py.str_in obs ["dNch_deta"; "pT_fluct"] = true \/
  String.eqb obs "dET_deta" = true \/
  Py.str_in obs ["dN_dy"; "mean_pT"] = true \/
  String.eqb obs "vnk" = true.
Proof.
  rewrite !str_in_In, !String.eqb_eq. unfold Color.known_observables.
  simpl. intuition (subst; auto).
Qed.

(** C10.  [obs_color_hsluv] raises [ValueError] exactly for the names
    outside dNch_deta, pT_fluct, dET_deta, dN_dy, mean_pT, vnk, and the
    message reports the unknown observable; for a known name with a
    sub-observable that is valid for it the call returns, and the triple
    returned is the fixed one of the table. *)
Theorem obs_color_hsluv_spec (obs : string) (sub : subobs) :
  ((exists msg, Color.obs_color_hsluv obs sub = Py.Raise (Py.ValueError msg))
     <-> ~ In obs Color.known_observables)
  /\ (~ In obs Color.known_observables ->
      Color.obs_color_hsluv obs sub =
      Py.Raise (Py.ValueError
        ("unknown observable: " ++ obs ++ " " ++ subobs_str sub)))
  /\ (In obs Color.known_observables -> Color.valid_subobs obs sub = true ->
      exists c, Color.obs_color_hsluv obs sub = Py.Return c)
  /\ (In obs ["dNch_deta"; "pT_fluct"] ->
      Color.obs_color_hsluv obs sub = Py.Return (250, 90, 55)%Z)
  /\ (obs = "dET_deta" ->
      Color.obs_color_hsluv obs sub = Py.Return (10, 65, 55)%Z)
  /\ (forall c, In (obs, sub, c) Color.color_table ->
      Color.obs_color_hsluv obs sub = Py.Return c).
Proof.
  assert (Hunknown : ~ In obs Color.known_observables ->
      Color.obs_color_hsluv obs sub =
      Py.Raise (Py.ValueError
        ("unknown observable: " ++ obs ++ " " ++ subobs_str sub))).
  { intros Hn. rewrite known_observables_tests in Hn.
    unfold Color.obs_color_hsluv.
    destruct (Py.str_in obs ["dNch_deta"; "pT_fluct"]); [tauto|].
    destruct (String.eqb obs "dET_deta"); [tauto|].
    destruct (Py.str_in obs ["dN_dy"; "mean_pT"]); [tauto|].
    destruct (String.eqb obs "vnk"); [tauto|reflexivity]. }
  split; [|split; [exact Hunknown|split; [|split; [|split]]]].
  - split; [|intros Hn; eexists; apply (Hunknown Hn)].
    intros [msg Hmsg] Hk. revert Hmsg. unfold Color.obs_color_hsluv.
    rewrite known_observables_tests in Hk.
    destruct (Py.str_in obs ["dNch_deta"; "pT_fluct"]); [discriminate|].
    destruct (String.eqb obs "dET_deta"); [discriminate|].
    destruct (Py.str_in obs ["dN_dy"; "mean_pT"]);
      [apply getitem_not_ValueError|].
    destruct (String.eqb obs "vnk"); [apply getitem_not_ValueError|].
    intuition discriminate.
  - intros _. unfold Color.valid_subobs, Color.obs_color_hsluv, Py.str_in.
    cbn [existsb].
    destruct (String.eqb obs "dNch_deta"), (String.eqb obs "pT_fluct"),
      (String.eqb obs "dET_deta"); cbn [orb]; eauto.
    destruct (String.eqb obs "dN_dy"), (String.eqb obs "mean_pT");
      cbn [orb]; try apply getitem_contains.
    destruct (String.eqb obs "vnk");
      [apply getitem_contains|discriminate].
  - intros Hin. apply str_in_In in Hin.
    unfold Color.obs_color_hsluv. now rewrite Hin.
  - intros ->. reflexivity.
  - intros c Hin. unfold Color.color_table in Hin. simpl in Hin.
    repeat (destruct Hin as [Hin|Hin];
            [injection Hin as <- <- <-; reflexivity|]).
    contradiction.
Qed.

(** [obs_color_hsluv_spec] at a flow cumulant, at the charged multiplicity
    and at a name that is not in the table. *)
Lemma obs_color_hsluv_spec_witness :
  Color.obs_color_hsluv "vnk" (SubPair 3 2) = Py.Return (150, 90, 67)%Z
  /\ Color.obs_color_hsluv "dNch_deta" SubNone = Py.Return (250, 90, 55)%Z
  /\ Color.obs_color_hsluv "dET_deta" SubNone = Py.Return (10, 65, 55)%Z
  /\ (exists c, Color.obs_color_hsluv "mean_pT" (SubName "kaon") = Py.Return c)
  /\ Color.obs_color_hsluv "v2" SubNone =
     Py.Raise (Py.ValueError "unknown observable: v2 None").
Proof.
  assert (Hv2 : ~ In "v2" Color.known_observables).
  { simpl. intuition discriminate. }
  destruct (obs_color_hsluv_spec "vnk" (SubPair 3 2))
    as (_ & _ & _ & _ & _ & Hvnk).
  destruct (obs_color_hsluv_spec "dNch_deta" SubNone)
    as (_ & _ & _ & Hnch & _ & _).
  destruct (obs_color_hsluv_spec "dET_deta" SubNone)
    as (_ & _ & _ & _ & Het & _).
  destruct (obs_color_hsluv_spec "mean_pT" (SubName "kaon"))
    as (_ & _ & Hkaon & _ & _ & _).
  destruct (obs_color_hsluv_spec "v2" SubNone) as (_ & Hunk & _).
  split; [|split; [|split; [|split]]].
  - apply Hvnk. simpl. auto 12.
  - apply Hnch. simpl. auto.
  - now apply Het.
  - apply Hkaon; [simpl; auto 12|reflexivity].
  - exact (Hunk Hv2).
Defined.

(** ** Arithmetic of [Np.float] *)

(** Settles the comparisons of reals that the operations branch on. *)
Ltac real_tests :=
  unfold Np.Reqb, Np.Rltb in *;
  repeat match goal with
  | |- context [Req_dec_T ?a ?b] => destruct (Req_dec_T a b); try lra
  | |- context [Rlt_dec ?a ?b] => destruct (Rlt_dec a b); try lra
  end.

Section FloatFacts.
Import Np.
Import Validation.
Local Open Scope R_scope.

Lemma sub_self r : sub (Fin r) (Fin r) = Fin 0.
Proof. simpl. f_equal. lra. Qed.

Lemma div_self r : r <> 0 -> div (Fin r) (Fin r) = Fin 1.
Proof.
  intros Hr. simpl. real_tests. f_equal. now field.
Qed.

Lemma div_zero_sqrt_positive c :
  positive c -> div (Fin 0) (sqrt c) = Fin 0.
Proof.
  destruct c as [r| | |]; simpl; try contradiction; [|reflexivity].
  intros Hr. pose proof (sqrt_lt_R0 r Hr).
  real_tests. f_equal. field. lra.
Qed.

Lemma square_zero : square (Fin 0) = Fin 0.
Proof. simpl. f_equal. lra. Qed.

Lemma sum_upto_ext n f g :
  (forall i, (i < n)%nat -> f i = g i) -> sum_upto n f = sum_upto n g.
Proof.
  induction n as [|n IH]; intros H; simpl; [reflexivity|].
  rewrite IH by (intros; apply H; lia). now rewrite H by lia.
Qed.

Lemma sum_upto_zero n f :
  (forall i, (i < n)%nat -> f i = Fin 0) -> sum_upto n f = Fin 0.
Proof.
  induction n as [|n IH]; intros H; simpl; [reflexivity|].
  rewrite IH by (intros; apply H; lia). rewrite H by lia.
  simpl. f_equal. lra.
Qed.

Lemma mean_of_zero n : (0 < n)%nat -> div (Fin 0) (Fin (INR n)) = Fin 0.
Proof.
  intros Hn. apply lt_0_INR in Hn. simpl. real_tests. f_equal. field. lra.
Qed.

Lemma sqrt_zero : sqrt (Fin 0) = Fin 0.
Proof. simpl. real_tests. now rewrite sqrt_0. Qed.

Lemma sqrt_one : sqrt (Fin 1) = Fin 1.
Proof. simpl. real_tests. now rewrite sqrt_1. Qed.

Lemma percent_zero : mul (Fin 100) (Fin 0) = Fin 0.
Proof. simpl. f_equal. lra. Qed.

Lemma div_by_zero_blown x : blown (div x (Fin 0)).
Proof.
  unfold blown. destruct x as [a| | |]; simpl; real_tests; auto.
Qed.

Lemma sub_one_blown x : blown x -> blown (sub x (Fin 1)).
Proof.
  unfold blown. intros [->|[->| ->]]; simpl; auto.
Qed.

Lemma square_blown x : blown x -> blown_up (square x).
Proof.
  unfold blown, blown_up. intros [->|[->| ->]]; simpl; auto.
Qed.

Lemma square_not_NInf x : square x <> NInf.
Proof. destruct x; discriminate. Qed.

Lemma sum_upto_not_NInf n f :
  (forall i, (i < n)%nat -> f i <> NInf) -> sum_upto n f <> NInf.
Proof.
  induction n as [|n IH]; intros H; simpl; [discriminate|].
  assert (H1 : sum_upto n f <> NInf) by (apply IH; intros; apply H; lia).
  assert (H2 : f n <> NInf) by (apply H; lia).
  destruct (sum_upto n f), (f n); simpl; congruence.
Qed.

Lemma sum_upto_blown_up n f k :
  (forall i, (i < n)%nat -> f i <> NInf) ->
  (k < n)%nat -> blown_up (f k) -> blown_up (sum_upto n f).
Proof.
  unfold blown_up.
  induction n as [|n IH]; intros Hf Hk Hb; [lia|]. simpl.
  assert (H1 : sum_upto n f <> NInf)
    by (apply sum_upto_not_NInf; intros; apply Hf; lia).
  assert (H2 : f n <> NInf) by (apply Hf; lia).
  destruct (Nat.eq_dec k n) as [->|Hne].
  - destruct Hb as [-> | ->]; destruct (sum_upto n f); simpl; auto; congruence.
  - assert (Hs : sum_upto n f = PInf \/ sum_upto n f = NaN)
      by (apply IH; [intros; apply Hf; lia|lia|assumption]).
    destruct Hs as [-> | ->]; destruct (f n); simpl; auto; congruence.
Qed.

Lemma mean_blown_up x n :
  (0 < n)%nat -> blown_up x -> blown_up (div x (Fin (INR n))).
Proof.
  unfold blown_up. intros Hn. apply lt_0_INR in Hn.
  intros [-> | ->]; simpl; real_tests; auto.
Qed.

Lemma sqrt_blown_up x : blown_up x -> blown_up (sqrt x).
Proof. unfold blown_up. intros [-> | ->]; simpl; auto. Qed.

Lemma percent_blown_up x : blown_up x -> blown_up (mul (Fin 100) x).
Proof.
  unfold blown_up. intros [-> | ->]; simpl; auto.
  unfold inf_times. real_tests. simpl. auto.
Qed.

End FloatFacts.

(** ** Emulator validation *)

(** Reads the shape and the items of the arrays built by the array
    operations, leaving the arithmetic on the items folded. *)
Ltac array_items :=
  cbn [Np.rows Np.cols Np.len Np.item1 Np.item2 Np.item3
       Np.dim0 Np.dim1 Np.dim2 Np.map_array1 Np.map_array2
       Np.mean_axis0 Np.diagonal Np.T3 Np.full1 Np.full2 Np.full3 Np.row Np.column
       Py.bind fst snd] in *.

Section ValidationFacts.
Import Np.
Import Validation.
Local Open Scope R_scope.

Lemma broadcast_dim_same n : broadcast_dim n n = Some n.
Proof. unfold broadcast_dim. now rewrite Nat.eqb_refl. Qed.

Lemma broadcast_index_lt n i : (i < n)%nat -> broadcast_index n i = i.
Proof.
  unfold broadcast_index. destruct (Nat.eqb_spec n 1); [lia|reflexivity].
Qed.

(** On arrays of one shape the three lines of [validation_all] return,
    and each entry of the result is the formula of the line it comes
    from, read at the same position. *)
Lemma validation_stats_items n m Y Y_ cov :
  well_shaped n m Y Y_ cov ->
  exists Z rms,
    validation_stats Y Y_ cov = Py.Return (Z, rms) /\
    rows Z = n /\ cols Z = m /\ len rms = m /\
    (forall i j, (i < n)%nat -> (j < m)%nat ->
       item2 Z i j =
       div (sub (item2 Y_ i j) (item2 Y i j)) (sqrt (item3 cov i j j))) /\
    (forall j, (j < m)%nat ->
       item1 rms j =
       mul (Fin 100)
         (sqrt (div (sum_upto n (fun i =>
                       square (sub (div (item2 Y_ i j) (item2 Y i j))
                                   (Fin 1))))
                    (Fin (INR n))))).
Proof.
  intros (HY0 & HY1 & HP0 & HP1 & HC0 & HC1 & HC2).
  unfold validation_stats, map2. array_items.
  rewrite HY0, HY1, HP0, HP1, HC0, HC1, HC2, Nat.min_id.
  rewrite !broadcast_dim_same. array_items.
  rewrite !broadcast_dim_same. array_items.
  do 2 eexists. split; [reflexivity|]. array_items.
  repeat split.
  - intros i j Hi Hj.
    now rewrite !(broadcast_index_lt Hi), !(broadcast_index_lt Hj).
  - intros j Hj. do 3 f_equal. apply sum_upto_ext. intros i Hi.
    now rewrite !(broadcast_index_lt Hi), !(broadcast_index_lt Hj).
Qed.

(** C1, as the program behaves.  A zero in the model calculation does not
    make the validation statistics fail: on arrays of one shape the call
    returns; the normalized residual at the zero is the emulator mean over
    the predicted standard deviation, with no division by the model
    value; and the RMS error of the column that holds the zero is the
    positive infinity or NaN. *)
Theorem validation_zero_truth_returns n m Y Y_ cov i j :
  well_shaped n m Y Y_ cov ->
  (i < n)%nat -> (j < m)%nat ->
  item2 Y i j = Fin 0 ->
  exists Z rms,
    validation_stats Y Y_ cov = Py.Return (Z, rms) /\
    item2 Z i j = div (sub (item2 Y_ i j) (Fin 0)) (sqrt (item3 cov i j j)) /\
    blown_up (item1 rms j).
Proof.
  intros Hshape Hi Hj Hzero.
  destruct (validation_stats_items Hshape)
    as (Z & rms & Hret & _ & _ & _ & HZ & Hrms).
  exists Z, rms. split; [assumption|]. split.
  - now rewrite HZ, Hzero by assumption.
  - rewrite Hrms by assumption.
    apply percent_blown_up, sqrt_blown_up, mean_blown_up; [lia|].
    apply sum_upto_blown_up with (k := i); [|assumption|].
    + intros. apply square_not_NInf.
    + rewrite Hzero. apply square_blown, sub_one_blown, div_by_zero_blown.
Qed.

(** C5, as the program behaves.  When the emulator mean equals the model
    calculation, the model values are finite and not zero, there is at
    least one validation point and the predicted variances are positive,
    every normalized residual is zero and every RMS error is zero. *)
Theorem validation_exact_prediction_zero n m Y Y_ cov :
  well_shaped n m Y Y_ cov ->
  (0 < n)%nat ->
  (forall i j, (i < n)%nat -> (j < m)%nat -> item2 Y_ i j = item2 Y i j) ->
  (forall i j, (i < n)%nat -> (j < m)%nat ->
     exists y, item2 Y i j = Fin y /\ y <> 0) ->
  (forall i j, (i < n)%nat -> (j < m)%nat -> positive (item3 cov i j j)) ->
  exists Z rms,
    validation_stats Y Y_ cov = Py.Return (Z, rms) /\
    rows Z = n /\ cols Z = m /\ len rms = m /\
    (forall i j, (i < n)%nat -> (j < m)%nat -> item2 Z i j = Fin 0) /\
    (forall j, (j < m)%nat -> item1 rms j = Fin 0).
Proof.
  intros Hshape Hn Heq Hfin Hpos.
  destruct (validation_stats_items Hshape)
    as (Z & rms & Hret & HZ0 & HZ1 & Hlen & HZ & Hrms).
  exists Z, rms. repeat split; try assumption.
  - intros i j Hi Hj. rewrite HZ, Heq by assumption.
    destruct (Hfin i j Hi Hj) as (y & -> & _).
    rewrite sub_self. now apply div_zero_sqrt_positive, Hpos.
  - intros j Hj. rewrite Hrms by assumption.
    rewrite sum_upto_zero.
    + now rewrite mean_of_zero, sqrt_zero, percent_zero.
    + intros i Hi. rewrite Heq by assumption.
      destruct (Hfin i j Hi Hj) as (y & -> & Hy).
      now rewrite div_self, sub_self, square_zero.
Qed.

Lemma well_shaped_full n m x y c :
  well_shaped n m (full2 n m x) (full2 n m y) (full3 n m c).
Proof. repeat split. Qed.

(** One validation point, one bin: the model gives 0, the emulator 1 with
    variance 1.  The call returns, the residual is 1 and the RMS error is
    the positive infinity. *)
Lemma validation_zero_truth_counterexample :
  item2 (full2 1 1 (Fin 0)) 0 0 = Fin 0 /\
  exists Z rms,
    validation_stats (full2 1 1 (Fin 0)) (full2 1 1 (Fin 1))
                     (full3 1 1 (Fin 1)) = Py.Return (Z, rms) /\
    item2 Z 0%nat 0%nat = Fin 1 /\ item1 rms 0%nat = PInf.
Proof.
  split; [reflexivity|].
  destruct (validation_stats_items
              (well_shaped_full 1 1 (Fin 0) (Fin 1) (Fin 1)))
    as (Z & rms & Hret & _ & _ & _ & HZ & Hrms).
  exists Z, rms. split; [assumption|].
  rewrite HZ, Hrms by lia. array_items. split.
  - rewrite sqrt_one. simpl. real_tests. f_equal. field.
  - simpl. real_tests. simpl. unfold inf_times. real_tests. reflexivity.
Qed.

(** [validation_zero_truth_returns] on the same arrays. *)
Lemma validation_zero_truth_returns_witness :
  exists Z rms,
    validation_stats (full2 1 1 (Fin 0)) (full2 1 1 (Fin 1))
                     (full3 1 1 (Fin 1)) = Py.Return (Z, rms) /\
    item2 Z 0%nat 0%nat = div (sub (Fin 1) (Fin 0)) (sqrt (Fin 1)) /\
    blown_up (item1 rms 0%nat).
Proof.
  apply (@validation_zero_truth_returns 1 1
           (full2 1 1 (Fin 0)) (full2 1 1 (Fin 1)) (full3 1 1 (Fin 1)) 0 0).
  - apply well_shaped_full.
  - lia.
  - lia.
  - reflexivity.
Defined.

(** One validation point, one bin: model and emulator both give 0, with
    variance 1.  The RMS error is NaN, not zero. *)
Lemma validation_exact_prediction_counterexample :
  positive (Fin 1) /\
  exists Z rms,
    validation_stats (full2 1 1 (Fin 0)) (full2 1 1 (Fin 0))
                     (full3 1 1 (Fin 1)) = Py.Return (Z, rms) /\
    item1 rms 0%nat = NaN /\ item1 rms 0%nat <> Fin 0.
Proof.
  split; [simpl; lra|].
  destruct (validation_stats_items
              (well_shaped_full 1 1 (Fin 0) (Fin 0) (Fin 1)))
    as (Z & rms & Hret & _ & _ & _ & _ & Hrms).
  exists Z, rms. split; [assumption|].
  assert (H : forall x, x = NaN -> x = NaN /\ x <> Fin 0)
    by (intros x ->; split; [reflexivity|discriminate]).
  apply H. rewrite Hrms by lia. array_items. simpl. real_tests. reflexivity.
Qed.

(** [validation_exact_prediction_zero] on one validation point and one
    bin, model and emulator both at 2, variance 1. *)
Lemma validation_exact_prediction_zero_witness :
  exists Z rms,
    validation_stats (full2 1 1 (Fin 2)) (full2 1 1 (Fin 2))
                     (full3 1 1 (Fin 1)) = Py.Return (Z, rms) /\
    rows Z = 1%nat /\ cols Z = 1%nat /\ len rms = 1%nat /\
    (forall i j, (i < 1)%nat -> (j < 1)%nat -> item2 Z i j = Fin 0) /\
    (forall j, (j < 1)%nat -> item1 rms j = Fin 0).
Proof.
  apply (@validation_exact_prediction_zero 1 1
           (full2 1 1 (Fin 2)) (full2 1 1 (Fin 2)) (full3 1 1 (Fin 1))).
  - apply well_shaped_full.
  - lia.
  - reflexivity.
  - intros i j _ _. exists 2. split; [reflexivity|lra].
  - intros i j _ _. simpl. lra.
Defined.

End ValidationFacts.

(** ** Total experimental error *)

Section QuadratureFacts.
Import Np.
Import Validation.
Import Observables.
Local Open Scope R_scope.

Lemma py_sum_arrays n (es : list array1) (u : array1) :
  len u = n ->
  (forall e, In e es -> len e = n) ->
  exists w,
    py_sum (map (fun e => Arr (map_array1 square e)) es) (Arr u)
      = Py.Return (Arr w) /\
    len w = n /\
    forall i, (i < n)%nat ->
      item1 w i =
      fold_left add (map (fun e => square (item1 e i)) es) (item1 u i).
Proof.
  revert u. induction es as [|e es IH]; intros u Hu Hes.
  - exists u. now repeat split.
  - cbn [map py_sum value_add map_array1 len].
    rewrite Hu, (Hes e) by (now left). rewrite broadcast_dim_same.
    cbn [Py.bind].
    match goal with
    | |- context [py_sum _ (Arr ?a)] => destruct (IH a) as (w & Hw & Hlen & Hit)
    end; [reflexivity|intros; apply Hes; now right|].
    exists w. repeat split; try assumption.
    intros i Hi. rewrite (Hit i Hi). cbn [item1 map fold_left].
    now rewrite !(broadcast_index_lt Hi).
Qed.

Lemma fold_left_add_squares (A : Type) (g : A -> float) (es : list A) a :
  (forall e, In e es -> finite (g e)) ->
  fold_left add (map (fun e => square (g e)) es) (Fin a) =
  Fin (a + fold_right Rplus 0 (map (fun e => Rsqr (real_of (g e))) es)).
Proof.
  revert a. induction es as [|e es IH]; intros a Hfin; cbn [map fold_left fold_right].
  - f_equal. lra.
  - assert (He : finite (g e)) by (apply Hfin; now left).
    destruct (g e) as [r| | |] eqn:Hg; try contradiction.
    cbn [square mul add]. rewrite IH by (intros; apply Hfin; now right).
    f_equal. cbn [real_of]. unfold Rsqr. lra.
Qed.

Lemma sum_squares_nonneg (A : Type) (h : A -> R) (es : list A) :
  0 <= fold_right Rplus 0 (map (fun e => Rsqr (h e)) es).
Proof.
  induction es as [|e es IH]; cbn [map fold_right]; [lra|].
  pose proof (Rle_0_sqr (h e)). lra.
Qed.

(** C7.  For a [yerr] mapping with at least one source, all arrays as
    long as [x], the single error band [np.sqrt(sum(e**2 for e in
    yerr.values()))] is an array of that length whose entry at each bin is
    the square root of the sum of the squares of the sources at that bin;
    for finite errors that is the square root, over the reals, of the sum
    of their squares. *)
Theorem total_yerr_quadrature (sources : list (string * array1)) (n : nat) :
  sources <> [] ->
  (forall e, In e (Py.values sources) -> len e = n) ->
  exists t,
    total_yerr sources = Py.Return (Arr t) /\
    len t = n /\
    forall i, (i < n)%nat ->
      item1 t i =
        sqrt (fold_left add
                (map (fun e => square (item1 e i)) (Py.values sources))
                (Fin 0)) /\
      ((forall e, In e (Py.values sources) -> finite (item1 e i)) ->
       item1 t i =
         Fin (R_sqrt.sqrt
                (fold_right Rplus 0
                   (map (fun e => Rsqr (real_of (item1 e i)))
                        (Py.values sources))))).
Proof.
  intros Hne Hlen. unfold total_yerr.
  destruct sources as [|[name e] rest]; [contradiction|].
  cbn [Py.values map py_sum value_add Py.bind snd] in *.
  fold (Py.values rest) in *.
  match goal with
  | |- context [py_sum _ (Arr ?a)] =>
      destruct (@py_sum_arrays n (Py.values rest) a) as (w & Hw & Hwl & Hit)
  end.
  - cbn [map_array1 len]. apply Hlen. now left.
  - intros e' He'. apply Hlen. now right.
  - rewrite Hw. cbn [Py.bind value_map].
    eexists. split; [reflexivity|]. split; [exact Hwl|].
    intros i Hi. cbn [map_array1 item1]. rewrite (Hit i Hi).
    cbn [map_array1 item1].
    split; [reflexivity|]. intros Hfin.
    change (add (Fin 0) (square (item1 e i)))
      with (fold_left add (map (fun e => square (item1 e i)) [e]) (Fin 0)).
    rewrite <- fold_left_app, <- map_app.
    rewrite fold_left_add_squares.
    + cbn [app]. unfold sqrt, Rltb.
      match goal with
      | |- context [Rlt_dec ?a 0] =>
          destruct (Rlt_dec a 0) as [Hneg|_];
          [pose proof (sum_squares_nonneg
                         (fun e => real_of (item1 e i))
                         (e :: Py.values rest)) as Hpos;
           cbn [map fold_right] in *; lra|]
      end.
      cbn [map fold_right]. f_equal. f_equal. lra.
    + intros e' [<-|He']; apply Hfin; [now left|now right].
Qed.

(** [total_yerr_quadrature] on one bin with a statistical error 3 and a
    systematic error 4. *)
Lemma total_yerr_quadrature_witness :
  exists t,
    total_yerr [("stat", full1 1 (Fin 3)); ("sys", full1 1 (Fin 4))]
      = Py.Return (Arr t) /\
    len t = 1%nat /\
    forall i, (i < 1)%nat ->
      item1 t i =
        sqrt (fold_left add
                (map (fun e => square (item1 e i))
                     [full1 1 (Fin 3); full1 1 (Fin 4)])
                (Fin 0)) /\
      ((forall e, In e [full1 1 (Fin 3); full1 1 (Fin 4)] ->
          finite (item1 e i)) ->
       item1 t i =
         Fin (R_sqrt.sqrt
                (fold_right Rplus 0
                   (map (fun e => Rsqr (real_of (item1 e i)))
                        [full1 1 (Fin 3); full1 1 (Fin 4)])))).
Proof.
  apply (@total_yerr_quadrature
           [("stat", full1 1 (Fin 3)); ("sys", full1 1 (Fin 4))] 1).
  - discriminate.
  - intros e [<-|[<-|[]]]; reflexivity.
Defined.

End QuadratureFacts.

(** ** Experimental points that are missing *)

Section OverlayFacts.
Import Np.
Import Observables.

Lemma getitem_returns_or_KeyError (K V : Type) (eqb : K -> K -> bool)
  (repr : K -> string) (d : list (K * V)) (k : K) :
  (exists v, Py.getitem eqb repr d k = Py.Return v) \/
  Py.getitem eqb repr d k = Py.Raise (Py.KeyError (repr k)).
Proof.
  induction d as [|[k' v] d IH]; simpl; [now right|].
  destruct (eqb k' k); [left; eauto|assumption].
Qed.

(** A lookup in a datasets mapping returns the entry or raises
    [KeyError]; it raises nothing else. *)
Lemma lookup_returns_or_KeyError (A : Type) (data : dataset A) system obs sub :
  (exists a, lookup data system obs sub = Py.Return a) \/
  (exists k, lookup data system obs sub = Py.Raise (Py.KeyError k)).
Proof.
  unfold lookup.
  destruct (getitem_returns_or_KeyError String.eqb str_repr data system)
    as [[by_system ->]| ->]; cbn [Py.bind]; [|right; eauto].
  destruct (getitem_returns_or_KeyError String.eqb str_repr by_system obs)
    as [[by_obs ->]| ->]; cbn [Py.bind]; [|right; eauto].
  destruct (getitem_returns_or_KeyError subobs_eqb subobs_str by_obs sub)
    as [[a ->]| ->]; [left|right]; eauto.
Qed.

(** The curves that [ax.plot] draws for the rows of [Y] against [x]. *)
Lemma model_curves_rows x Y c :
  (rows Y = 0 \/ len x = cols Y)%nat ->
  model_curves x Y c
  = Py.Return (map (fun i => Plot x (row Y i) c) (seq 0 (rows Y))).
Proof.
  intros H. unfold model_curves.
  destruct H as [H|H]; [now rewrite H|].
  induction (seq 0 (rows Y)) as [|i l IH]; [reflexivity|].
  cbn [Py.traverse map]. unfold plot_call at 1. cbn [row len].
  rewrite H, Nat.eqb_refl. now rewrite IH.
Qed.

(** With a row to draw and an [x] of another length, the first call of
    [ax.plot] raises [ValueError]. *)
Lemma model_curves_mismatch x Y c :
  (0 < rows Y)%nat -> len x <> cols Y ->
  exists msg, model_curves x Y c = Py.Raise (Py.ValueError msg).
Proof.
  intros Hrows Hlen. unfold model_curves.
  destruct (rows Y) as [|n]; [lia|]. cbn [seq Py.traverse].
  unfold plot_call. cbn [row len].
  apply Nat.eqb_neq in Hlen. rewrite Hlen. eexists. reflexivity.
Qed.

Lemma model_label_returns x Y c o :
  (label o = None \/ (0 < len x /\ 0 < cols Y))%nat ->
  model_label x Y c o
  = Py.Return
      match label o with
      | Some s => [Text (add (item1 x (len x - 1)) (Fin 3))
                        (column Y (cols Y - 1)) s c]
      | None => []
      end.
Proof.
  unfold model_label, last_item, last_column.
  destruct (label o) as [s|]; intros H; [|reflexivity].
  destruct H as [H|[Hx HY]]; [discriminate|].
  destruct (len x) as [|n]; [lia|]. destruct (cols Y) as [|m]; [lia|].
  cbn [Py.bind]. now rewrite !Nat.sub_succ, !Nat.sub_0_r.
Qed.

(** C9.  Take a subplot whose key is in the model dataset and not in the
    experimental one: the lookup in [expt.data] returns no entry.  Then
    that lookup raises [KeyError], which the [except] clause catches.
    When the colour of the observable is known, the values [Y] to draw
    are found with as many bins as [x] has, and a labelled subplot has
    a last bin, the turn of the loop for that subplot returns, and what
    it adds to the axes is exactly this: one curve [ax.plot(x, y)] for
    every row [y] of the scaled [Y], in order, then the label of the
    subplot if it has one, and no error bars; and the loop goes on with
    the next subplot. *)
Theorem missing_experiment_skipped (e : env) (posterior : bool)
  (system obs : string) (sub : subobs) (o : opts) (ax : list draw)
  (rest : list subplot) (color : Color.hsluv) (entry : model_entry)
  (Y0 : array2) :
  Color.obs_color_hsluv obs sub = Py.Return color ->
  lookup (model_data e) system obs sub = Py.Return entry ->
  (if posterior then lookup (samples e) system obs sub
   else Py.Return (model_Y entry)) = Py.Return Y0 ->
  (rows Y0 = 0 \/ len (model_x entry) = cols Y0)%nat ->
  (label o = None \/ (0 < len (model_x entry) /\ 0 < cols Y0))%nat ->
  (forall dset, lookup (expt_data e) system obs sub <> Py.Return dset) ->
  let x := model_x entry in
  let Y := scaled2 (scale o) Y0 in
  let curves := map (fun i => Plot x (row Y i) color) (seq 0 (rows Y0)) in
  let lbl :=
    match label o with
    | Some s => [Text (add (item1 x (len x - 1)) (Fin 3))
                      (column Y (cols Y0 - 1)) s color]
    | None => []
    end in
  (exists k, lookup (expt_data e) system obs sub = Py.Raise (Py.KeyError k)) /\
  subplot_body e posterior system ax (obs, sub, o)
    = Py.Return (ax ++ curves ++ lbl)%list /\
  List.length curves = rows Y0 /\
  Forall not_errorbar (curves ++ lbl)%list /\
  subplots_loop e posterior system ax ((obs, sub, o) :: rest)
    = subplots_loop e posterior system (ax ++ curves ++ lbl)%list rest.
Proof.
  intros Hcolor Hmodel HY Hbins Hlabel Hmissing. cbn zeta.
  assert (Hdims : rows (scaled2 (scale o) Y0) = rows Y0 /\
                  cols (scaled2 (scale o) Y0) = cols Y0)
    by (destruct (scale o); split; reflexivity).
  destruct Hdims as [Hrows Hcols].
  destruct (lookup_returns_or_KeyError (expt_data e) system obs sub)
    as [[dset Hd]|[k Hk]]; [now apply Hmissing in Hd|].
  assert (Hbody : subplot_body e posterior system ax (obs, sub, o)
                  = Py.Return
                      (ax ++ map (fun i => Plot (model_x entry)
                                     (row (scaled2 (scale o) Y0) i) color)
                                 (seq 0 (rows Y0)) ++
                       match label o with
                       | Some s =>
                           [Text (add (item1 (model_x entry)
                                         (len (model_x entry) - 1)) (Fin 3))
                                 (column (scaled2 (scale o) Y0) (cols Y0 - 1))
                                 s color]
                       | None => []
                       end)%list).
  { unfold subplot_body. rewrite Hcolor, Hmodel. cbn [Py.bind].
    rewrite HY. cbn [Py.bind].
    rewrite model_curves_rows by (rewrite Hrows, Hcols; exact Hbins).
    cbn [Py.bind]. rewrite model_label_returns by (rewrite Hcols; exact Hlabel).
    cbn [Py.bind]. rewrite Hk. cbn [Py.bind Py.except_KeyError].
    now rewrite Hrows, Hcols, app_assoc. }
  split; [eauto|]. split; [exact Hbody|].
  split; [now rewrite length_map, length_seq|]. split.
  - apply Forall_app. split.
    + apply Forall_forall. intros d Hd.
      apply in_map_iff in Hd as (i & <- & _). exact I.
    + destruct (label o); repeat constructor.
  - cbn [subplots_loop]. rewrite Hbody. reflexivity.
Qed.

End OverlayFacts.

Section OverlayExamples.
Import Np.
Import Observables.

(** [missing_experiment_skipped] on the fluctuations of [example_env],
    which the experiment does not have: the three curves of the model
    are drawn. *)
Lemma missing_experiment_skipped_witness :
  let x := full1 2 (Fin 10) in
  let Y := full2 3 2 (Fin 1) in
  let curves :=
    [ Plot x (row Y 0) (250, 90, 55)%Z; Plot x (row Y 1) (250, 90, 55)%Z;
      Plot x (row Y 2) (250, 90, 55)%Z ] in
  (exists k, lookup (expt_data example_env) "PbPb2760" "pT_fluct" SubNone
             = Py.Raise (Py.KeyError k)) /\
  subplot_body example_env false "PbPb2760" []
    ("pT_fluct", SubNone, Opts None None)
    = Py.Return ([] ++ curves ++ [])%list /\
  List.length curves = 3%nat /\
  Forall not_errorbar (curves ++ [])%list /\
  subplots_loop example_env false "PbPb2760" []
    [("pT_fluct", SubNone, Opts None None)]
    = subplots_loop example_env false "PbPb2760" ([] ++ curves ++ [])%list [].
Proof.
  apply (@missing_experiment_skipped example_env false "PbPb2760" "pT_fluct"
           SubNone (Opts None None) [] [] (250, 90, 55)%Z
           (ModelEntry (full1 2 (Fin 10)) (full2 3 2 (Fin 1)))
           (full2 3 2 (Fin 1))).
  - reflexivity.
  - reflexivity.
  - reflexivity.
  - now right.
  - now left.
  - intros dset. discriminate.
Defined.

(** Where the experiment has the key, the same turn of the loop ends with
    the error bars. *)
Example present_experiment_drawn :
  exists curves x y yerr,
    subplot_body example_env false "PbPb2760" []
      ("dNch_deta", SubNone, Opts None None)
    = Py.Return (curves ++ [Errorbar x y yerr])%list /\
    List.length curves = 3%nat.
Proof. do 4 eexists. split; reflexivity. Qed.

(** Values with three bins against an [x] of two: the first call of
    [ax.plot] raises [ValueError], and so does the turn of the loop. *)
Example mismatched_bins_raise :
  let e := {| model_data :=
                [ ("PbPb2760",
                   [ ("pT_fluct",
                      [ (SubNone,
                         ModelEntry (full1 2 (Fin 10)) (full2 1 3 (Fin 1))) ])
                   ]) ];
              expt_data := []; samples := [] |} in
  exists msg,
    subplot_body e false "PbPb2760" [] ("pT_fluct", SubNone, Opts None None)
    = Py.Raise (Py.ValueError msg).
Proof. eexists. reflexivity. Qed.

End OverlayExamples.

(** ** Arrows of the principal components *)

Section PcaFacts.
Import Np.
Import Pca.
Local Open Scope R_scope.

Lemma all_upto_true n f :
  all_upto n f = true <-> forall i, (i < n)%nat -> f i = true.
Proof.
  induction n as [|n IH]; simpl.
  - split; [intros _ i Hi; lia|reflexivity].
  - rewrite andb_true_iff, IH. split.
    + intros [Hlt Hn] i Hi. destruct (Nat.eq_dec i n) as [->|Hne];
        [assumption|apply Hlt; lia].
    + intros H. split; [intros i Hi; apply H; lia|apply H; lia].
Qed.

Lemma all_upto_false n f i :
  (i < n)%nat -> f i = false -> all_upto n f = false.
Proof.
  intros Hi Hf. destruct (all_upto n f) eqn:E; [|reflexivity].
  rewrite all_upto_true in E. rewrite E in Hf by assumption. discriminate.
Qed.

Lemma mul_minus_one x : mul x (Fin (-1)) = neg x.
Proof.
  destruct x as [r| | |]; simpl; try reflexivity.
  - f_equal. lra.
  - unfold inf_times. real_tests. reflexivity.
  - unfold inf_times. real_tests. reflexivity.
Qed.

Lemma is_positive_not_negative x : is_positive x -> is_negative x = false.
Proof.
  destruct x as [r| | |]; simpl; try contradiction; try reflexivity.
  intros Hr. real_tests; reflexivity.
Qed.

(** C2, as the program behaves.  The vector an arrow is drawn for is the
    negated one when every coordinate is below zero, and the vector
    itself as soon as one coordinate is not below zero; so a vector with a
    positive coordinate is left as it is. *)
Theorem flip_strictly_negative (p : array1) :
  ((forall i, (i < len p)%nat -> is_negative (item1 p i) = true) ->
   len (flip p) = len p /\
   forall i, (i < len p)%nat -> item1 (flip p) i = neg (item1 p i))
  /\ ((exists i, (i < len p)%nat /\ is_negative (item1 p i) = false) ->
      flip p = p)
  /\ ((exists i, (i < len p)%nat /\ is_positive (item1 p i)) ->
      flip p = p).
Proof.
  assert (Hkeep : (exists i, (i < len p)%nat /\ is_negative (item1 p i) = false)
                  -> flip p = p).
  { intros (i & Hi & Hf). unfold flip, all_negative.
    now rewrite (all_upto_false _ Hi Hf). }
  split; [|split; [exact Hkeep|]].
  - intros Hall. unfold flip, all_negative.
    rewrite (proj2 (all_upto_true _ _) Hall).
    split; [reflexivity|]. intros i _. cbn [map_array1 item1].
    apply mul_minus_one.
  - intros (i & Hi & Hpos). apply Hkeep. exists i.
    split; [assumption|now apply is_positive_not_negative].
Qed.

(** The vector (0, -1) has no positive coordinate, and its arrow is drawn
    for (0, -1), not for (0, 1). *)
Lemma flip_nonpositive_counterexample :
  (forall i, (i < len (of_list [Fin 0; Fin (-1)]))%nat ->
     is_nonpositive (item1 (of_list [Fin 0; Fin (-1)]) i))
  /\ flip (of_list [Fin 0; Fin (-1)]) = of_list [Fin 0; Fin (-1)]
  /\ item1 (flip (of_list [Fin 0; Fin (-1)])) 1 = Fin (-1)
  /\ neg (item1 (of_list [Fin 0; Fin (-1)]) 1) = Fin 1
  /\ item1 (flip (of_list [Fin 0; Fin (-1)])) 1
     <> neg (item1 (of_list [Fin 0; Fin (-1)]) 1).
Proof.
  assert (Hflip : flip (of_list [Fin 0; Fin (-1)]) = of_list [Fin 0; Fin (-1)]).
  { unfold flip, all_negative. cbn. real_tests. reflexivity. }
  split; [|split; [exact Hflip|rewrite Hflip; cbn; split; [|split]]].
  - cbn. intros [|[|i]] Hi; cbn; try lra; lia.
  - reflexivity.
  - f_equal. lra.
  - intros H. injection H as H. lra.
Qed.

(** [flip_strictly_negative] on (-1, -2), which is negated, and on
    (1, -2), which is kept. *)
Lemma flip_strictly_negative_witness :
  (len (flip (of_list [Fin (-1); Fin (-2)])) = 2%nat /\
   forall i, (i < 2)%nat ->
     item1 (flip (of_list [Fin (-1); Fin (-2)])) i
     = neg (item1 (of_list [Fin (-1); Fin (-2)]) i))
  /\ flip (of_list [Fin 0; Fin (-2)]) = of_list [Fin 0; Fin (-2)]
  /\ flip (of_list [Fin 1; Fin (-2)]) = of_list [Fin 1; Fin (-2)].
Proof.
  destruct (flip_strictly_negative (of_list [Fin (-1); Fin (-2)]))
    as (Hneg & _ & _).
  destruct (flip_strictly_negative (of_list [Fin 0; Fin (-2)]))
    as (_ & Hzero & _).
  destruct (flip_strictly_negative (of_list [Fin 1; Fin (-2)]))
    as (_ & _ & Hpos).
  split; [|split].
  - apply Hneg. cbn. intros [|[|i]] Hi; cbn; real_tests; try reflexivity; lia.
  - apply Hzero. exists 0%nat. cbn. split; [lia|]. real_tests; reflexivity.
  - apply Hpos. exists 0%nat. cbn. split; [lia|lra].
Defined.

End PcaFacts.

(** ** The credible-interval formatter *)

Section FormatFacts.
Import Np.
Import Posterior.
Local Open Scope R_scope.


Variable credible_interval : array1 -> float -> float * float.
Variable median : array1 -> float.
Variable str_format : string -> float -> string.


End FormatFacts.


(** ** The curves of the regimes *)

Section RegimeFacts.
Import Np.
Import Posterior.
Local Open Scope R_scope.

(** The group of a label holds rows of that label only, in the order of
    the sample matrix, and every row of that label is in it. *)
Lemma masked_rows (samples : array2) (labels : nat -> nat) (n : nat) :
  let g := masked samples labels n in
  cols g = cols samples /\
  (forall r, (r < rows g)%nat ->
     exists i, (i < rows samples)%nat /\ labels i = n /\
               forall j, item2 g r j = item2 samples i j) /\
  (forall i, (i < rows samples)%nat -> labels i = n ->
     exists r, (r < rows g)%nat /\
               forall j, item2 g r j = item2 samples i j).
Proof.
  cbn zeta. unfold masked. cbn [rows cols item2].
  set (idx := filter (fun i => Nat.eqb (labels i) n) (seq 0 (rows samples))).
  split; [reflexivity|]. split.
  - intros r Hr. exists (nth r idx O).
    assert (Hin : In (nth r idx O) idx) by now apply nth_In.
    apply filter_In in Hin as [Hseq Hlab]. apply in_seq in Hseq.
    apply Nat.eqb_eq in Hlab. repeat split; [lia|assumption].
  - intros i Hi Hlab.
    assert (Hin : In i idx).
    { apply filter_In. split; [apply in_seq; lia|now apply Nat.eqb_eq]. }
    destruct (In_nth idx i O Hin) as (r & Hr & Hnth).
    exists r. split; [assumption|]. intros j. now rewrite Hnth.
Qed.

End RegimeFacts.

(** ** Normal quantiles beside the residuals *)

Section GuideFacts.
Import Guides.
Local Open Scope R_scope.

Variables erf erfinv : R -> R.

(** What is used of the error function: it is odd and increasing, and
    [erfinv] inverts it on the open interval from -1 to 1. *)
Hypothesis erf_odd : forall x, erf (- x) = - erf x.
Hypothesis erf_increasing : forall x y, x < y -> erf x < erf y.
Hypothesis erf_erfinv : forall y, -1 < y < 1 -> erf (erfinv y) = y.

Lemma erf_injective x y : erf x = erf y -> x = y.
Proof.
  intros E. destruct (Rtotal_order x y) as [H|[H|H]]; [|assumption|].
  - apply erf_increasing in H. lra.
  - apply erf_increasing in H. lra.
Qed.

Lemma erfinv_odd y : -1 < y < 1 -> erfinv (- y) = - erfinv y.
Proof.
  intros Hy. apply erf_injective.
  rewrite erf_odd, !erf_erfinv by lra. reflexivity.
Qed.

Lemma erfinv_zero : erfinv 0 = 0.
Proof.
  assert (H : erfinv (- 0) = - erfinv 0) by (apply erfinv_odd; lra).
  rewrite Ropp_0 in H. lra.
Qed.

Lemma quantile_at_guide y :
  -1 < y < 1 -> quantile_at_sigma erf (sqrt 2 * erfinv y) = 0.5 * (1 + y).
Proof.
  intros Hy. unfold quantile_at_sigma.
  replace (sqrt 2 * erfinv y / sqrt 2) with (erfinv y)
    by (field; apply sqrt2_neq_0).
  now rewrite erf_erfinv.
Qed.

Lemma quantile_below_guide y :
  -1 < y < 1 ->
  quantile_at_sigma erf (- (sqrt 2 * erfinv y)) = 0.5 * (1 - y).
Proof.
  intros Hy.
  replace (- (sqrt 2 * erfinv y)) with (sqrt 2 * erfinv (- y))
    by (rewrite erfinv_odd by lra; ring).
  rewrite quantile_at_guide by lra. lra.
Qed.

Lemma tick_is_quantile (s : R) (l : Z) :
  In (s, l) (quantile_ticks erfinv) ->
  s = sqrt 2 * erfinv (2 * (IZR l / 100) - 1) /\
  quantile_at_sigma erf s = IZR l / 100.
Proof.
  unfold quantile_ticks, p_guide, q_guide. cbn [combine In].
  intros [H|[H|[H|[H|[H|[]]]]]]; injection H as <- <-.
  - replace (2 * (10 / 100) - 1) with (- (2 * 0.90 - 1)) by lra.
    rewrite erfinv_odd by lra. split; [ring|].
    rewrite quantile_below_guide by lra. lra.
  - replace (2 * (25 / 100) - 1) with (- (2 * 0.75 - 1)) by lra.
    rewrite erfinv_odd by lra. split; [ring|].
    rewrite quantile_below_guide by lra. lra.
  - replace (2 * (50 / 100) - 1) with 0 by lra.
    rewrite erfinv_zero. split; [ring|].
    replace 0 with (sqrt 2 * erfinv 0) at 1 by (rewrite erfinv_zero; ring).
    rewrite quantile_at_guide by lra. lra.
  - replace (2 * (75 / 100) - 1) with (2 * 0.75 - 1) by lra.
    split; [reflexivity|]. rewrite quantile_at_guide by lra. lra.
  - replace (2 * (90 / 100) - 1) with (2 * 0.90 - 1) by lra.
    split; [reflexivity|]. rewrite quantile_at_guide by lra. lra.
Qed.

(** C6.  The positions marked beside the residuals carry the percentages
    10, 25, 50, 75 and 90, in this order and no other.  For each of these
    percentages [l] there is one position marked with it; it is
    [sqrt(2)*erfinv(2*l/100 - 1)], and the normal quantile
    [0.5*(1 + erf(s/sqrt 2))] reached at that position is [l/100].  The
    grey band goes from the position of 25 to the position of 75, and the
    three lines are at the positions of 10, 50 and 90. *)
Theorem guides_are_normal_quantiles :
  let sigma l := sqrt 2 * erfinv (2 * (IZR l / 100) - 1) in
  map snd (quantile_ticks erfinv) = [10; 25; 50; 75; 90]%Z /\
  (forall l, In l [10; 25; 50; 75; 90]%Z ->
     In (sigma l, l) (quantile_ticks erfinv) /\
     quantile_at_sigma erf (sigma l) = IZR l / 100 /\
     forall s, In (s, l) (quantile_ticks erfinv) -> s = sigma l) /\
  band erfinv = (sigma 25%Z, sigma 75%Z) /\
  lines erfinv = [sigma 10%Z; sigma 50%Z; sigma 90%Z].
Proof.
  cbn zeta. split; [reflexivity|].
  assert (Hall : forall l, In l [10; 25; 50; 75; 90]%Z ->
                   exists s, In (s, l) (quantile_ticks erfinv)).
  { unfold quantile_ticks. cbn [combine In].
    intros l [<-|[<-|[<-|[<-|[<-|[]]]]]]; eexists; auto 10. }
  split.
  - intros l Hl. destruct (Hall l Hl) as [s Hs].
    destruct (tick_is_quantile Hs) as [Hsig Hq]. subst s.
    split; [assumption|]. split; [assumption|].
    intros s' Hs'. now apply tick_is_quantile in Hs'.
  - unfold band, lines, q_guide, p_guide. cbn [map]. split.
    + f_equal.
      replace (2 * (25 / 100) - 1) with (- (2 * 0.75 - 1)) by lra.
      rewrite erfinv_odd by lra. ring.
    + replace (2 * (10 / 100) - 1) with (- (2 * 0.90 - 1)) by lra.
      replace (2 * (50 / 100) - 1) with 0 by lra.
      replace (2 * (90 / 100) - 1) with (2 * 0.90 - 1) by lra.
      rewrite erfinv_odd, erfinv_zero by lra.
      f_equal; [ring|]. f_equal; [ring|]. f_equal. ring.
Qed.

End GuideFacts.

Section SigmoidFacts.
Import Guides.
Local Open Scope R_scope.

Lemma sigmoid_odd x : sigmoid (- x) = - sigmoid x.
Proof. unfold sigmoid. rewrite atan_opp. ring. Qed.

Lemma sigmoid_increasing x y : x < y -> sigmoid x < sigmoid y.
Proof.
  intros H. unfold sigmoid. apply atan_increasing in H.
  apply Rmult_lt_compat_l; [|assumption].
  apply Rdiv_lt_0_compat; [lra|apply PI_RGT_0].
Qed.

Lemma sigmoid_inverse y : -1 < y < 1 -> sigmoid (sigmoid_inv y) = y.
Proof.
  intros Hy. unfold sigmoid, sigmoid_inv. pose proof PI_RGT_0 as Hpi.
  rewrite atan_tan.
  - field. lra.
  - split; nra.
Qed.

(** [guides_are_normal_quantiles] with the arctangent taken for the
    error function. *)
Lemma guides_are_normal_quantiles_witness :
  let sigma l := sqrt 2 * sigmoid_inv (2 * (IZR l / 100) - 1) in
  map snd (quantile_ticks sigmoid_inv) = [10; 25; 50; 75; 90]%Z /\
  (forall l, In l [10; 25; 50; 75; 90]%Z ->
     In (sigma l, l) (quantile_ticks sigmoid_inv) /\
     quantile_at_sigma sigmoid (sigma l) = IZR l / 100 /\
     forall s, In (s, l) (quantile_ticks sigmoid_inv) -> s = sigma l) /\
  band sigmoid_inv = (sigma 25%Z, sigma 75%Z) /\
  lines sigmoid_inv = [sigma 10%Z; sigma 50%Z; sigma 90%Z].
Proof.
  apply (@guides_are_normal_quantiles sigmoid sigmoid_inv
           sigmoid_odd sigmoid_increasing sigmoid_inverse).
Defined.

End SigmoidFacts.

(** ** Smoothing of the histograms *)

Section PchipFacts.
Import Pchip.
Local Open Scope R_scope.

Lemma hermite_left x0 y0 d0 x1 y1 d1 :
  hermite x0 y0 d0 x1 y1 d1 x0 = y0.
Proof. unfold hermite. cbn zeta. ring. Qed.

Lemma hermite_right x0 y0 d0 x1 y1 d1 :
  x0 < x1 -> hermite x0 y0 d0 x1 y1 d1 x1 = y1.
Proof. intros H. unfold hermite. cbn zeta. field. lra. Qed.

Lemma increasing_cons a b l :
  increasing (a :: b :: l) = true <-> a < b /\ increasing (b :: l) = true.
Proof.
  cbn [increasing]. destruct (Rlt_dec a b); cbn [andb]; split;
    intros H; try tauto; try discriminate.
Qed.

Lemma increasing_above a l :
  increasing (a :: l) = true -> forall k b, nth_error l k = Some b -> a < b.
Proof.
  revert a. induction l as [|c l IH]; intros a Hinc k b Hk.
  - destruct k; discriminate.
  - apply increasing_cons in Hinc as [Hac Hl]. destruct k as [|k].
    + injection Hk as <-. assumption.
    + cbn in Hk. pose proof (IH c Hl k b Hk). lra.
Qed.

(** The interpolant takes at each knot the height of that knot, whatever
    the slopes. *)
Lemma eval_at_knot (ks : list knot) :
  increasing (map position ks) = true ->
  (2 <= List.length ks)%nat ->
  forall k kn, nth_error ks k = Some kn -> eval ks (position kn) = height kn.
Proof.
  induction ks as [|[[x0 y0] d0] ks IH]; intros Hinc Hlen k kn Hk;
    [cbn in Hlen; lia|].
  destruct ks as [|[[x1 y1] d1] rest]; [cbn in Hlen; lia|].
  cbn [map position fst] in Hinc.
  apply increasing_cons in Hinc as [H01 Htail].
  destruct rest as [|kn2 rest].
  - destruct k as [|[|k]]; cbn in Hk.
    + injection Hk as <-. apply hermite_left.
    + injection Hk as <-. now apply hermite_right.
    + destruct k; discriminate.
  - cbn [eval]. destruct k as [|k].
    + injection Hk as <-. cbn [position height fst snd].
      destruct (Rlt_dec x0 x1); [apply hermite_left|contradiction].
    + cbn [nth_error] in Hk.
      assert (Hge : ~ position kn < x1).
      { destruct k as [|k].
        - injection Hk as <-. cbn. lra.
        - cbn [nth_error] in Hk.
          assert (x1 < position kn); [|lra].
          apply (@increasing_above x1 _ Htail k).
          change (nth_error (map position (kn2 :: rest)) k
                  = Some (position kn)).
          now apply map_nth_error. }
      destruct (Rlt_dec (position kn) x1); [contradiction|].
      apply (IH Htail) with (k := k); [cbn; lia|assumption].
Qed.

Lemma find_derivatives_length x y :
  (2 <= List.length x)%nat ->
  List.length (find_derivatives x y) = List.length x.
Proof.
  intros H. unfold find_derivatives.
  destruct (Nat.eqb_spec (List.length x) 2) as [->|_]; [reflexivity|].
  now rewrite length_map, length_seq.
Qed.

Lemma map_position_combine (x y d : list R) :
  List.length y = List.length x -> List.length d = List.length x ->
  map position (combine (combine x y) d) = x.
Proof.
  revert y d. induction x as [|a x IH]; intros [|b y] [|c d] Hy Hd;
    try discriminate; [reflexivity|].
  cbn. f_equal. apply IH; cbn in *; lia.
Qed.

Lemma nth_error_knot (x y d : list R) k :
  List.length y = List.length x -> List.length d = List.length x ->
  (k < List.length x)%nat ->
  exists s, nth_error (combine (combine x y) d) k
            = Some (nth k x 0, nth k y 0, s).
Proof.
  revert y d k. induction x as [|a x IH]; intros [|b y] [|c d] k Hy Hd Hk;
    try discriminate; [cbn in Hk; lia|].
  destruct k as [|k]; [now exists c|].
  cbn. apply IH; cbn in *; lia.
Qed.

Lemma linspace_ends a b num :
  (2 <= num)%nat ->
  hd 0 (linspace a b num) = a /\ last (linspace a b num) 0 = b.
Proof.
  intros Hnum. unfold linspace.
  destruct num as [|[|n]]; try lia. split.
  - cbn [seq map hd Nat.ltb Nat.leb Nat.eqb Nat.sub andb INR]. ring.
  - rewrite seq_S, map_app. cbn [map]. rewrite last_last. cbn [Nat.add].
    replace (Nat.ltb 1 (S (S n))) with true by reflexivity.
    replace (S (S n) - 1)%nat with (S n) by lia.
    now rewrite Nat.eqb_refl.
Qed.

Lemma last_nth (l : list R) :
  last l 0 = nth (List.length l - 1) l 0.
Proof.
  induction l as [|a [|b l] IH]; try reflexivity.
  change (last (a :: b :: l) 0) with (last (b :: l) 0). rewrite IH.
  cbn [List.length Nat.sub]. now rewrite Nat.sub_0_r.
Qed.

Lemma last_map (f : R -> R) (l : list R) :
  l <> [] -> last (map f l) 0 = f (last l 0).
Proof.
  induction l as [|a [|b l] IH]; intros H; [contradiction|reflexivity|].
  change (last (map f (b :: l)) 0 = f (last (b :: l) 0)).
  apply IH. discriminate.
Qed.

(** C8.  For strictly increasing bin centers [x], two at least, with as
    many heights [y], the interpolant exists and takes the height [y[k]]
    at every center [x[k]]; and the curve that is drawn from it starts at
    the first bin, [(x[0], y[0])], and ends at the last one. *)
Theorem pchip_passes_through_knots (x y : list R) :
  List.length y = List.length x ->
  (2 <= List.length x)%nat ->
  increasing x = true ->
  exists interp,
    PchipInterpolator x y = Py.Return interp /\
    (forall k, (k < List.length x)%nat -> interp (nth k x 0) = nth k y 0) /\
    exists dense_x dense_y,
      smooth x y = Py.Return (dense_x, dense_y) /\
      dense_y = map interp dense_x /\
      List.length dense_x = (10 * List.length x)%nat /\
      hd 0 dense_x = hd 0 x /\ hd 0 dense_y = hd 0 y /\
      last dense_x 0 = last x 0 /\ last dense_y 0 = last y 0.
Proof.
  intros Hy Hlen Hinc.
  assert (Hd := find_derivatives_length x y Hlen).
  assert (Hknots : forall k, (k < List.length x)%nat ->
            eval (combine (combine x y) (find_derivatives x y)) (nth k x 0)
            = nth k y 0).
  { intros k Hk.
    destruct (nth_error_knot x y (find_derivatives x y) Hy Hd Hk) as (s & Hs).
    change (nth k x 0) with (position (nth k x 0, nth k y 0, s)).
    change (nth k y 0) with (height (nth k x 0, nth k y 0, s)) at 2.
    apply eval_at_knot with (k := k); [| |assumption].
    - now rewrite map_position_combine.
    - rewrite <- (length_map position), map_position_combine by assumption.
      exact Hlen. }
  unfold smooth, PchipInterpolator.
  rewrite Hy, Nat.eqb_refl, Hinc. cbn [negb].
  destruct (Nat.ltb_spec (List.length x) 2) as [Hlt|_]; [lia|].
  eexists. split; [reflexivity|]. split; [exact Hknots|].
  cbn [Py.bind].
  destruct x as [|x0 x']; [cbn in Hlen; lia|].
  destruct y as [|y0 y']; [discriminate|].
  do 2 eexists. split; [reflexivity|]. split; [reflexivity|].
  set (n := List.length (x0 :: x')) in *.
  destruct (linspace_ends x0 (last (x0 :: x') 0) (num := 10 * n))
    as [Hhd Hlast]; [lia|].
  assert (Hne : linspace x0 (last (x0 :: x') 0) (10 * n) <> []).
  { intros E. apply (f_equal (@List.length R)) in E.
    unfold linspace in E. rewrite length_map, length_seq in E.
    cbn in E. lia. }
  repeat split.
  - unfold linspace. now rewrite length_map, length_seq.
  - exact Hhd.
  - destruct (linspace x0 (last (x0 :: x') 0) (10 * n)) as [|a l] eqn:E;
      [contradiction|].
    cbn [map hd] in *. subst a. apply (Hknots 0%nat). lia.
  - exact Hlast.
  - rewrite last_map by assumption. rewrite Hlast.
    rewrite (last_nth (x0 :: x')), (last_nth (y0 :: y')).
    rewrite Hy. apply Hknots. lia.
Qed.

(** [pchip_passes_through_knots] on three bins with centers 0, 1, 3 and
    heights 0, 2, 1. *)
Lemma pchip_passes_through_knots_witness :
  exists interp,
    PchipInterpolator [0; 1; 3] [0; 2; 1] = Py.Return interp /\
    (forall k, (k < 3)%nat ->
       interp (nth k [0; 1; 3] 0) = nth k [0; 2; 1] 0) /\
    exists dense_x dense_y,
      smooth [0; 1; 3] [0; 2; 1] = Py.Return (dense_x, dense_y) /\
      dense_y = map interp dense_x /\
      List.length dense_x = 30%nat /\
      hd 0 dense_x = 0 /\ hd 0 dense_y = 0 /\
      last dense_x 0 = 3 /\ last dense_y 0 = 1.
Proof.
  apply (pchip_passes_through_knots [0; 1; 3] [0; 2; 1]).
  - reflexivity.
  - cbn. lia.
  - cbn. repeat (destruct (Rlt_dec _ _); [|lra]). reflexivity.
Defined.

End PchipFacts.

(** * Further properties of the program *)

(** ** Shapes of the validation arrays *)

Section ValidationReals.
Import Np.
Import Validation.
Local Open Scope R_scope.

(** Arrays whose numbers of bins differ, neither being 1, cannot be
    subtracted: the statistics raise [ValueError]. *)
Theorem validation_stats_shape_error Y Y_ cov :
  cols Y <> cols Y_ -> cols Y <> 1%nat -> cols Y_ <> 1%nat ->
  exists msg, validation_stats Y Y_ cov = Py.Raise (Py.ValueError msg).
Proof.
  intros Hne HY HY_. unfold validation_stats, map2, broadcast_dim.
  destruct (Nat.eqb_spec (cols Y_) (cols Y)) as [E|_]; [congruence|].
  destruct (Nat.eqb_spec (cols Y_) 1) as [E|_]; [congruence|].
  destruct (Nat.eqb_spec (cols Y) 1) as [E|_]; [congruence|].
  destruct (if Nat.eqb (rows Y_) (rows Y) then Some (rows Y_)
            else if Nat.eqb (rows Y_) 1 then Some (rows Y)
            else if Nat.eqb (rows Y) 1 then Some (rows Y_) else None);
    eexists; reflexivity.
Qed.

(** [validation_stats_shape_error] on two bins against three. *)
Lemma validation_stats_shape_error_witness :
  exists msg,
    validation_stats (full2 1 2 (Fin 1)) (full2 1 3 (Fin 1))
                     (full3 1 2 (Fin 1))
    = Py.Raise (Py.ValueError msg).
Proof.
  apply validation_stats_shape_error; cbn; lia.
Defined.

End ValidationReals.

(** ** The total experimental error of several sources *)

Section QuadratureReals.
Import Np.
Import Validation.
Import Observables.
Local Open Scope R_scope.

Lemma squares_at_nonneg i es : 0 <= squares_at i es.
Proof. apply sum_squares_nonneg. Qed.

Lemma total_yerr_real (sources : list (string * array1)) (n : nat) :
  (forall e, In e (Py.values sources) -> len e = n) ->
  sources <> [] ->
  exists t,
    total_yerr sources = Py.Return (Arr t) /\ len t = n /\
    forall i, (i < n)%nat ->
      (forall e, In e (Py.values sources) -> finite (item1 e i)) ->
      item1 t i = Fin (R_sqrt.sqrt (squares_at i (Py.values sources))).
Proof.
  intros Hlen Hne. unfold total_yerr.
  destruct sources as [|[name e] rest]; [contradiction|].
  cbn [Py.values map py_sum value_add Py.bind snd] in *.
  fold (Py.values rest) in *.
  match goal with
  | |- context [py_sum _ (Arr ?a)] =>
      destruct (@py_sum_arrays n (Py.values rest) a) as (w & Hw & Hwl & Hit)
  end.
  - cbn [map_array1 len]. apply Hlen. now left.
  - intros e' He'. apply Hlen. now right.
  - rewrite Hw. cbn [Py.bind value_map].
    eexists. split; [reflexivity|]. split; [exact Hwl|].
    intros i Hi Hfin. cbn [map_array1 item1]. rewrite (Hit i Hi).
    cbn [map_array1 item1].
    change (add (Fin 0) (square (item1 e i)))
      with (fold_left add (map (fun e => square (item1 e i)) [e]) (Fin 0)).
    rewrite <- fold_left_app, <- map_app. cbn [app].
    assert (Hsq : fold_left add
                    (map (fun e0 => square (item1 e0 i)) (e :: Py.values rest))
                    (Fin 0)
                  = Fin (0 + squares_at i (e :: Py.values rest))).
    { apply (@fold_left_add_squares _ (fun e0 => item1 e0 i)).
      intros e' [<-|He']; apply Hfin; [now left|now right]. }
    rewrite Hsq.
    pose proof (squares_at_nonneg i (e :: Py.values rest)) as Hpos.
    unfold sqrt, Rltb.
    destruct (Rlt_dec (0 + squares_at i (e :: Py.values rest)) 0); [lra|].
    do 2 f_equal. lra.
Qed.

(** Errors 3 and 4 add up to 5. *)
Example total_yerr_3_4 :
  exists t,
    total_yerr [("stat", full1 1 (Fin 3)); ("sys", full1 1 (Fin 4))]
      = Py.Return (Arr t) /\
    item1 t 0%nat = Fin 5.
Proof.
  destruct (@total_yerr_real
              [("stat", full1 1 (Fin 3)); ("sys", full1 1 (Fin 4))] 1)
    as (t & Ht & _ & Hit).
  - intros e [<-|[<-|[]]]; reflexivity.
  - discriminate.
  - exists t. split; [assumption|]. rewrite Hit.
    + unfold squares_at.
      cbn [Py.values map snd fold_right full1 item1 real_of]. f_equal.
      replace (3² + (4² + 0)) with (5 * 5) by (unfold Rsqr; lra).
      apply sqrt_square. lra.
    + lia.
    + intros e [<-|[<-|[]]]; exact I.
Qed.

(** Two first sources whose arrays differ in length, neither of length
    one, cannot be added: the total raises [ValueError]. *)
Theorem total_yerr_length_error (s1 s2 : string) (e1 e2 : array1)
  (rest : list (string * array1)) :
  len e1 <> len e2 -> len e1 <> 1%nat -> len e2 <> 1%nat ->
  exists msg,
    total_yerr ((s1, e1) :: (s2, e2) :: rest) = Py.Raise (Py.ValueError msg).
Proof.
  intros Hne H1 H2. unfold total_yerr.
  cbn [Py.values map py_sum value_add Py.bind snd map_array1 len].
  unfold broadcast_dim.
  destruct (Nat.eqb_spec (len e1) (len e2)) as [E|_]; [congruence|].
  destruct (Nat.eqb_spec (len e1) 1) as [E|_]; [congruence|].
  destruct (Nat.eqb_spec (len e2) 1) as [E|_]; [congruence|].
  eexists. reflexivity.
Qed.

(** [total_yerr_length_error] on two bins of statistical error against
    three of systematic error. *)
Lemma total_yerr_length_error_witness :
  exists msg,
    total_yerr [("stat", full1 2 (Fin 3)); ("sys", full1 3 (Fin 4))]
    = Py.Raise (Py.ValueError msg).
Proof.
  apply total_yerr_length_error; cbn; lia.
Defined.

End QuadratureReals.

(** ** Keys that the figure of the observables needs *)

Section FigureFacts.
Import Np.
Import Observables.

(** A key that the model lacks is not caught: with the colour of the
    observable known, the turn of the loop raises the [KeyError] of the
    lookup in [model.data], and so does the loop over the subplots. *)
Theorem missing_model_raises (e : env) (posterior : bool)
  (system obs : string) (sub : subobs) (o : opts) (ax : list draw)
  (rest : list subplot) (color : Color.hsluv) :
  Color.obs_color_hsluv obs sub = Py.Return color ->
  (forall entry, lookup (model_data e) system obs sub <> Py.Return entry) ->
  exists k,
    lookup (model_data e) system obs sub = Py.Raise (Py.KeyError k) /\
    subplot_body e posterior system ax (obs, sub, o)
      = Py.Raise (Py.KeyError k) /\
    subplots_loop e posterior system ax ((obs, sub, o) :: rest)
      = Py.Raise (Py.KeyError k).
Proof.
  intros Hcolor Hmissing.
  destruct (lookup_returns_or_KeyError (model_data e) system obs sub)
    as [[entry He]|[k Hk]]; [now apply Hmissing in He|].
  exists k. split; [assumption|].
  assert (Hbody : subplot_body e posterior system ax (obs, sub, o)
                  = Py.Raise (Py.KeyError k)).
  { unfold subplot_body. rewrite Hcolor, Hk. reflexivity. }
  split; [assumption|]. cbn [subplots_loop]. now rewrite Hbody.
Qed.

(** [missing_model_raises] on the transverse energy, which the model of
    [example_env] does not have. *)
Lemma missing_model_raises_witness :
  exists k,
    lookup (model_data example_env) "PbPb2760" "dET_deta" SubNone
      = Py.Raise (Py.KeyError k) /\
    subplot_body example_env false "PbPb2760" []
      ("dET_deta", SubNone, Opts None None) = Py.Raise (Py.KeyError k) /\
    subplots_loop example_env false "PbPb2760" []
      [("dET_deta", SubNone, Opts None None)] = Py.Raise (Py.KeyError k).
Proof.
  apply (@missing_model_raises example_env false "PbPb2760" "dET_deta"
           SubNone (Opts None None) [] [] (10, 65, 55)%Z).
  - reflexivity.
  - intros entry. discriminate.
Defined.

(** Every subplot of the figure has a colour: for the observables and
    the sub-observables that [_observables_plots] lists, [obs_color]
    finds a colour, so its [ValueError] for an unknown observable cannot
    be raised from [_observables]. *)
Theorem subplots_have_colors (sps : list subplot) (obs : string)
  (sub : subobs) (o : opts) :
  In sps observables_plots -> In (obs, sub, o) sps ->
  exists c, Color.obs_color_hsluv obs sub = Py.Return c.
Proof.
  unfold observables_plots, id_parts_plots. cbn [app In].
  intros [<-|[<-|[<-|[<-|[]]]]]; cbn [In];
    intros H; repeat (destruct H as [H|H]; [injection H as <- <- <-|]);
    try contradiction; eexists; reflexivity.
Qed.

(** [subplots_have_colors] on the triangular flow, in the last row of
    the figure. *)
Lemma subplots_have_colors_witness :
  exists c, Color.obs_color_hsluv "vnk" (SubPair 3 2) = Py.Return c.
Proof.
  apply (@subplots_have_colors (nth 3 observables_plots [])
           "vnk" (SubPair 3 2) (Opts (Some "$v_3$") None)).
  - cbn. auto.
  - cbn. auto.
Defined.

End FigureFacts.

(** ** The canonical direction of an arrow *)

Section FlipFacts.
Import Np.
Import Pca.
Local Open Scope R_scope.

Lemma negated_not_negative x :
  is_negative x = true -> is_negative (mul x (Fin (-1))) = false.
Proof.
  rewrite mul_minus_one.
  destruct x as [r| | |]; cbn; try discriminate; try reflexivity.
  unfold Rltb. destruct (Rlt_dec r 0); [|discriminate].
  intros _. destruct (Rlt_dec (- r) 0); [lra|reflexivity].
Qed.

Lemma abs_neg x : abs (neg x) = abs x.
Proof. destruct x; cbn; try reflexivity. now rewrite Rabs_Ropp. Qed.

(** The vector an arrow is drawn for is in canonical form: for a vector
    with at least one coordinate, the result never has all its
    coordinates below zero, so a second pass changes nothing; the length
    and the size of every coordinate are those of the vector given. *)
Theorem flip_canonical (p : array1) :
  (0 < len p)%nat ->
  all_negative (flip p) = false /\
  flip (flip p) = flip p /\
  len (flip p) = len p /\
  forall i, abs (item1 (flip p) i) = abs (item1 p i).
Proof.
  intros Hlen.
  assert (Hnot : all_negative (flip p) = false).
  { unfold flip. destruct (all_negative p) eqn:E; [|assumption].
    unfold all_negative in *. cbn [map_array1 len item1].
    apply all_upto_false with (i := 0%nat); [assumption|].
    apply negated_not_negative.
    now apply (proj1 (all_upto_true _ _) E). }
  split; [assumption|]. split.
  - unfold flip at 1. now rewrite Hnot.
  - unfold flip. destruct (all_negative p); split; try reflexivity.
    intros i. cbn [map_array1 item1]. now rewrite mul_minus_one, abs_neg.
Qed.

(** [flip_canonical] on (-1, -2). *)
Lemma flip_canonical_witness :
  all_negative (flip (of_list [Fin (-1); Fin (-2)])) = false /\
  flip (flip (of_list [Fin (-1); Fin (-2)]))
    = flip (of_list [Fin (-1); Fin (-2)]) /\
  len (flip (of_list [Fin (-1); Fin (-2)])) = len (of_list [Fin (-1); Fin (-2)]) /\
  forall i, abs (item1 (flip (of_list [Fin (-1); Fin (-2)])) i)
            = abs (item1 (of_list [Fin (-1); Fin (-2)]) i).
Proof.
  apply (flip_canonical (of_list [Fin (-1); Fin (-2)])). cbn. lia.
Defined.

End FlipFacts.

(** ** The order of the guides *)

Section GuideOrder.
Import Guides.
Local Open Scope R_scope.

Variables erf erfinv : R -> R.
Hypothesis erf_odd : forall x, erf (- x) = - erf x.
Hypothesis erf_increasing : forall x y, x < y -> erf x < erf y.
Hypothesis erf_erfinv : forall y, -1 < y < 1 -> erf (erfinv y) = y.

Lemma erfinv_increasing a b :
  -1 < a < 1 -> -1 < b < 1 -> a < b -> erfinv a < erfinv b.
Proof.
  intros Ha Hb Hab.
  destruct (Rlt_le_dec (erfinv a) (erfinv b)) as [H|H]; [assumption|].
  exfalso. destruct H as [H|H].
  - apply erf_increasing in H. rewrite !erf_erfinv in H by assumption. lra.
  - rewrite <- (erf_erfinv Ha), <- (erf_erfinv Hb), H in Hab. lra.
Qed.

(** The five positions marked beside the residuals are in increasing
    order, [-p < -q < 0 < q < p], as their labels 10, 25, 50, 75, 90 are;
    the shaded band from [-q] to [q] lies inside the outer lines at [-p]
    and [p], and the middle line is at zero. *)
Theorem guides_ordered :
  - p_guide erfinv < - q_guide erfinv /\
  - q_guide erfinv < 0 /\
  0 < q_guide erfinv /\
  q_guide erfinv < p_guide erfinv /\
  lines erfinv = [- p_guide erfinv; 0; p_guide erfinv] /\
  band erfinv = (- q_guide erfinv, q_guide erfinv).
Proof.
  pose proof Rlt_sqrt2_0 as Hs.
  assert (H0 : erfinv 0 = 0) by (apply (@erfinv_zero erf erfinv erf_odd erf_increasing erf_erfinv)).
  assert (Hq : 0 < erfinv (2 * 0.75 - 1)).
  { rewrite <- H0. apply erfinv_increasing; lra. }
  assert (Hp : erfinv (2 * 0.75 - 1) < erfinv (2 * 0.90 - 1))
    by (apply erfinv_increasing; lra).
  unfold lines, band. cbn [map]. unfold p_guide, q_guide.
  split; [nra|]. split; [nra|]. split; [nra|]. split; [nra|].
  split; [|reflexivity].
  replace (-1 * (sqrt 2 * erfinv (2 * 0.90 - 1)))
    with (- (sqrt 2 * erfinv (2 * 0.90 - 1))) by ring.
  replace (0 * (sqrt 2 * erfinv (2 * 0.90 - 1))) with 0 by ring.
  replace (1 * (sqrt 2 * erfinv (2 * 0.90 - 1)))
    with (sqrt 2 * erfinv (2 * 0.90 - 1)) by ring.
  reflexivity.
Qed.

End GuideOrder.

(** [guides_ordered] with the arctangent taken for the error function. *)
Lemma guides_ordered_witness :
  (- Guides.p_guide Guides.sigmoid_inv < - Guides.q_guide Guides.sigmoid_inv
   /\ - Guides.q_guide Guides.sigmoid_inv < 0
   /\ 0 < Guides.q_guide Guides.sigmoid_inv
   /\ Guides.q_guide Guides.sigmoid_inv < Guides.p_guide Guides.sigmoid_inv
   /\ Guides.lines Guides.sigmoid_inv
      = [- Guides.p_guide Guides.sigmoid_inv; 0;
         Guides.p_guide Guides.sigmoid_inv]
   /\ Guides.band Guides.sigmoid_inv
      = (- Guides.q_guide Guides.sigmoid_inv,
         Guides.q_guide Guides.sigmoid_inv))%R.
Proof.
  apply (@guides_ordered Guides.sigmoid Guides.sigmoid_inv
           sigmoid_odd sigmoid_increasing sigmoid_inverse).
Defined.

(** ** The range of the smoothed curve *)

Section SmoothRange.
Import Pchip.
Local Open Scope R_scope.

Lemma last_in (b : R) (l : list R) : In (last (b :: l) 0) (b :: l).
Proof.
  revert b. induction l as [|c l IH]; intros b; [now left|].
  right. apply (IH c).
Qed.

Lemma increasing_first_last a b l :
  increasing (a :: b :: l) = true -> a < last (a :: b :: l) 0.
Proof.
  intros Hinc. change (last (a :: b :: l) 0) with (last (b :: l) 0).
  destruct (In_nth_error _ _ (last_in b l)) as (k & Hk).
  exact (@increasing_above a (b :: l) Hinc k _ Hk).
Qed.

Lemma linspace_between a b num v :
  a <= b -> In v (linspace a b num) -> a <= v <= b.
Proof.
  intros Hab Hin. unfold linspace in Hin.
  apply in_map_iff in Hin as (i & <- & Hi). apply in_seq in Hi.
  destruct (Nat.ltb 1 num && Nat.eqb i (num - 1)); [lra|].
  assert (Hnum : (1 <= num - 1 \/ num - 1 = 0)%nat) by lia.
  destruct Hnum as [Hnum|Hnum].
  - assert (Hpos : 0 < INR (num - 1)) by (apply lt_0_INR; lia).
    assert (Hi' : INR i <= INR (num - 1)) by (apply le_INR; lia).
    pose proof (pos_INR i) as Hi0.
    assert (Hstep : 0 <= (b - a) / INR (num - 1)).
    { apply Rmult_le_pos; [lra|]. now apply Rlt_le, Rinv_0_lt_compat. }
    assert (Hfull : INR (num - 1) * ((b - a) / INR (num - 1)) = b - a)
      by (field; lra).
    split; [nra|]. nra.
  - assert (i = 0)%nat by lia. subst i. cbn [INR]. lra.
Qed.

(** The smoothed curve stays on the histogram: its [10*len(x)] positions
    all lie between the first and the last bin center, so the interpolant
    is never used outside the bins, and there is one height for each
    position. *)
Theorem smooth_within_range (x y : list R) :
  List.length y = List.length x ->
  (2 <= List.length x)%nat ->
  increasing x = true ->
  exists dense_x dense_y,
    smooth x y = Py.Return (dense_x, dense_y) /\
    List.length dense_x = (10 * List.length x)%nat /\
    List.length dense_y = List.length dense_x /\
    forall v, In v dense_x -> hd 0 x <= v <= last x 0.
Proof.
  intros Hy Hlen Hinc. unfold smooth, PchipInterpolator.
  rewrite Hy, Nat.eqb_refl, Hinc. cbn [negb].
  destruct (Nat.ltb_spec (List.length x) 2) as [Hlt|_]; [lia|].
  cbn [Py.bind].
  destruct x as [|a [|b l]]; try (cbn in Hlen; lia).
  do 2 eexists. split; [reflexivity|].
  split; [unfold linspace; now rewrite length_map, length_seq|].
  split; [now rewrite length_map|].
  intros v Hv. cbn [hd].
  apply (@linspace_between a (last (a :: b :: l) 0)
           (10 * List.length (a :: b :: l))); [|assumption].
  apply Rlt_le. now apply increasing_first_last.
Qed.

(** [smooth_within_range] on three bins with centers 0, 1, 3. *)
Lemma smooth_within_range_witness :
  exists dense_x dense_y,
    smooth [0; 1; 3] [0; 2; 1] = Py.Return (dense_x, dense_y) /\
    List.length dense_x = 30%nat /\
    List.length dense_y = List.length dense_x /\
    forall v, In v dense_x -> 0 <= v <= 3.
Proof.
  apply (smooth_within_range [0; 1; 3] [0; 2; 1]).
  - reflexivity.
  - cbn. lia.
  - cbn. repeat (destruct (Rlt_dec _ _); [|lra]). reflexivity.
Defined.

End SmoothRange.

(** ** The regimes of the bulk viscosity *)

Section RegimeGroups.
Import Np.
Import Validation.
Import Posterior.
Local Open Scope R_scope.

Lemma three_way_count (labels : nat -> nat) (l : list nat) :
  (forall i, In i l -> (labels i < 3)%nat) ->
  (List.length (filter (fun i => Nat.eqb (labels i) 0) l)
   + List.length (filter (fun i => Nat.eqb (labels i) 1) l)
   + List.length (filter (fun i => Nat.eqb (labels i) 2) l))%nat
  = List.length l.
Proof.
  induction l as [|a l IH]; intros H; [reflexivity|].
  assert (Ha : (labels a < 3)%nat) by (apply H; now left).
  assert (IH' := IH (fun i Hi => H i (or_intror Hi))).
  cbn [filter].
  destruct (labels a) as [|[|[|k]]]; cbn [Nat.eqb List.length]; lia.
Qed.

(** With labels 0, 1 and 2 on the rows, the three groups of
    [samples[labels == n]] share out the rows of the sample matrix: their
    sizes add up to the number of rows, every row of a group carries the
    label of the group, and every row is in the group of its label. *)
Theorem regime_groups_partition (samples : array2) (labels : nat -> nat) :
  (forall i, (i < rows samples)%nat -> (labels i < 3)%nat) ->
  (rows (masked samples labels 0) + rows (masked samples labels 1)
   + rows (masked samples labels 2))%nat = rows samples /\
  (forall n r, (r < rows (masked samples labels n))%nat ->
     exists i, (i < rows samples)%nat /\ labels i = n /\
               forall j, item2 (masked samples labels n) r j
                         = item2 samples i j) /\
  (forall i, (i < rows samples)%nat ->
     exists r, (r < rows (masked samples labels (labels i)))%nat /\
               forall j, item2 (masked samples labels (labels i)) r j
                         = item2 samples i j).
Proof.
  intros Hlab. split; [|split].
  - unfold masked. cbn [rows].
    rewrite three_way_count; [apply length_seq|].
    intros i Hi. apply in_seq in Hi. apply Hlab. lia.
  - intros n r Hr. now apply (masked_rows samples labels n).
  - intros i Hi. now apply (masked_rows samples labels (labels i)).
Qed.

(** [regime_groups_partition] on four draws labelled 0, 1, 2, 0. *)
Lemma regime_groups_partition_witness :
  let labels := fun i => Nat.modulo i 3 in
  let samples := full2 4 2 (Fin 0.04) in
  (rows (masked samples labels 0) + rows (masked samples labels 1)
   + rows (masked samples labels 2))%nat = rows samples /\
  (forall n r, (r < rows (masked samples labels n))%nat ->
     exists i, (i < rows samples)%nat /\ labels i = n /\
               forall j, item2 (masked samples labels n) r j
                         = item2 samples i j) /\
  (forall i, (i < rows samples)%nat ->
     exists r, (r < rows (masked samples labels (labels i)))%nat /\
               forall j, item2 (masked samples labels (labels i)) r j
                         = item2 samples i j).
Proof.
  intros labels samples.
  apply (regime_groups_partition samples labels).
  intros i _. apply Nat.mod_upper_bound. lia.
Defined.

(** The curve of the bulk viscosity peaks at [Tc]: for a finite height
    [zetas_max] that is not negative and a finite width that is not zero,
    every value of the curve at a finite temperature lies between zero
    and [zetas_max], and the value at [Tc] is [zetas_max]. *)
Theorem zetas_peak (T : array1) (zmax zwidth : R) (t : nat) (temp : R) :
  0 <= zmax -> zwidth <> 0 ->
  item1 T t = Fin temp ->
  exists v,
    item1 (zetas T (Fin zmax) (Fin zwidth)) t = Fin v /\
    0 <= v <= zmax /\
    (temp = 0.154 -> v = zmax).
Proof.
  intros Hmax Hwidth HT. unfold zetas, Tc. cbn [map_array1 item1].
  rewrite HT. cbn [sub neg add div].
  unfold Reqb. destruct (Req_dec_T zwidth 0) as [E|_]; [contradiction|].
  cbn [square mul add div]. unfold Reqb.
  match goal with
  | |- context [Req_dec_T (1 + ?u * ?u) 0] =>
      set (w := u); assert (Hden : 1 <= 1 + w * w) by nra;
      destruct (Req_dec_T (1 + w * w) 0) as [E|_]; [lra|]
  end.
  eexists. split; [reflexivity|]. split.
  - split.
    + apply Rmult_le_pos; [assumption|].
      apply Rlt_le, Rinv_0_lt_compat. lra.
    + apply Rmult_le_reg_r with (r := 1 + w * w); [lra|].
      unfold Rdiv. rewrite Rmult_assoc, Rinv_l by lra. nra.
  - intros ->. assert (Hw : w = 0) by (subst w; field; assumption).
    rewrite Hw. field.
Qed.

(** [zetas_peak] at the temperature [Tc] with height 0.05 and width
    0.02. *)
Lemma zetas_peak_witness :
  exists v,
    item1 (zetas (full1 1 (Fin 0.154)) (Fin 0.05) (Fin 0.02)) 0 = Fin v /\
    0 <= v <= 0.05 /\
    (0.154 = 0.154 -> v = 0.05).
Proof.
  apply (@zetas_peak (full1 1 (Fin 0.154)) 0.05 0.02 0 0.154).
  - lra.
  - lra.
  - reflexivity.
Defined.

End RegimeGroups.

(** ** Keys of a dictionary that is filled item by item *)

Section RegimeKeys.
Import Np.
Import Posterior.
Local Open Scope R_scope.

Lemma contains_setitem (V : Type) (d : list (string * V)) k v q :
  Py.contains String.eqb (Py.setitem String.eqb d k v) q
  = Py.contains String.eqb d q || String.eqb k q.
Proof.
  induction d as [|[k0 v0] d IH]; cbn [Py.setitem Py.contains].
  - now rewrite orb_false_r.
  - destruct (String.eqb_spec k0 k) as [->|Hne]; cbn [Py.contains].
    + destruct (String.eqb k q), (Py.contains String.eqb d q); reflexivity.
    + rewrite IH. now rewrite orb_assoc.
Qed.

Lemma contains_fold (V : Type) (items d : list (string * V)) q :
  Py.contains String.eqb
    (fold_left (fun d kv => Py.setitem String.eqb d (fst kv) (snd kv))
               items d) q
  = Py.contains String.eqb d q
    || existsb (fun kv => String.eqb (fst kv) q) items.
Proof.
  revert d. induction items as [|kv items IH]; intros d; cbn [fold_left existsb].
  - now rewrite orb_false_r.
  - rewrite IH, contains_setitem. now rewrite orb_assoc.
Qed.

Lemma combine_keys_absent (V : Type) (keys : list string) (vals : list V) q :
  ~ In q keys ->
  existsb (fun kv => String.eqb (fst kv) q) (combine keys vals) = false.
Proof.
  intros Hq. destruct (existsb _ _) eqn:E; [|reflexivity].
  apply existsb_exists in E as ([k v] & Hin & Hk).
  apply in_combine_l in Hin. apply String.eqb_eq in Hk.
  cbn in Hk. subst. contradiction.
Qed.

End RegimeKeys.

(** ** Positions of the boxes in the validation figure *)

Section LayoutFacts.
Import Layout.
Local Open Scope Z_scope.

Lemma enumerate_from_last start m :
  last (enumerate_from start (S m)) 0 = start + Z.of_nat (S m) - 1.
Proof.
  unfold enumerate_from. rewrite seq_S, map_app. cbn [map].
  rewrite last_last. lia.
Qed.

Lemma arange_enumerate start m :
  arange start (start + Z.of_nat m) = enumerate_from start m.
Proof.
  unfold arange, enumerate_from. f_equal. f_equal. lia.
Qed.

Lemma step_bins st m :
  (1 <= m)%nat ->
  step st m =
  Py.Return
    {| index := index st + Z.of_nat m + 1;
       last_i := Some (index st + Z.of_nat m - 1);
       ticks := (ticks st
                 ++ [(0.5 * IZR (index st + (index st + Z.of_nat m - 1)))%R])%list;
       box_x := (box_x st ++ [enumerate_from (index st) m])%list;
       rms_x := (rms_x st ++ [enumerate_from (index st) m])%list |}.
Proof.
  intros Hm. destruct m as [|m]; [lia|]. unfold step.
  rewrite arange_enumerate.
  destruct (enumerate_from (index st) (S m)) as [|b l] eqn:E.
  - unfold enumerate_from in E. rewrite seq_S, map_app in E.
    now destruct (map _ (seq 0 m)).
  - rewrite <- E, enumerate_from_last. do 2 f_equal. lia.
Qed.

Lemma run_groups ms : forall st,
  Forall (fun m => (1 <= m)%nat) ms ->
  exists st',
    run st ms = Py.Return st' /\
    index st' = index st + Z.of_nat (list_sum ms) + Z.of_nat (List.length ms) /\
    ticks st' = (ticks st ++ middles_from (index st) ms)%list /\
    box_x st' = (box_x st ++ groups_from (index st) ms)%list /\
    rms_x st' = (rms_x st ++ groups_from (index st) ms)%list.
Proof.
  induction ms as [|m ms IH]; intros st Hms.
  - exists st. cbn. rewrite !app_nil_r. repeat split. lia.
  - inversion Hms as [|? ? Hm Hrest]; subst.
    cbn [run]. rewrite (step_bins st Hm). cbn [Py.bind].
    match goal with
    | |- context [run ?s ms] =>
        destruct (IH s Hrest) as (st' & Hrun & Hi & Ht & Hb & Hr)
    end.
    exists st'. cbn [index ticks box_x rms_x] in *.
    split; [assumption|]. split.
    + rewrite Hi. cbn [List.length].
      change (list_sum (m :: ms)) with (m + list_sum ms)%nat. lia.
    + cbn [middles_from groups_from].
      rewrite Ht, Hb, Hr, <- !app_assoc. repeat split.
Qed.

Lemma start_of_next ms k :
  (k < List.length ms)%nat ->
  start_of ms (S k) = start_of ms k + Z.of_nat (nth k ms O) + 1.
Proof.
  unfold start_of. revert k. induction ms as [|m ms IH]; intros k Hk;
    [cbn in Hk; lia|].
  destruct k as [|k].
  - cbn [firstn nth]. change (list_sum [m]) with (m + 0)%nat.
    change (list_sum []) with 0%nat. lia.
  - cbn [List.length] in Hk. assert (Hk' : (k < List.length ms)%nat) by lia.
    specialize (IH k Hk'). rewrite !firstn_cons. cbn [nth].
    change (list_sum (m :: firstn (S k) ms))
      with (m + list_sum (firstn (S k) ms))%nat.
    change (list_sum (m :: firstn k ms))
      with (m + list_sum (firstn k ms))%nat.
    lia.
Qed.

Lemma nth_groups_from ms : forall start k,
  (k < List.length ms)%nat ->
  nth k (groups_from start ms) [] =
    enumerate_from (start + (start_of ms k - 1)) (nth k ms O) /\
  nth k (middles_from start ms) 0%R =
    (0.5 * IZR ((start + (start_of ms k - 1))
                + ((start + (start_of ms k - 1))
                   + Z.of_nat (nth k ms O) - 1)))%R.
Proof.
  induction ms as [|m ms IH]; intros start k Hk; [cbn in Hk; lia|].
  destruct k as [|k].
  - cbn [nth groups_from middles_from]. unfold start_of.
    cbn [firstn list_sum fold_right].
    replace (start + (1 + Z.of_nat 0 + Z.of_nat 0 - 1)) with start by lia.
    split; reflexivity.
  - cbn [List.length] in Hk.
    destruct (IH (start + Z.of_nat m + 1) k) as [Hg Hm]; [lia|].
    cbn [nth groups_from middles_from]. rewrite Hg, Hm.
    replace (start + Z.of_nat m + 1 + (start_of ms k - 1))
      with (start + (start_of (m :: ms) (S k) - 1)).
    + split; reflexivity.
    + unfold start_of. rewrite firstn_cons.
      change (list_sum (m :: firstn k ms))
        with (m + list_sum (firstn k ms))%nat.
      lia.
Qed.

(** When every observable has at least one bin, the positions in the
    validation figure are these: observable [k] has its boxes at the
    consecutive positions from [start_of ms k] on, one per bin; its RMS
    points are at the same positions; its tick is in the middle of its
    first and last box; the next observable starts two after its last
    box, which leaves one position free; and the axes end at the number
    of bins plus the number of observables. *)
Theorem layout_positions (ms : list nat) :
  Forall (fun m => (1 <= m)%nat) ms ->
  exists st,
    layout ms = Py.Return st /\
    rms_x st = box_x st /\
    List.length (box_x st) = List.length ms /\
    List.length (ticks st) = List.length ms /\
    (forall k, (k < List.length ms)%nat ->
       nth k (box_x st) [] = enumerate_from (start_of ms k) (nth k ms O) /\
       nth k (ticks st) 0%R =
         (0.5 * IZR (start_of ms k
                     + (start_of ms k + Z.of_nat (nth k ms O) - 1)))%R /\
       start_of ms (S k) = (start_of ms k + Z.of_nat (nth k ms O) - 1) + 2) /\
    xlim st = (0, Z.of_nat (list_sum ms) + Z.of_nat (List.length ms)).
Proof.
  intros Hms. unfold layout.
  destruct (run_groups initial Hms) as (st & Hrun & Hi & Ht & Hb & Hr).
  cbn [index ticks box_x rms_x initial app] in *.
  exists st. split; [assumption|]. split; [congruence|].
  assert (Hlen : forall start, List.length (groups_from start ms)
                               = List.length ms /\
                               List.length (middles_from start ms)
                               = List.length ms).
  { clear. induction ms as [|m ms IH]; intros start; [split; reflexivity|].
    destruct (IH (start + Z.of_nat m + 1)) as [H1 H2].
    cbn. now rewrite H1, H2. }
  split; [rewrite Hb; apply Hlen|]. split; [rewrite Ht; apply Hlen|].
  split.
  - intros k Hk. destruct (nth_groups_from ms 1 Hk) as [Hg Hm].
    replace (1 + (start_of ms k - 1)) with (start_of ms k) in * by lia.
    rewrite Hb, Ht. split; [assumption|]. split; [assumption|].
    rewrite (start_of_next ms Hk). lia.
  - unfold xlim. rewrite Hi. f_equal. lia.
Qed.

(** [layout_positions] on three observables with 2, 1 and 3 bins. *)
Lemma layout_positions_witness :
  exists st,
    layout [2; 1; 3]%nat = Py.Return st /\
    rms_x st = box_x st /\
    List.length (box_x st) = 3%nat /\
    List.length (ticks st) = 3%nat /\
    (forall k, (k < 3)%nat ->
       nth k (box_x st) []
         = enumerate_from (start_of [2; 1; 3]%nat k) (nth k [2; 1; 3]%nat O) /\
       nth k (ticks st) 0%R =
         (0.5 * IZR (start_of [2; 1; 3]%nat k
                     + (start_of [2; 1; 3]%nat k
                        + Z.of_nat (nth k [2; 1; 3]%nat O) - 1)))%R /\
       start_of [2; 1; 3]%nat (S k)
         = (start_of [2; 1; 3]%nat k
            + Z.of_nat (nth k [2; 1; 3]%nat O) - 1) + 2) /\
    xlim st = (0, 9).
Proof.
  apply (@layout_positions [2; 1; 3]%nat).
  repeat constructor.
Defined.

(** The positions of two observables with two bins and one bin. *)
Example layout_2_1 :
  exists st,
    layout [2; 1]%nat = Py.Return st /\
    box_x st = [[1; 2]; [4]] /\ rms_x st = [[1; 2]; [4]] /\
    xlim st = (0, 5).
Proof. eexists. split; [reflexivity|]. repeat split. Qed.

Lemma run_app ms1 ms2 st :
  run st (ms1 ++ ms2) = (st' <- run st ms1 ;; run st' ms2).
Proof.
  revert st. induction ms1 as [|m ms1 IH]; intros st; [reflexivity|].
  cbn [app run]. destruct (step st m); cbn [Py.bind]; [apply IH|reflexivity].
Qed.

(** An observable without bins leaves the loop variable [i] as it was.
    In first place, [i] is not bound yet and the figure fails with
    [UnboundLocalError].  After observables that have bins, it takes no
    position: the axes end where they ended before, and its tick falls
    on the free position at that end. *)
Theorem layout_empty_observable (ms rest : list nat) :
  layout (O :: rest) = Py.Raise (Py.UnboundLocalError "i") /\
  (ms <> [] -> Forall (fun m => (1 <= m)%nat) ms ->
   exists st st',
     layout ms = Py.Return st /\
     layout (ms ++ [O]) = Py.Return st' /\
     xlim st' = xlim st /\
     box_x st' = (box_x st ++ [[]])%list /\
     ticks st' = (ticks st ++ [(0.5 * IZR (2 * snd (xlim st)))%R])%list).
Proof.
  split; [reflexivity|]. intros Hne Hms. unfold layout.
  destruct (run_groups initial Hms) as (st & Hrun & Hi & _).
  assert (Hlast : exists i, last_i st = Some i /\ index st = i + 2).
  { clear Hi. revert Hrun. generalize initial.
    induction ms as [|m ms IH]; [contradiction|]. intros st0 Hrun.
    inversion Hms as [|? ? Hm Hrest]; subst. cbn [run] in Hrun.
    rewrite (step_bins st0 Hm) in Hrun. cbn [Py.bind] in Hrun.
    destruct ms as [|m' ms].
    - cbn [run] in Hrun. injection Hrun as <-. cbn [last_i index].
      eexists. split; [reflexivity|]. lia.
    - apply (IH ltac:(discriminate) Hrest _ Hrun). }
  destruct Hlast as (i & Hlast & Hidx).
  exists st. eexists. split; [assumption|].
  rewrite run_app, Hrun. cbn [Py.bind run].
  unfold step. cbn [enumerate_from seq map]. rewrite Hlast. cbn [Py.bind].
  split; [reflexivity|]. unfold xlim. cbn [index box_x ticks snd].
  rewrite Hidx. split; [|split; [reflexivity|]].
  - f_equal; lia.
  - do 4 f_equal; lia.
Qed.

(** [layout_empty_observable] after two observables with two bins and
    one bin. *)
Lemma layout_empty_observable_witness :
  exists st st',
    layout [2; 1]%nat = Py.Return st /\
    layout ([2; 1]%nat ++ [O])%list = Py.Return st' /\
    xlim st' = xlim st /\
    box_x st' = (box_x st ++ [[]])%list /\
    ticks st' = (ticks st ++ [(0.5 * IZR (2 * snd (xlim st)))%R])%list.
Proof.
  destruct (@layout_empty_observable [2; 1]%nat []) as [_ H].
  apply H; [discriminate|repeat constructor].
Defined.

End LayoutFacts.

(** ** Labels of the observables in the validation figure *)

Section LabelFacts.

Lemma species_of_color sub c :
  Py.getitem subobs_eqb subobs_str Color.species_colors sub = Py.Return c ->
  sub = SubName "pion" \/ sub = SubName "kaon" \/ sub = SubName "proton".
Proof.
  unfold Color.species_colors. cbn [Py.getitem].
  destruct (subobs_eqb (SubName "pion") sub) eqn:E1;
    [apply subobs_eqb_eq in E1; auto|].
  destruct (subobs_eqb (SubName "kaon") sub) eqn:E2;
    [apply subobs_eqb_eq in E2; auto|].
  destruct (subobs_eqb (SubName "proton") sub) eqn:E3;
    [apply subobs_eqb_eq in E3; auto|].
  discriminate.
Qed.

Lemma flow_of_color sub c :
  Py.getitem subobs_eqb subobs_str Color.flow_colors sub = Py.Return c ->
  exists n k, sub = SubPair n k.
Proof.
  unfold Color.flow_colors. cbn [Py.getitem].
  repeat match goal with
  | |- context [subobs_eqb ?key sub] =>
      let E := fresh "E" in
      destruct (subobs_eqb key sub) eqn:E;
        [apply subobs_eqb_eq in E; subst; intros _; do 2 eexists;
         reflexivity|]
  end.
  discriminate.
Qed.

(** Every observable that has a colour has a label in the validation
    figure: whenever [obs_color_hsluv] returns for a key, [label]
    returns a string for that key, neither [None] nor an exception. *)
Theorem label_covers_colors (obs : string) (sub : subobs) (c : Color.hsluv) :
  Color.obs_color_hsluv obs sub = Py.Return c ->
  exists s, Labels.label obs sub = Py.Return (Some s).
Proof.
  unfold Color.obs_color_hsluv.
  destruct (Py.str_in obs ["dNch_deta"; "pT_fluct"]) eqn:E1.
  { intros _. apply str_in_In in E1.
    destruct E1 as [<-|[<-|[]]]; eexists; reflexivity. }
  destruct (String.eqb_spec obs "dET_deta") as [->|_].
  { intros _. eexists. reflexivity. }
  destruct (Py.str_in obs ["dN_dy"; "mean_pT"]) eqn:E3.
  { intros H. apply species_of_color in H. apply str_in_In in E3.
    destruct E3 as [<-|[<-|[]]]; destruct H as [->|[->| ->]];
      eexists; reflexivity. }
  destruct (String.eqb_spec obs "vnk") as [->|_]; [|discriminate].
  intros H. apply flow_of_color in H as (n & k & ->).
  eexists. reflexivity.
Qed.

(** [label_covers_colors] on the elliptic flow from two particles. *)
Lemma label_covers_colors_witness :
  exists s, Labels.label "vnk" (SubPair 2 2) = Py.Return (Some s).
Proof.
  apply (@label_covers_colors "vnk" (SubPair 2 2) (230, 90, 65)%Z).
  reflexivity.
Defined.

(** The labels of the charged multiplicity, of the kaon yield and of the
    elliptic flow from two particles. *)
Example label_examples :
  Labels.label "dNch_deta" SubNone
    = Py.Return (Some "$dN_\mathrm{ch}/d\eta$") /\
  Labels.label "dN_dy" (SubName "kaon") = Py.Return (Some "$dN/dy\ K$") /\
  Labels.label "vnk" (SubPair 2 2) = Py.Return (Some "$v_2\{2\}$") /\
  Labels.label "sc" SubNone = Py.Return None.
Proof. repeat split. Qed.

End LabelFacts.

(** ** The command line *)

Section CliFacts.
Import Cli.

Lemma split_slash_nonempty s : split_slash s <> [].
Proof.
  destruct s as [|c s]; cbn; [discriminate|].
  destruct (Ascii.eqb c "/"); [discriminate|].
  destruct (split_slash s); discriminate.
Qed.

Lemma split_slash_app u v :
  split_slash (u ++ String "/" v) = (split_slash u ++ split_slash v)%list.
Proof.
  induction u as [|c u IH]; [reflexivity|].
  cbn [append split_slash]. rewrite IH.
  destruct (Ascii.eqb c "/"); [reflexivity|].
  pose proof (split_slash_nonempty u).
  destruct (split_slash u); [contradiction|reflexivity].
Qed.

Lemma split_slash_plain s : no_slash s = true -> split_slash s = [s].
Proof.
  induction s as [|c s IH]; [reflexivity|]. cbn [no_slash split_slash].
  destruct (Ascii.eqb c "/"); [discriminate|]. cbn [negb andb].
  intros H. now rewrite (IH H).
Qed.

Lemma path_name_last dir file :
  no_slash file = true -> is_part file = true ->
  path_name (dir ++ String "/" file) = file /\ path_name file = file.
Proof.
  intros Hs Hp. unfold path_name.
  rewrite split_slash_app, (split_slash_plain _ Hs), filter_app.
  cbn [filter]. rewrite Hp. split; [apply last_last|reflexivity].
Qed.

Lemma rfind_dot_app u w :
  rfind_dot w = None -> rfind_dot (u ++ String "." w) = Some (String.length u).
Proof.
  intros Hw. induction u as [|c u IH]; cbn [append rfind_dot String.length].
  - now rewrite Hw.
  - now rewrite IH.
Qed.

Lemma substring_append u w :
  substring 0 (String.length u) (u ++ w) = u.
Proof.
  induction u as [|c u IH]; cbn [append String.length substring].
  - now destruct w.
  - now rewrite IH.
Qed.

Lemma length_append u w :
  String.length (u ++ w) = (String.length u + String.length w)%nat.
Proof.
  induction u as [|c u IH]; cbn [append String.length]; [reflexivity|].
  now rewrite IH.
Qed.

Lemma no_slash_append u w :
  no_slash u = true -> no_slash w = true -> no_slash (u ++ w) = true.
Proof.
  intros Hu Hw. induction u as [|c u IH]; [assumption|].
  cbn [append no_slash] in *. apply andb_true_iff in Hu as [Hc Hu].
  now rewrite Hc, IH.
Qed.

Lemma is_part_pdf name : is_part (name ++ ".pdf") = true.
Proof.
  unfold is_part. destruct name as [|c [|c' name]]; try reflexivity.
  - cbn. destruct (Ascii.eqb c "."); reflexivity.
  - cbn [append String.eqb]. destruct (Ascii.eqb c "."); reflexivity.
Qed.

(** The stem of the file a figure is saved to is the name of the figure:
    for a name that is not empty and has no slash, [Path(...).stem] of
    [plotdir/name.pdf], and of [name.pdf] alone, gives the name back. *)
Lemma stem_of_plotfile plotdir name :
  name <> "" -> no_slash name = true ->
  stem (plotfile plotdir name) = name /\ stem (name ++ ".pdf") = name.
Proof.
  intros Hne Hs.
  assert (Hfile : no_slash (name ++ ".pdf") = true)
    by (apply no_slash_append; [assumption|reflexivity]).
  destruct (@path_name_last plotdir (name ++ ".pdf") Hfile (is_part_pdf name))
    as [Hdir Hbare].
  assert (Hstem : forall arg, path_name arg = name ++ ".pdf" ->
                              stem arg = name).
  { intros arg Harg. unfold stem. rewrite Harg.
    change (name ++ ".pdf") with (name ++ String "." "pdf").
    rewrite rfind_dot_app by reflexivity.
    rewrite length_append. cbn [String.length].
    destruct name as [|c name]; [contradiction|]. cbn [String.length].
    replace (Nat.ltb 0 (S (String.length name))) with true by reflexivity.
    replace (Nat.ltb (S (String.length name))
               (S (String.length name) + 4 - 1)) with true
      by (symmetry; apply Nat.ltb_lt; lia).
    cbn [andb]. apply (substring_append (String c name)). }
  split; apply Hstem; [exact Hdir|exact Hbare].
Qed.

Lemma plot_names_valid name :
  In name plot_names -> name <> "" /\ no_slash name = true.
Proof.
  unfold plot_names. cbn [In]. intros H.
  repeat (destruct H as [<-|H]; [split; [discriminate|reflexivity]|]).
  contradiction.
Qed.

(** Saving and naming agree: for every registered figure, the file it is
    saved to, [plotdir/name.pdf] in any directory, is accepted by
    [arg_to_plot] and selects that same figure; so do [name.pdf] and the
    bare name. *)
Theorem arg_to_plot_round_trip (plotdir name : string) :
  In name plot_names ->
  arg_to_plot plot_names (plotfile plotdir name) = Py.Return name /\
  arg_to_plot plot_names (name ++ ".pdf") = Py.Return name /\
  arg_to_plot plot_names name = Py.Return name.
Proof.
  intros Hin. destruct (@plot_names_valid name Hin) as [Hne Hs].
  destruct (@stem_of_plotfile plotdir name Hne Hs) as [Hfile Hpdf].
  assert (Hreg : Py.str_in name plot_names = true) by now apply str_in_In.
  unfold arg_to_plot. rewrite Hfile, Hpdf, Hreg. cbn [negb].
  split; [reflexivity|]. split; [reflexivity|].
  revert Hin. unfold plot_names. cbn [In]. intros H.
  repeat (destruct H as [<-|H]; [reflexivity|]). contradiction.
Qed.

(** [arg_to_plot_round_trip] on the figure of the posterior, saved in
    the directory [plots]. *)
Lemma arg_to_plot_round_trip_witness :
  arg_to_plot plot_names (plotfile "plots" "posterior")
    = Py.Return "posterior" /\
  arg_to_plot plot_names ("posterior" ++ ".pdf") = Py.Return "posterior" /\
  arg_to_plot plot_names "posterior" = Py.Return "posterior".
Proof.
  apply (@arg_to_plot_round_trip "plots" "posterior").
  unfold plot_names. cbn [In]. auto 10.
Defined.

Lemma traverse_registered choices args : forall plots,
  Py.traverse (arg_to_plot choices) args = Py.Return plots ->
  List.length plots = List.length args /\
  forall p, In p plots -> In p choices.
Proof.
  induction args as [|a args IH]; intros plots H; cbn [Py.traverse] in H.
  - injection H as <-. split; [reflexivity|contradiction].
  - unfold arg_to_plot at 1 in H.
    destruct (Py.str_in (stem a) choices) eqn:E; cbn [negb] in H;
      [|discriminate].
    destruct (Py.traverse (arg_to_plot choices) args) as [rest|e];
      [|discriminate].
    injection H as <-. destruct (IH rest eq_refl) as [Hlen Hreg].
    split; [cbn; now rewrite Hlen|].
    intros p [<-|Hp]; [now apply str_in_In|now apply Hreg].
Qed.

(** The main program only runs registered figures: when the arguments
    are accepted, every figure it goes on to make is a key of
    [plot_functions], all of them when no argument is given; and an
    argument whose stem is not registered is refused with
    [ArgumentTypeError]. *)
Theorem to_run_registered (choices args : list string) :
  (forall plots, to_run choices args = Py.Return plots ->
     (forall p, In p plots -> In p choices) /\
     (args = [] -> plots = choices) /\
     (args <> [] -> List.length plots = List.length args)) /\
  (forall arg, ~ In (stem arg) choices ->
     arg_to_plot choices arg = Py.Raise (Py.ArgumentTypeError (stem arg))).
Proof.
  split.
  - intros plots. unfold to_run.
    destruct (Py.traverse (arg_to_plot choices) args) as [named|e] eqn:E;
      cbn [Py.bind]; [|discriminate].
    destruct (@traverse_registered _ _ _ E) as [Hlen Hreg].
    destruct named as [|p named]; intros H; injection H as <-.
    + split; [tauto|]. split; [reflexivity|].
      intros Hne. destruct args; [contradiction|discriminate].
    + split; [exact Hreg|]. split; [|intros _; exact Hlen].
      intros ->. discriminate.
  - intros arg Hout. apply str_in_not_In in Hout.
    unfold arg_to_plot. now rewrite Hout.
Qed.

(** [to_run_registered] on a call that names the posterior by its file
    and on an argument that names no figure. *)
Lemma to_run_registered_witness :
  to_run plot_names ["plots/posterior.pdf"] = Py.Return ["posterior"] /\
  (forall p, In p ["posterior"] -> In p plot_names) /\
  arg_to_plot plot_names "plots/summary.pdf"
    = Py.Raise (Py.ArgumentTypeError "summary").
Proof.
  destruct (to_run_registered plot_names ["plots/posterior.pdf"])
    as [Hrun Hrefuse].
  assert (H : to_run plot_names ["plots/posterior.pdf"]
              = Py.Return ["posterior"]) by reflexivity.
  split; [exact H|]. split.
  - exact (proj1 (Hrun _ H)).
  - apply (Hrefuse "plots/summary.pdf"). cbn. intuition discriminate.
Defined.

End CliFacts.

(** ** The parameters of the search for the MAP point *)

Section FindMapFacts.
Import Np.
Import FindMap.
Local Open Scope R_scope.

Local Abbreviation item := (Py.getitem String.eqb (fun s : string => s)).
Local Abbreviation has := (Py.contains String.eqb).
Local Abbreviation set_items :=
  (fold_left (fun d kv => Py.setitem String.eqb d (fst kv) (snd kv))).

Lemma getitem_setitem (V : Type) (d : list (string * V)) k v q :
  item (Py.setitem String.eqb d k v) q = item ((k, v) :: d) q.
Proof.
  induction d as [|[k0 v0] d IH]; [reflexivity|].
  cbn [Py.setitem].
  destruct (String.eqb_spec k0 k) as [->|Hne].
  - cbn [Py.getitem]. now destruct (String.eqb k q).
  - cbn [Py.getitem] in *. rewrite IH.
    destruct (String.eqb_spec k0 q) as [->|H0]; [|reflexivity].
    destruct (String.eqb_spec k q) as [->|H1]; [contradiction|reflexivity].
Qed.

Lemma getitem_app (V : Type) (a b : list (string * V)) q :
  item (a ++ b)%list q
  = if has a q then item a q else item b q.
Proof.
  induction a as [|[k v] a IH]; [reflexivity|].
  cbn [app Py.getitem Py.contains].
  destruct (String.eqb k q); [reflexivity|exact IH].
Qed.

Lemma getitem_app_tail (V : Type) (a b b' : list (string * V)) q :
  item b q = item b' q -> item (a ++ b)%list q = item (a ++ b')%list q.
Proof.
  intros H. rewrite !getitem_app. now destruct (has a q).
Qed.

(** Setting items one after the other is looking them up from the last
    one set. *)
Lemma getitem_set_items (V : Type) (items d : list (string * V)) q :
  item (set_items items d) q = item (rev items ++ d)%list q.
Proof.
  revert d. induction items as [|[k v] items IH]; intros d; [reflexivity|].
  cbn [fold_left rev fst snd]. rewrite IH, <- app_assoc.
  apply getitem_app_tail. apply getitem_setitem.
Qed.

Lemma contains_In (V : Type) (d : list (string * V)) q :
  has d q = true <-> In q (map fst d).
Proof.
  induction d as [|[k v] d IH]; cbn [Py.contains map In fst].
  - split; [discriminate|contradiction].
  - rewrite orb_true_iff, IH, String.eqb_eq. tauto.
Qed.

Lemma getitem_In (V : Type) (d : list (string * V)) q v :
  NoDup (map fst d) -> In (q, v) d -> item d q = Py.Return v.
Proof.
  induction d as [|[k w] d IH]; cbn [map fst In Py.getitem];
    [contradiction|].
  intros Hnd [Heq|Hin].
  - injection Heq as -> ->. now rewrite String.eqb_refl.
  - inversion Hnd as [|? ? Hk Hd]; subst.
    destruct (String.eqb_spec k q) as [->|_]; [|now apply IH].
    exfalso. apply Hk. apply (in_map fst) in Hin. exact Hin.
Qed.

Lemma NoDup_combine_fst (V : Type) (a : list string) (b : list V) :
  NoDup a -> NoDup (map fst (combine a b)).
Proof.
  revert b. induction a as [|k a IH]; intros [|v b] Hnd; cbn [combine map fst];
    try constructor.
  - inversion Hnd as [|? ? Hk Ha]; subst. intros Hin. apply Hk.
    apply in_map_iff in Hin as ([k' v'] & Hk' & Hin). cbn in Hk'. subst.
    now apply in_combine_l in Hin.
  - inversion Hnd; subst. now apply IH.
Qed.

Lemma nth_error_combine_In (A B : Type) (a : list A) (b : list B) i p q :
  nth_error a i = Some p -> nth_error b i = Some q -> In (p, q) (combine a b).
Proof.
  revert a b. induction i as [|i IH]; intros [|p' a] [|q' b];
    cbn [nth_error combine In]; try discriminate.
  - intros [= ->] [= ->]. now left.
  - intros Ha Hb. right. now apply IH.
Qed.

Lemma fixed_rev q :
  has fixed_params q = true ->
  forall rest, item (rev fixed_params ++ rest)%list q = item fixed_params q.
Proof.
  intros H rest. apply contains_In in H. cbn [fixed_params map fst In] in H.
  destruct H as [<-|[<-|[<-|[<-|[]]]]]; reflexivity.
Qed.

Lemma not_fixed_rev q :
  has fixed_params q = false ->
  forall rest, item (rev fixed_params ++ rest)%list q = item rest q.
Proof.
  intros H rest. rewrite getitem_app.
  replace (has (rev fixed_params) q) with false; [reflexivity|].
  symmetry. unfold fixed_params in *. cbn [rev app Py.contains] in *.
  repeat (apply orb_false_elim in H as [?E H]).
  repeat match goal with E : _ = false |- _ => rewrite E; clear E end.
  reflexivity.
Qed.

(** The dictionary of [full_x], key by key: a fixed parameter has its
    fixed value whatever [x] is, and the parameter at place [i] of
    [opt_params] has [x[i]]. *)
Lemma full_dict_fixed keys x q :
  has fixed_params q = true ->
  item (full_dict keys x) q = item fixed_params q.
Proof.
  intros H. unfold full_dict. rewrite getitem_set_items.
  now apply fixed_rev.
Qed.

Lemma full_dict_searched keys x q i v :
  NoDup keys -> has fixed_params q = false ->
  nth_error (opt_params keys) i = Some q -> nth_error x i = Some v ->
  item (full_dict keys x) q = Py.Return v.
Proof.
  intros Hnd Hq Hi Hv. unfold full_dict.
  rewrite getitem_set_items, (@not_fixed_rev q Hq).
  unfold Py.dict_of. rewrite getitem_set_items, app_nil_r.
  apply getitem_In.
  - rewrite map_rev. apply NoDup_rev. apply NoDup_combine_fst.
    unfold opt_params. now apply NoDup_filter.
  - apply in_rev. rewrite rev_involutive.
    now apply nth_error_combine_In with (i := i).
Qed.

Lemma full_dict_absent keys x q :
  has fixed_params q = false ->
  ~ In q (firstn (List.length x) (opt_params keys)) ->
  item (full_dict keys x) q = Py.Raise (Py.KeyError q).
Proof.
  intros Hq Hout. apply (@getitem_missing string float String.eqb).
  unfold full_dict, Py.dict_of. rewrite !contains_fold.
  cbn [Py.contains orb].
  replace (existsb (fun kv : string * float => String.eqb (fst kv) q)
             fixed_params) with false by (symmetry; exact Hq).
  rewrite orb_false_r. destruct (existsb _ _) eqn:E; [|reflexivity].
  exfalso. apply Hout. apply existsb_exists in E as ([k v] & Hin & Hk).
  apply String.eqb_eq in Hk. cbn in Hk. subst k.
  clear - Hin. revert x Hin.
  induction (opt_params keys) as [|k ks IH]; intros [|v' x] Hin;
    cbn [combine In] in Hin; try contradiction.
  cbn [List.length firstn In]. destruct Hin as [[= -> ->]|Hin]; [now left|].
  right. now apply IH.
Qed.

Lemma traverse_Forall2 (A B : Type) (f : A -> Py.result B) (l : list A) :
  (forall a, In a l -> exists b, f a = Py.Return b) ->
  exists r, Py.traverse f l = Py.Return r /\
            Forall2 (fun a b => f a = Py.Return b) l r.
Proof.
  induction l as [|a l IH]; intros H; cbn [Py.traverse].
  - exists []. split; [reflexivity|constructor].
  - destruct (H a (or_introl eq_refl)) as [b Hb]. rewrite Hb.
    destruct IH as (r & Hr & Hall); [intros; apply H; now right|].
    rewrite Hr. exists (b :: r). split; [reflexivity|now constructor].
Qed.

Lemma traverse_raises (A B : Type) (f : A -> Py.result B) pre a post e :
  (forall p, In p pre -> exists b, f p = Py.Return b) ->
  f a = Py.Raise e ->
  Py.traverse f (pre ++ a :: post)%list = Py.Raise e.
Proof.
  intros Hpre Ha. induction pre as [|p pre IH]; cbn [app Py.traverse].
  - now rewrite Ha.
  - destruct (Hpre p (or_introl eq_refl)) as [b ->].
    rewrite IH; [reflexivity|intros; apply Hpre; now right].
Qed.

Lemma searched_firstn (g : string -> Py.result float) :
  forall keys x l,
  (List.length (opt_params keys) <= List.length x)%nat ->
  (forall i k v, nth_error (opt_params keys) i = Some k ->
                 nth_error x i = Some v -> g k = Py.Return v) ->
  Forall2 (fun k v => g k = Py.Return v) keys l ->
  searched keys l = firstn (List.length (opt_params keys)) x.
Proof.
  induction keys as [|k keys IH]; intros x l Hlen Hg Hall;
    inversion Hall as [|? v ? l' Hk Hrest]; subst; [reflexivity|].
  unfold searched, opt_params in *. cbn [combine filter fst] in *.
  destruct (has fixed_params k); cbn [negb] in *.
  - now apply IH.
  - destruct x as [|x0 x]; cbn [List.length] in Hlen; [lia|].
    cbn [map snd List.length firstn].
    assert (v = x0) as ->.
    { specialize (Hg 0%nat k x0 eq_refl eq_refl). congruence. }
    f_equal. apply IH; [lia| |assumption].
    intros i k' v' Hi Hv. now apply (Hg (S i)).
Qed.

Lemma opt_params_In keys k :
  In k (opt_params keys) <-> In k keys /\ has fixed_params k = false.
Proof.
  unfold opt_params. rewrite filter_In, negb_true_iff. tauto.
Qed.

Lemma full_dict_returns keys x :
  NoDup keys ->
  (List.length (opt_params keys) <= List.length x)%nat ->
  forall k, In k keys -> exists v, item (full_dict keys x) k = Py.Return v.
Proof.
  intros Hnd Hlen k Hk.
  destruct (has fixed_params k) eqn:Hfix.
  - rewrite (@full_dict_fixed keys x k Hfix).
    now apply (@getitem_contains string float String.eqb).
  - assert (Hopt : In k (opt_params keys)) by now apply opt_params_In.
    apply In_nth_error in Hopt as [i Hi].
    assert (Hlt : (i < List.length (opt_params keys))%nat)
      by (apply nth_error_Some; congruence).
    destruct (nth_error x i) as [v|] eqn:Hv.
    + exists v. now apply full_dict_searched with (i := i).
    + apply nth_error_None in Hv. lia.
Qed.

(** [full_x] puts the fixed parameters back: for distinct keys and an
    [x] with a number for every parameter that is searched, it returns
    one number for every key of the chain; a fixed parameter has its
    fixed value, and the numbers at the other places are those of [x],
    in order. *)
Theorem full_x_round_trip (keys : list string) (x : list float) :
  NoDup keys ->
  (List.length (opt_params keys) <= List.length x)%nat ->
  exists l,
    full_x keys x = Py.Return l /\
    List.length l = List.length keys /\
    searched keys l = firstn (List.length (opt_params keys)) x /\
    forall i k v, nth_error keys i = Some k ->
                  item fixed_params k = Py.Return v ->
                  nth_error l i = Some v.
Proof.
  intros Hnd Hlen. unfold full_x.
  destruct (@traverse_Forall2 _ _ (item (full_dict keys x)) keys
              (@full_dict_returns keys x Hnd Hlen)) as (l & Hl & Hall).
  exists l. split; [exact Hl|]. split.
  { symmetry. exact (Forall2_length Hall). }
  split.
  { apply searched_firstn with (g := item (full_dict keys x));
      [assumption| |assumption].
    intros i k v Hi Hv.
    assert (Hin : In k (opt_params keys)) by (eapply nth_error_In; eauto).
    apply opt_params_In in Hin as [_ Hfree].
    now apply full_dict_searched with (i := i). }
  intros i k v Hi Hv.
  assert (Hfix : has fixed_params k = true).
  { destruct (has fixed_params k) eqn:E; [reflexivity|].
    rewrite (@getitem_missing string float String.eqb (fun s => s) _ _ E)
      in Hv. discriminate. }
  clear Hl. revert i Hi. induction Hall as [|k' v' ks l Hk' Hall IH];
    intros [|i] Hi; cbn [nth_error] in *; try discriminate.
  - injection Hi as ->. rewrite (@full_dict_fixed keys x _ Hfix) in Hk'.
    congruence.
  - now apply IH.
Qed.

(** With fewer numbers in [x] than parameters to search, [full_x] raises
    [KeyError] for the first searched parameter that [x] does not reach:
    [zip] stops at the end of [x], and the dictionary lacks that key. *)
Theorem full_x_too_short (keys : list string) (x : list float) :
  NoDup keys ->
  (List.length x < List.length (opt_params keys))%nat ->
  full_x keys x
  = Py.Raise (Py.KeyError (nth (List.length x) (opt_params keys) "")).
Proof.
  intros Hnd Hlen.
  set (k := nth (List.length x) (opt_params keys) "").
  assert (Hk : nth_error (opt_params keys) (List.length x) = Some k)
    by now apply nth_error_nth'.
  assert (Hin : In k (opt_params keys)) by (eapply nth_error_In; eauto).
  apply opt_params_In in Hin as [Hkeys Hfree].
  destruct (in_split _ _ Hkeys) as (pre & post & Hsplit).
  assert (Hopt : opt_params keys
                 = (opt_params pre ++ k :: opt_params post)%list).
  { rewrite Hsplit. unfold opt_params. rewrite filter_app. cbn [filter].
    now rewrite Hfree. }
  assert (Hnd' : NoDup (opt_params keys))
    by (unfold opt_params; now apply NoDup_filter).
  assert (Hpos : List.length x = List.length (opt_params pre)).
  { apply (proj1 (NoDup_nth_error (opt_params keys)) Hnd'); [assumption|].
    rewrite Hk, Hopt, nth_error_app2, Nat.sub_diag by lia. reflexivity. }
  unfold full_x. rewrite Hsplit at 2. apply traverse_raises.
  - intros p Hp. destruct (has fixed_params p) eqn:Hfix.
    + rewrite (@full_dict_fixed keys x p Hfix).
      now apply (@getitem_contains string float String.eqb).
    + assert (Hp' : In p (opt_params pre)) by now apply opt_params_In.
      apply In_nth_error in Hp' as [i Hi].
      assert (Hlt : (i < List.length (opt_params pre))%nat)
        by (apply nth_error_Some; congruence).
      destruct (nth_error x i) as [v|] eqn:Hv;
        [|apply nth_error_None in Hv; lia].
      exists v. apply full_dict_searched with (i := i); try assumption.
      rewrite Hopt, nth_error_app1; assumption.
  - apply full_dict_absent; [assumption|].
    rewrite Hpos, Hopt, firstn_app, Nat.sub_diag, firstn_O, app_nil_r,
      firstn_all.
    rewrite Hopt in Hnd'. apply NoDup_remove_2 in Hnd'.
    intros Hin. apply Hnd'. apply in_or_app. now left.
Qed.

End FindMapFacts.

(** [full_x_round_trip] on a chain of three parameters, the second of
    which is fixed. *)
Lemma full_x_round_trip_witness :
  exists l,
    FindMap.full_x ["norm"; "trento_p"; "etas_slope"] [Np.Fin 1; Np.Fin 2]
      = Py.Return l /\
    List.length l = 3%nat /\
    FindMap.searched ["norm"; "trento_p"; "etas_slope"] l
      = [Np.Fin 1; Np.Fin 2] /\
    nth_error l 1 = Some (Np.Fin 0).
Proof.
  destruct (@full_x_round_trip ["norm"; "trento_p"; "etas_slope"]
              [Np.Fin 1; Np.Fin 2]) as (l & Hl & Hlen & Hs & Hfix).
  - repeat constructor; cbn; intuition discriminate.
  - cbn. lia.
  - exists l. split; [exact Hl|]. split; [exact Hlen|].
    split; [exact Hs|]. apply (Hfix 1%nat "trento_p"); reflexivity.
Defined.

(** [full_x_too_short] on a chain of three parameters, two of them
    searched, with one number. *)
Lemma full_x_too_short_witness :
  FindMap.full_x ["norm"; "trento_p"; "etas_slope"] [Np.Fin 1]
  = Py.Raise (Py.KeyError "etas_slope").
Proof.
  apply (@full_x_too_short ["norm"; "trento_p"; "etas_slope"] [Np.Fin 1]).
  - repeat constructor; cbn; intuition discriminate.
  - cbn. lia.
Defined.

(** ** The shear viscosity *)

Section ShearFacts.
Import Shear.
Local Open Scope R_scope.

Lemma Tc_pos : 0 < Tc.
Proof. unfold Tc. lra. Qed.

Lemma ratio_ge_1 t : Tc <= t -> 1 <= t / Tc.
Proof.
  intros Ht. pose proof Tc_pos as Hc.
  apply Rmult_le_reg_r with (r := Tc); [assumption|].
  unfold Rdiv. rewrite Rmult_assoc, Rinv_l by lra. lra.
Qed.

Lemma Rpower_pos x c : 0 < Rpower x c.
Proof. unfold Rpower. apply exp_pos. Qed.

Lemma etas_monotone t m s c m' s' c' :
  Tc <= t -> m <= m' -> 0 <= s <= s' -> c <= c' ->
  etas t m s c <= etas t m' s' c'.
Proof.
  intros Ht Hm Hs Hc. unfold etas.
  pose proof (Rpower_pos (t / Tc) c) as Hp.
  pose proof (Rle_Rpower (t / Tc) c c' (ratio_ge_1 Ht) Hc) as Hpow.
  assert (H1 : s * (t - Tc) <= s' * (t - Tc))
    by (apply Rmult_le_compat_r; lra).
  assert (H0 : 0 <= s * (t - Tc)) by (apply Rmult_le_pos; lra).
  assert (H2 : s * (t - Tc) * Rpower (t / Tc) c
               <= s' * (t - Tc) * Rpower (t / Tc) c')
    by (apply Rmult_le_compat; lra).
  lra.
Qed.

(** The parameter [etas_min] is the minimum of the curve: [etas] takes
    the value [m] at [Tc], and at no temperature from [Tc] on is it
    below [m] when the slope is not negative, whatever the curvature. *)
Theorem etas_minimum (t m s c : R) :
  Tc <= t -> 0 <= s ->
  etas Tc m s c = m /\ m <= etas t m s c.
Proof.
  intros Ht Hs. split.
  - unfold etas. replace (Tc - Tc) with 0 by ring. ring.
  - unfold etas. pose proof (Rpower_pos (t / Tc) c) as Hp.
    assert (H : 0 <= s * (t - Tc) * Rpower (t / Tc) c).
    { apply Rmult_le_pos; [apply Rmult_le_pos|]; lra. }
    lra.
Qed.

(** The prior region covers every curve that the prior allows: at each
    of the hundred temperatures of the figure, a curve whose parameters
    are not above the upper ends of their ranges, with a slope that is
    not negative, is not above the edge of the region. *)
Theorem prior_covers_curves (rmin rslope rcurv : R * R) (m s c : R) (i : nat) :
  (i < 100)%nat ->
  m <= snd rmin -> 0 <= s <= snd rslope -> c <= snd rcurv ->
  List.length (prior rmin rslope rcurv) = 100%nat /\
  Tc <= nth i T 0 <= 0.3 /\
  etas (nth i T 0) m s c <= nth i (prior rmin rslope rcurv) 0.
Proof.
  intros Hi Hm Hs Hc.
  assert (Hlen : List.length T = 100%nat).
  { unfold T, Pchip.linspace. now rewrite length_map, length_seq. }
  assert (Hin : In (nth i T 0) T) by (apply nth_In; lia).
  assert (Ht : Tc <= nth i T 0 <= 0.3).
  { apply (@linspace_between Tc 0.3 100); [unfold Tc; lra|exact Hin]. }
  split; [unfold prior; now rewrite length_map|]. split; [exact Ht|].
  unfold prior.
  rewrite (nth_indep
             (map (fun t => etas t (snd rmin) (snd rslope) (snd rcurv)) T)
             0 (etas 0 (snd rmin) (snd rslope) (snd rcurv)))
    by (rewrite length_map; lia).
  rewrite (map_nth (fun t => etas t (snd rmin) (snd rslope) (snd rcurv))).
  apply etas_monotone; tauto.
Qed.

End ShearFacts.

(** [etas_minimum] on the first of the example curves of the figure, at
    the temperature 0.2. *)
Lemma etas_minimum_witness :
  (Shear.etas Shear.Tc 0.05 1 (-1) = 0.05 /\
   0.05 <= Shear.etas 0.2 0.05 1 (-1))%R.
Proof.
  apply (@etas_minimum 0.2 0.05 1 (-1))%R; unfold Shear.Tc; lra.
Defined.

(** [prior_covers_curves] on the second of the example curves and the
    ranges [(0, 0.3)], [(0, 2)] and [(-1, 1)], at the tenth
    temperature. *)
Lemma prior_covers_curves_witness :
  (List.length (Shear.prior (0, 0.3) (0, 2) (-1, 1)) = 100%nat /\
   Shear.Tc <= nth 9 Shear.T 0 <= 0.3 /\
   Shear.etas (nth 9 Shear.T 0) 0.10 1.7 0
   <= nth 9 (Shear.prior (0, 0.3) (0, 2) (-1, 1)) 0)%R.
Proof.
  apply (@prior_covers_curves (0, 0.3) (0, 2) (-1, 1) 0.10 1.7 0 9)%R;
    cbn [snd]; try lia; lra.
Defined.

(** ** The minimal boxplot *)

Section BoxplotFacts.
Import Boxplot.
Local Open Scope R_scope.

(** [boxplot] takes five percentiles and nothing else: with five it
    returns, having drawn four artists, and with any other number the
    unpacking raises [ValueError] before anything is drawn. *)
Theorem boxplot_takes_five (percentiles : list R) (x y box_width : R) :
  (List.length percentiles = 5%nat ->
   exists box median low high,
     boxplot percentiles x y box_width
     = Py.Return [Patch box; median; low; high]) /\
  (List.length percentiles <> 5%nat ->
   exists msg,
     boxplot percentiles x y box_width = Py.Raise (Py.ValueError msg)).
Proof.
  unfold boxplot.
  destruct percentiles as [|a [|b [|c [|d [|e [|f rest]]]]]];
    cbn [List.length map]; split; intros H; try lia; try discriminate;
    try (eexists; reflexivity); try (do 4 eexists; reflexivity).
Qed.


(** The boxes of [validation_all] do not touch: the boxes of two bins at
    different positions are a quarter of a position apart, at least. *)
Theorem validation_boxes_apart (p p' : list R) (i j : Z)
  (a b : rectangle) (ra rb : list artist) :
  (i < j)%Z ->
  validation_box p i = Py.Return (Patch a :: ra) ->
  validation_box p' j = Py.Return (Patch b :: rb) ->
  right a + 0.25 <= left b.
Proof.
  intros Hij Ha Hb. unfold validation_box, boxplot in *.
  assert (Hr : IZR i + 1 <= IZR j).
  { rewrite <- plus_IZR. apply IZR_le. lia. }
  destruct (map (fun q => q + 0) p) as [|? [|? [|? [|? [|? [|? ?]]]]]];
    cbn [List.length Nat.ltb Nat.leb] in Ha; try discriminate.
  destruct (map (fun q => q + 0) p') as [|? [|? [|? [|? [|? [|? ?]]]]]];
    cbn [List.length Nat.ltb Nat.leb] in Hb; try discriminate.
  injection Ha as <- _. injection Hb as <- _.
  unfold left, right. cbn [xy width fst]. lra.
Qed.

End BoxplotFacts.


(** [validation_boxes_apart] on the boxes at the positions 3 and 4. *)
Lemma validation_boxes_apart_witness :
  (Boxplot.right
     {| Boxplot.xy := (3 - 0.5 * 0.75, -0.7 + 0);
        Boxplot.width := 0.75; Boxplot.height := 0.7 + 0 - (-0.7 + 0) |}
   + 0.25
   <= Boxplot.left
        {| Boxplot.xy := (4 - 0.5 * 0.75, -0.5 + 0);
           Boxplot.width := 0.75; Boxplot.height := 0.5 + 0 - (-0.5 + 0) |})%R.
Proof.
  eapply (@validation_boxes_apart
            [-1.3; -0.7; 0; 0.7; 1.3]%R [-1; -0.5; 0; 0.5; 1]%R 3 4);
    [lia|reflexivity|reflexivity].
Defined.

(** [boxplot_takes_five] on five and on four percentiles. *)
Lemma boxplot_takes_five_witness :
  ((exists box median low high,
      Boxplot.boxplot [-1.3; -0.7; 0; 0.7; 1.3] 3 0 0.75
      = Py.Return [Boxplot.Patch box; median; low; high]) /\
   (exists msg,
      Boxplot.boxplot [-1.3; -0.7; 0; 0.7] 3 0 0.75
      = Py.Raise (Py.ValueError msg)))%R.
Proof.
  split.
  - apply (proj1 (boxplot_takes_five [-1.3; -0.7; 0; 0.7; 1.3] 3 0 0.75)%R).
    reflexivity.
  - apply (proj2 (boxplot_takes_five [-1.3; -0.7; 0; 0.7] 3 0 0.75)%R).
    cbn. lia.
Defined.

(** ** Order statistics and quantiles *)

Section QuantileFacts.
Import Mcmc.
Local Open Scope R_scope.










End QuantileFacts.

(** ** The curves of the regimes of the bulk viscosity *)

Section BulkFacts.
Import Np.
Import Posterior.
Import Mcmc.
Import Bulk.
Local Open Scope R_scope.











Lemma combine_fst_snd (A B C : Type) (items : list (A * (B * C))) :
  map fst (combine (map fst items) (map snd (map snd items)))
  = map fst items.
Proof.
  induction items as [|[a bc] items IH]; [reflexivity|].
  cbn [map combine fst]. now rewrite IH.
Qed.

(** The keys of [maxdict] are the keys of the chain that start with
    [zetas]. *)
Lemma maxdict_keys (items : list (string * (float * float))) (q : string) :
  In q (map fst (maxdict (map fst items) (map snd items)))
  <-> In q (map fst items).
Proof.
  rewrite <- contains_In. unfold maxdict, Py.dict_of.
  rewrite contains_fold. cbn [Py.contains orb]. rewrite existsb_exists.
  split.
  - intros ([k x] & Hin & E). apply String.eqb_eq in E. cbn [fst] in E.
    subst k. rewrite <- (combine_fst_snd items).
    apply in_map_iff. now exists (q, x).
  - intros H. rewrite <- (combine_fst_snd items) in H.
    apply in_map_iff in H as ([k x] & E & Hin). cbn [fst] in E.
    subst k. exists (q, x). split; [assumption|apply String.eqb_refl].
Qed.



(** A key of the chain that starts with [zetas] and is neither
    [zetas_max] nor [zetas_width] stops [_region_bulk] in every mode,
    whatever the other keys and the draws are: the dictionary of the
    upper ends has that key, and the call of [zetas] with the
    dictionary as keywords raises [TypeError] before anything is
    drawn. *)
Theorem region_bulk_foreign_key (chain_keys : list string)
  (chain_range : list (float * float)) (mode : string) (samples : array2)
  (labels : nat -> nat) (p : nat) (k : string) (r : float * float) :
  nth_error chain_keys p = Some k ->
  nth_error chain_range p = Some r ->
  String.prefix "zetas" k = true ->
  k <> "zetas_max" -> k <> "zetas_width" ->
  region_bulk chain_keys chain_range mode samples labels
  = Py.Raise (Py.TypeError "zetas() got an unexpected keyword argument").
Proof.
  intros Hk Hr Hprefix Hmax Hwidth. unfold region_bulk.
  assert (Hin : In (k, r) (zetas_items chain_keys chain_range)).
  { apply filter_In. split; [|exact Hprefix].
    now apply nth_error_combine_In with (i := p). }
  destruct (zetas_items chain_keys chain_range) as [|it items];
    [contradiction|].
  cbn [unpack_items Py.bind fst snd].
  pose proof (maxdict_keys (it :: items) k) as Hkeys.
  generalize T. intros T0. unfold call_zetas.
  destruct (forallb (fun kv => Py.str_in (fst kv)
                                 ["zetas_max"; "zetas_width"])
              (maxdict (map fst (it :: items)) (map snd (it :: items))))
    eqn:Hd; [exfalso|reflexivity].
  assert (Hk' : In k (map fst (maxdict (map fst (it :: items))
                                       (map snd (it :: items)))))
    by (apply Hkeys, in_map_iff; now exists (k, r)).
  apply in_map_iff in Hk' as ([k' x] & E & Hx). cbn [fst] in E. subst k'.
  apply (proj1 (forallb_forall _ _) Hd) in Hx. cbn [fst] in Hx.
  apply str_in_In in Hx. destruct Hx as [E|[E|[]]]; congruence.
Qed.

End BulkFacts.

(** ** The regimes of the example draws *)

Section BulkExamples.
Import Np.
Import Posterior.
Import Mcmc.
Import Bulk.
Local Open Scope R_scope.











End BulkExamples.




(** [region_bulk_foreign_key] on a chain with the key [zetas_t0] beside
    the two keys that [zetas] takes, in the mode that draws the prior
    region only. *)
Lemma region_bulk_foreign_key_witness :
  Bulk.region_bulk ["zetas_max"; "zetas_width"; "zetas_t0"]
                   [(Np.Fin 0, Np.Fin 0.1); (Np.Fin 0, Np.Fin 0.1);
                    (Np.Fin 0, Np.Fin 1)]%R "empty"
                   Bulk.example_samples Bulk.example_labels
  = Py.Raise (Py.TypeError "zetas() got an unexpected keyword argument").
Proof.
  apply (@region_bulk_foreign_key ["zetas_max"; "zetas_width"; "zetas_t0"]
           [(Np.Fin 0, Np.Fin 0.1); (Np.Fin 0, Np.Fin 0.1);
            (Np.Fin 0, Np.Fin 1)]%R "empty"
           Bulk.example_samples Bulk.example_labels 2 "zetas_t0"
           (Np.Fin 0, Np.Fin 1)%R);
    try reflexivity; discriminate.
Defined.
